(** * Host-device network driver: relocation engine and lifecycle handlers

    A shallow embedding of
      - [pkg/net/hostdevice.go]  ([NsAttachNetdev], [NsDetachNetdev]) and
      - the host-device driver's [main.go] ([NetworkDriver] and its DRA / NRI
        handlers),
    together with the properties of the driver's specification that can be
    settled on it.

    Go functions that talk to the kernel (the [netlink], [netns] and [nl]
    packages) are not part of the repository: they are taken as the operations
    of a [Platform], over an abstract kernel state.  Every call made through
    the platform is recorded, with its arguments, in the trace a program
    emits, so that "what was sent to the kernel" and "which calls happened
    while the mutex was held" are observable.

    Conventions.  A Go function returning [(T, error)] returns a pair whose
    second component is [None] for a nil error.  Pointers the callers never
    pass as nil (claims, pods, namespaces, addresses) are plain values; a
    [netlink.Link] may be nil and dereferencing it panics.  Deferred calls run
    when the enclosing function is left, also by a panic.  Informational
    logging ([klog.Infof], [klog.V(2)]) does not influence control flow and is
    not recorded; [klog.Errorf] is. *)

From stdpp Require Import gmap strings list fin_maps.
From Stdlib Require Import ZArith.

Local Open Scope string_scope.
Local Open Scope list_scope.
Local Open Scope Z_scope.

(* ===================================================================== *)
(** ** Go values *)
(* ===================================================================== *)

(** Go [error] values as this code builds and inspects them.  [fmt.Errorf]
    keeps its format string and its string operands; an error operand is
    either rendered with [%v] (the chain is cut) or wrapped with [%w] (the
    chain is kept and [errors.Is] looks through it). *)
Inductive error : Type :=
  | ErrDumpInterrupted                      (* netlink.ErrDumpInterrupted *)
  | ErrExternal (msg : string)              (* any other library / kernel error *)
  | Errorf (format : string) (args : list string)
  | ErrorfV (format : string) (args : list string) (e : error)
  | ErrorfW (format : string) (args : list string) (e : error).

(** [errors.Is(err, netlink.ErrDumpInterrupted)]: walk the [Unwrap] chain. *)
Fixpoint errors_Is_ErrDumpInterrupted (err : error) : bool :=
  match err with
  | ErrDumpInterrupted => true
  | ErrorfW _ _ e => errors_Is_ErrDumpInterrupted e
  | ErrExternal _ | Errorf _ _ | ErrorfV _ _ _ => false
  end.

(** The guard [err != nil && !errors.Is(err, netlink.ErrDumpInterrupted)]. *)
Definition not_nil_and_not_dump_interrupted (err : option error) : bool :=
  match err with
  | Some e => negb (errors_Is_ErrDumpInterrupted e)
  | None => false
  end.

(** Go integer conversions, written out. *)
Definition uint32 (z : Z) : Z := z mod 2 ^ 32.
Definition int32 (z : Z) : Z := (z + 2 ^ 31) mod 2 ^ 32 - 2 ^ 31.

(** [netlink.LinkAttrs], the fields this code reads or sets.  A nil
    [HardwareAddr] is [None]. *)
Record LinkAttrs : Type := mkLinkAttrs {
  Index : Z;
  MTU : Z;
  Name : string;
  HardwareAddr : option (list Z);
  Alias : string;
  GSOMaxSize : Z;
  GROMaxSize : Z;
  GSOIPv4MaxSize : Z;
  GROIPv4MaxSize : Z;
}.

(** The zero value [netlink.LinkAttrs{}]. *)
Definition LinkAttrs_zero : LinkAttrs :=
  mkLinkAttrs 0 0 "" None "" 0 0 0 0.

(** A non-nil [netlink.Link] is known here through its [Attrs()]. *)
Definition Link : Type := LinkAttrs.

Record IPNet : Type := mkIPNet { IP : list Z; Mask : list Z }.

Definition NsHandle : Type := Z.      (* netns.NsHandle, a file descriptor *)
Definition netns_None : NsHandle := -1.
Definition Handle : Type := Z.        (* *netlink.Handle *)
Definition Socket : Type := Z.        (* *nl.NetlinkSocket *)

(** [resourceapi.NetworkDeviceData]. *)
Record NetworkDeviceData : Type := mkNetworkDeviceData {
  InterfaceName : string;
  HardwareAddress : string;
  IPs : list string;
}.

(* ===================================================================== *)
(** ** Netlink requests *)
(* ===================================================================== *)

Module unix.
Definition NLM_F_REQUEST : Z := 1.
Definition NLM_F_ACK : Z := 4.
Definition RTM_NEWLINK : Z := 16.
Definition AF_UNSPEC : Z := 0.
Definition NETLINK_ROUTE : Z := 0.

Inductive ifla : Type :=
  | IFLA_ADDRESS | IFLA_IFNAME | IFLA_MTU | IFLA_NET_NS_FD
  | IFLA_GSO_MAX_SIZE | IFLA_GRO_MAX_SIZE
  | IFLA_GSO_IPV4_MAX_SIZE | IFLA_GRO_IPV4_MAX_SIZE.
End unix.

Module nl.
(** Attribute payloads, by the helper that builds them. *)
Inductive payload : Type :=
  | ZeroTerminated (s : string)
  | Uint32Attr (v : Z)
  | Bytes (b : list Z).

(** What [req.AddData] is given. *)
Inductive data : Type :=
  | IfInfomsg (family : Z) (index : Z)
  | RtAttr (ty : unix.ifla) (p : payload).

(** [nl.NetlinkRequest]: message type, flags, the socket registered for
    [NETLINK_ROUTE], and the data in the order it was added. *)
Record NetlinkRequest : Type := mkRequest {
  Type_ : Z;
  Flags : Z;
  Sockets : option Socket;
  Data : list data;
}.

Definition NewNetlinkRequest (proto flags : Z) : NetlinkRequest :=
  mkRequest proto flags None [].

Definition AddData (req : NetlinkRequest) (d : data) : NetlinkRequest :=
  mkRequest (Type_ req) (Flags req) (Sockets req) (Data req ++ [d]).

Definition SetSocket (req : NetlinkRequest) (s : Socket) : NetlinkRequest :=
  mkRequest (Type_ req) (Flags req) (Some s) (Data req).

(** The interface names a request carries ([IFLA_IFNAME] attributes). *)
Definition ifnames (req : NetlinkRequest) : list string :=
  omap (fun d => match d with
                 | RtAttr unix.IFLA_IFNAME (ZeroTerminated s) => Some s
                 | _ => None
                 end) (Data req).
End nl.

(* ===================================================================== *)
(** ** Traces *)
(* ===================================================================== *)

(** Calls into the platform, with their arguments.  A [None] handle is the
    package-level handle of the calling namespace ([netlink.LinkByName]),
    [Some h] a method call on [h] ([nhNs.LinkByName]). *)
Inductive call : Type :=
  | CLinkByName (h : option Handle) (name : string)
  | CLinkSetDown (h : option Handle) (l : Link)
  | CLinkSetUp (h : option Handle) (l : Link)
  | CAddrAdd (h : Handle) (l : Link) (a : IPNet)
  | CGetFromPath (path : string)
  | CGet
  | CNsClose (ns : NsHandle)
  | CGetNetlinkSocketAt (newNs curNs : NsHandle)
  | CSocketClose (s : Socket)
  | CNewHandleAt (ns : NsHandle)
  | CHandleClose (h : Handle)
  | CExecute (req : nl.NetlinkRequest).

Inductive event : Type :=
  | EvCall (c : call)
  (* entry into the relocation engine *)
  | EvNsAttachNetdev (hostIfName containerNsPAth : string)
                     (newAttr : LinkAttrs) (addresses : list IPNet)
  | EvNsDetachNetdev (containerNsPAth devName outName : string)
  (* the driver's mutex *)
  | EvLock
  | EvUnlock
  (* klog.Errorf *)
  | EvLogError (format : string) (args : list string) (err : error).

(* ===================================================================== *)
(** ** Programs *)
(* ===================================================================== *)

(** A Go call either returns or panics. *)
Inductive outcome (A : Type) : Type :=
  | Returned (a : A)
  | Panicked (msg : string).
Arguments Returned {A} a.
Arguments Panicked {A} msg.

(** A program over a state [S]: its outcome, the state it leaves and the
    events it emitted, in order. *)
Definition Prog (S A : Type) : Type := S -> outcome A * S * list event.

Definition ret {S A} (a : A) : Prog S A := fun s => (Returned a, s, []).

Definition bind {S A B} (m : Prog S A) (f : A -> Prog S B) : Prog S B :=
  fun s =>
    match m s with
    | (Returned a, s1, t1) =>
        match f a s1 with
        | (r, s2, t2) => (r, s2, t1 ++ t2)
        end
    | (Panicked msg, s1, t1) => (Panicked msg, s1, t1)
    end.

Definition panic {S A} (msg : string) : Prog S A :=
  fun s => (Panicked msg, s, []).

Definition emit {S} (e : event) : Prog S unit :=
  fun s => (Returned tt, s, [e]).

(** [defer d; body]: [d] runs when [body] is left, however it is left. *)
Definition defer {S A} (d : Prog S unit) (body : Prog S A) : Prog S A :=
  fun s =>
    match body s with
    | (r, s1, t1) =>
        match d s1 with
        | (_, s2, t2) => (r, s2, t1 ++ t2)
        end
    end.

Notation "'let*' p := m 'in' k" := (bind m (fun p => k))
  (at level 10, p pattern, m at level 100, k at level 200).
Notation "m ;;; k" := (bind m (fun _ => k))
  (at level 100, k at level 200, right associativity).

(** Dereferencing a possibly-nil link. *)
Definition deref {S} (l : option Link) : Prog S Link :=
  match l with
  | Some a => ret a
  | None => panic "invalid memory address or nil pointer dereference"
  end.

Definition outcome_of {S A} (r : outcome A * S * list event) : outcome A := r.1.1.
Definition state_of {S A} (r : outcome A * S * list event) : S := r.1.2.
Definition trace_of {S A} (r : outcome A * S * list event) : list event := r.2.

(* ===================================================================== *)
(** ** The platform: netlink, netns and nl *)
(* ===================================================================== *)

(** The library calls the engine makes, as functions of an abstract kernel
    state.  Calls that return a Go pair return both components: a lookup may
    hand back a link together with an error, which is what happens when a
    dump is interrupted.  File descriptors, handles and sockets are plain
    values; links are pointers and may be nil. *)
Class Platform : Type := {
  kstate : Type;
  k_LinkByName : option Handle -> string -> kstate -> (option Link * option error) * kstate;
  k_LinkSetDown : option Handle -> Link -> kstate -> option error * kstate;
  k_LinkSetUp : option Handle -> Link -> kstate -> option error * kstate;
  k_AddrAdd : Handle -> Link -> IPNet -> kstate -> option error * kstate;
  k_GetFromPath : string -> kstate -> (NsHandle * option error) * kstate;
  k_Get : kstate -> (NsHandle * option error) * kstate;
  k_NsClose : NsHandle -> kstate -> kstate;
  k_GetNetlinkSocketAt : NsHandle -> NsHandle -> kstate -> (Socket * option error) * kstate;
  k_SocketClose : Socket -> kstate -> kstate;
  k_NewHandleAt : NsHandle -> kstate -> (Handle * option error) * kstate;
  k_HandleClose : Handle -> kstate -> kstate;
  k_Execute : nl.NetlinkRequest -> kstate -> option error * kstate;
  (* net.HardwareAddr.String and net.IP.String *)
  HardwareAddr_String : option (list Z) -> string;
  IP_String : list Z -> string;
}.

(** A platform call that returns a value. *)
Definition syscall `{Platform} {A} (c : call) (op : kstate -> A * kstate)
  : Prog kstate A :=
  fun k => let '(a, k1) := op k in (Returned a, k1, [EvCall c]).

(** A platform call that returns nothing ([Close]). *)
Definition syscall_ `{Platform} (c : call) (op : kstate -> kstate)
  : Prog kstate unit :=
  fun k => (Returned tt, op k, [EvCall c]).

Definition netlink_LinkByName `{Platform} (h : option Handle) (name : string) :=
  syscall (CLinkByName h name) (k_LinkByName h name).

(** [LinkSetDown], [LinkSetUp] and [AddrAdd] start by reading [link.Attrs()]:
    on a nil link they panic before anything reaches the kernel. *)
Definition netlink_LinkSetDown `{Platform} (h : option Handle) (l : option Link) :=
  let* a := deref l in syscall (CLinkSetDown h a) (k_LinkSetDown h a).
Definition netlink_LinkSetUp `{Platform} (h : option Handle) (l : option Link) :=
  let* a := deref l in syscall (CLinkSetUp h a) (k_LinkSetUp h a).
Definition netlink_AddrAdd `{Platform} (h : Handle) (l : option Link) (a : IPNet) :=
  let* la := deref l in syscall (CAddrAdd h la a) (k_AddrAdd h la a).

Definition netns_GetFromPath `{Platform} (path : string) :=
  syscall (CGetFromPath path) (k_GetFromPath path).
Definition netns_Get `{Platform} := syscall CGet k_Get.
Definition NsHandle_Close `{Platform} (ns : NsHandle) :=
  syscall_ (CNsClose ns) (k_NsClose ns).
Definition nl_GetNetlinkSocketAt `{Platform} (newNs curNs : NsHandle) :=
  syscall (CGetNetlinkSocketAt newNs curNs) (k_GetNetlinkSocketAt newNs curNs).
Definition Socket_Close `{Platform} (s : Socket) :=
  syscall_ (CSocketClose s) (k_SocketClose s).
Definition netlink_NewHandleAt `{Platform} (ns : NsHandle) :=
  syscall (CNewHandleAt ns) (k_NewHandleAt ns).
Definition Handle_Close `{Platform} (h : Handle) :=
  syscall_ (CHandleClose h) (k_HandleClose h).
Definition req_Execute `{Platform} (req : nl.NetlinkRequest) :=
  syscall (CExecute req) (k_Execute req).

(* ===================================================================== *)
(** ** The relocation engine ([pkg/net/hostdevice.go]) *)
(* ===================================================================== *)

Section Engine.
Context `{Platform}.

(** The loop over [addresses] in [NsAttachNetdev]: add each address to the
    link, stop at the first failure, collect the addresses applied. *)
Fixpoint NsAttachNetdev_addresses (nhNs : Handle) (nsLink : Link)
    (containerNsPAth : string) (networkData : NetworkDeviceData)
    (addresses : list IPNet) : Prog kstate (NetworkDeviceData + error) :=
  match addresses with
  | [] => ret (inl networkData)
  | ipnet :: rest =>
      let* err := netlink_AddrAdd nhNs (Some nsLink)
                    (mkIPNet (IP ipnet) (Mask ipnet)) in
      match err with
      | Some e =>
          ret (inr (ErrorfW "fail to set up address %s on namespace %s: %w"
                      [IP_String (IP ipnet); containerNsPAth] e))
      | None =>
          NsAttachNetdev_addresses nhNs nsLink containerNsPAth
            (mkNetworkDeviceData (InterfaceName networkData)
               (HardwareAddress networkData)
               (IPs networkData ++ [IP_String (IP ipnet)]))
            rest
      end
  end.

Definition NsAttachNetdev (hostIfName containerNsPAth : string)
    (newAttr : LinkAttrs) (addresses : list IPNet)
  : Prog kstate (option NetworkDeviceData * option error) :=
  emit (EvNsAttachNetdev hostIfName containerNsPAth newAttr addresses) ;;;
  let* (hostDev, err) := netlink_LinkByName None hostIfName in
  (* do not fail when the kernel returns NLM_F_DUMP_INTR *)
  if not_nil_and_not_dump_interrupted err then ret (None, err) else
  (* devices can be renamed only when down *)
  let* err := netlink_LinkSetDown None hostDev in
  let* hostDev := deref hostDev in
  match err with
  | Some e =>
      ret (None, Some (ErrorfV "failed to set %q down: %v" [Name hostDev] e))
  | None =>
  let* (containerNs, err) := netns_GetFromPath containerNsPAth in
  match err with
  | Some e => ret (None, Some e)
  | None =>
  defer (NsHandle_Close containerNs) (
  let attrs := hostDev in
  let flags := Z.lor unix.NLM_F_REQUEST unix.NLM_F_ACK in
  let req := nl.NewNetlinkRequest unix.RTM_NEWLINK flags in
  let* (s, err) := nl_GetNetlinkSocketAt netns_None netns_None in
  match err with
  | Some e =>
      ret (None, Some (ErrorfW "could not get network namespace handle: %w" [] e))
  | None =>
  defer (Socket_Close s) (
  let req := nl.SetSocket req s in
  let req := nl.AddData req (nl.IfInfomsg unix.AF_UNSPEC (int32 (Index attrs))) in
  let ifName := if bool_decide (Name newAttr ≠ "") then Name newAttr
                else Name attrs in
  let req := nl.AddData req
               (nl.RtAttr unix.IFLA_IFNAME (nl.ZeroTerminated ifName)) in
  (* configuration values *)
  let req := if bool_decide (MTU newAttr ≠ 0)
             then nl.AddData req
                    (nl.RtAttr unix.IFLA_MTU (nl.Uint32Attr (uint32 (MTU newAttr))))
             else req in
  let req := match HardwareAddr newAttr with
             | Some hw => nl.AddData req (nl.RtAttr unix.IFLA_ADDRESS (nl.Bytes hw))
             | None => req
             end in
  let req := if bool_decide (GSOMaxSize newAttr ≠ 0)
             then nl.AddData req
                    (nl.RtAttr unix.IFLA_GSO_MAX_SIZE (nl.Uint32Attr (GSOMaxSize newAttr)))
             else req in
  let req := if bool_decide (GROMaxSize newAttr ≠ 0)
             then nl.AddData req
                    (nl.RtAttr unix.IFLA_GRO_MAX_SIZE (nl.Uint32Attr (GROMaxSize newAttr)))
             else req in
  let req := if bool_decide (GSOIPv4MaxSize newAttr ≠ 0)
             then nl.AddData req
                    (nl.RtAttr unix.IFLA_GSO_IPV4_MAX_SIZE
                       (nl.Uint32Attr (GSOIPv4MaxSize newAttr)))
             else req in
  let req := if bool_decide (GROIPv4MaxSize newAttr ≠ 0)
             then nl.AddData req
                    (nl.RtAttr unix.IFLA_GRO_IPV4_MAX_SIZE
                       (nl.Uint32Attr (GROIPv4MaxSize newAttr)))
             else req in
  let req := nl.AddData req
               (nl.RtAttr unix.IFLA_NET_NS_FD (nl.Uint32Attr (uint32 containerNs))) in
  let* err := req_Execute req in
  if not_nil_and_not_dump_interrupted err then ret (None, err) else
  (* the handle is created in the namespace and used directly *)
  let* (nhNs, err) := netlink_NewHandleAt containerNs in
  match err with
  | Some e => ret (None, Some e)
  | None =>
  defer (Handle_Close nhNs) (
  let* (nsLink, err) := netlink_LinkByName (Some nhNs) ifName in
  if not_nil_and_not_dump_interrupted err then
    ret (None,
         (fun e => ErrorfW "link not found for interface %s on namespace %s: %w"
                     [ifName; containerNsPAth] e) <$> err)
  else
  let* nsLink := deref nsLink in
  let networkData :=
    mkNetworkDeviceData (Name nsLink)
      (HardwareAddr_String (HardwareAddr nsLink)) [] in
  let* r := NsAttachNetdev_addresses nhNs nsLink containerNsPAth
              networkData addresses in
  match r with
  | inr e => ret (None, Some e)
  | inl networkData =>
  let* err := netlink_LinkSetUp (Some nhNs) (Some nsLink) in
  match err with
  | Some e =>
      ret (None,
           Some (ErrorfW "failt to set up interface %s on namespace %s: %w"
                   [Name nsLink; containerNsPAth] e))
  | None => ret (Some networkData, None)
  end end) end) end) end end.

Definition NsDetachNetdev (containerNsPAth devName outName : string)
  : Prog kstate (option error) :=
  emit (EvNsDetachNetdev containerNsPAth devName outName) ;;;
  let* (containerNs, err) := netns_GetFromPath containerNsPAth in
  match err with
  | Some e =>
      ret (Some (ErrorfW
        "could not get network namespace from path %s for network device %s : %w"
        [containerNsPAth; devName] e))
  | None =>
  defer (NsHandle_Close containerNs) (
  (* the handle is created in the namespace and used directly *)
  let* (nhNs, err) := netlink_NewHandleAt containerNs in
  match err with
  | Some e =>
      ret (Some (ErrorfW "could not get network namespace handle: %w" [] e))
  | None =>
  defer (Handle_Close nhNs) (
  let* (nsLink, err) := netlink_LinkByName (Some nhNs) devName in
  match err with
  | Some e =>
      ret (Some (ErrorfW "link not found for interface %s on namespace %s: %w"
                   [devName; containerNsPAth] e))
  | None =>
  (* set the device down to avoid network conflicts when it is restored *)
  let* err := netlink_LinkSetDown (Some nhNs) nsLink in
  match err with
  | Some e => ret (Some e)
  | None =>
  let* attrs := deref nsLink in
  (* restore the original name if it was renamed *)
  let attrs := if bool_decide (Alias attrs ≠ "")
               then mkLinkAttrs (Index attrs) (MTU attrs) (Alias attrs)
                      (HardwareAddr attrs) (Alias attrs) (GSOMaxSize attrs)
                      (GROMaxSize attrs) (GSOIPv4MaxSize attrs)
                      (GROIPv4MaxSize attrs)
               else attrs in
  let* (rootNs, err) := netns_Get in
  match err with
  | Some e => ret (Some e)
  | None =>
  defer (NsHandle_Close rootNs) (
  let* (s, err) := nl_GetNetlinkSocketAt containerNs rootNs in
  match err with
  | Some e =>
      ret (Some (ErrorfW "could not get network namespace handle: %w" [] e))
  | None =>
  defer (Socket_Close s) (
  let flags := Z.lor unix.NLM_F_REQUEST unix.NLM_F_ACK in
  let req := nl.NewNetlinkRequest unix.RTM_NEWLINK flags in
  let req := nl.SetSocket req s in
  let req := nl.AddData req (nl.IfInfomsg unix.AF_UNSPEC (int32 (Index attrs))) in
  let ifName := if bool_decide (outName ≠ "") then outName else Name attrs in
  let req := nl.AddData req
               (nl.RtAttr unix.IFLA_IFNAME (nl.ZeroTerminated ifName)) in
  let req := nl.AddData req
               (nl.RtAttr unix.IFLA_NET_NS_FD (nl.Uint32Attr (uint32 rootNs))) in
  let* err := req_Execute req in
  match err with
  | Some e => ret (Some e)
  | None =>
  (* set up the interface in case host network workloads depend on it *)
  let* (hostDev, err) := netlink_LinkByName None ifName in
  (* do not fail when the kernel returns NLM_F_DUMP_INTR *)
  if not_nil_and_not_dump_interrupted err then ret err else
  let* err := netlink_LinkSetUp None hostDev in
  let* hostDev := deref hostDev in
  match err with
  | Some e => ret (Some (ErrorfV "failed to set %q down: %v" [Name hostDev] e))
  | None => ret None
  end end) end) end end end) end) end.

End Engine.

(* ===================================================================== *)
(** ** External API types the driver handles *)
(* ===================================================================== *)

(** [k8s.io/api/resource/v1], the part of a claim the driver reads. *)
Module resourceapi.
Record DeviceRequestAllocationResult : Type := mkDeviceRequestAllocationResult {
  Request : string;
  Driver : string;
  Pool : string;
  Device : string;
}.
Record DeviceAllocationResult : Type := mkDeviceAllocationResult {
  Results : list DeviceRequestAllocationResult;
}.
Record AllocationResult : Type := mkAllocationResult {
  Devices : DeviceAllocationResult;
}.
Record ResourceClaimStatus : Type := mkResourceClaimStatus {
  Allocation : option AllocationResult;      (* a pointer, nil when unallocated *)
}.
Record ResourceClaim : Type := mkResourceClaim {
  Name : string;
  UID : string;
  Status : ResourceClaimStatus;
}.
End resourceapi.

(** [k8s.io/dynamic-resource-allocation/kubeletplugin]. *)
Module kubeletplugin.
Record PrepareResult : Type := mkPrepareResult {
  Err : option error;
}.
Record NamespacedObject : Type := mkNamespacedObject {
  Namespace : string;
  Name : string;
  UID : string;
}.
End kubeletplugin.

(** [github.com/containerd/nri/pkg/api]. *)
Module api.
Record LinuxNamespace : Type := mkLinuxNamespace {
  Type_ : string;
  Path : string;
}.
Record LinuxPodSandbox : Type := mkLinuxPodSandbox {
  Namespaces : list LinuxNamespace;
}.
Record PodSandbox : Type := mkPodSandbox {
  Name : string;
  Uid : string;
  Namespace : string;
  Linux : option LinuxPodSandbox;            (* a pointer, may be nil *)
}.
(** The generated getter is nil-safe. *)
Definition GetNamespaces (l : option LinuxPodSandbox) : list LinuxNamespace :=
  match l with
  | Some x => Namespaces x
  | None => []
  end.
End api.

(** Values of type [interface{}] as the driver stores and inspects them:
    nil, a string, or a value of some other dynamic type (named for [%T]). *)
Inductive any : Type :=
  | any_nil
  | any_string (s : string)
  | any_other (dyntype : string).

Definition any_T (v : any) : string :=
  match v with
  | any_nil => "<nil>"
  | any_string _ => "string"
  | any_other t => t
  end.

(* ===================================================================== *)
(** ** The host-device driver ([main.go]) *)
(* ===================================================================== *)

Module driver.

(** A network device that has been allocated to a pod. *)
Record AllocatedDevice : Type := mkAllocatedDevice {
  Name : string;
  Attributes : gmap string string;
  PoolName : string;
  Request : string;
}.

(** The data shared between the DRA and NRI hooks, keyed by pod UID. *)
Record SharedState : Type := mkSharedState {
  PodDeviceConfig : gmap string (list AllocatedDevice);
  PreparedData : gmap string any;
}.

(** What [NewNetworkDriver] allocates: two empty maps. *)
Definition NewSharedState : SharedState := mkSharedState ∅ ∅.

Section Driver.
Context `{Platform}.

(** The driver's mutable state together with the kernel it runs on.  The
    mutex [mu] is not a component: taking and releasing it are events. *)
Record World : Type := mkWorld {
  sharedState : SharedState;
  kernel : kstate;
}.

(** Run an engine call on the kernel of the world. *)
Definition in_kernel {A} (m : Prog kstate A) : Prog World A :=
  fun w =>
    match m (kernel w) with
    | (r, k1, t) => (r, mkWorld (sharedState w) k1, t)
    end.

Definition get_sharedState : Prog World SharedState :=
  fun w => (Returned (sharedState w), w, []).

Definition put_sharedState (st : SharedState) : Prog World unit :=
  fun w => (Returned tt, mkWorld st (kernel w), []).

Definition mu_Lock : Prog World unit := emit EvLock.
Definition mu_Unlock : Prog World unit := emit EvUnlock.

(** [prepareDevice] extracts the target interface name from the claim. *)
Definition prepareDevice (claim : resourceapi.ResourceClaim)
  : any * option error :=
  match resourceapi.Allocation (resourceapi.Status claim) with
  | None =>
      (any_nil, Some (Errorf "claim %s has no allocated devices"
                        [resourceapi.Name claim]))
  | Some allocation =>
      match resourceapi.Results (resourceapi.Devices allocation) with
      | [] =>
          (any_nil, Some (Errorf "claim %s has no allocated devices"
                            [resourceapi.Name claim]))
      | first :: _ =>
          let deviceName := resourceapi.Device first in
          (any_string deviceName, None)
      end
  end.

(** [unprepareDevice] is a no-op for this driver. *)
Definition unprepareDevice (claim : kubeletplugin.NamespacedObject)
  : option error := None.

(** The body of [PrepareResourceClaims]'s loop, from the current claim on. *)
Fixpoint PrepareResourceClaims_loop (claims : list resourceapi.ResourceClaim)
    (results : gmap string kubeletplugin.PrepareResult)
  : Prog World (gmap string kubeletplugin.PrepareResult) :=
  match claims with
  | [] => ret results
  | claim :: rest =>
      let '(preparedData, err) := prepareDevice claim in
      match err with
      | Some e =>
          PrepareResourceClaims_loop rest
            (<[resourceapi.UID claim := kubeletplugin.mkPrepareResult (Some e)]> results)
      | None =>
          mu_Lock ;;;
          let* st := get_sharedState in
          put_sharedState
            (mkSharedState (PodDeviceConfig st)
               (<[resourceapi.UID claim := preparedData]> (PreparedData st))) ;;;
          mu_Unlock ;;;
          PrepareResourceClaims_loop rest
            (<[resourceapi.UID claim := kubeletplugin.mkPrepareResult None]> results)
      end
  end.

Definition PrepareResourceClaims (claims : list resourceapi.ResourceClaim)
  : Prog World (gmap string kubeletplugin.PrepareResult * option error) :=
  let* results := PrepareResourceClaims_loop claims ∅ in
  ret (results, None).

Fixpoint UnprepareResourceClaims_loop (claims : list kubeletplugin.NamespacedObject)
    (errors : gmap string error) : Prog World (gmap string error) :=
  match claims with
  | [] => ret errors
  | claim :: rest =>
      let errors := match unprepareDevice claim with
                    | Some e => <[kubeletplugin.UID claim := e]> errors
                    | None => errors
                    end in
      mu_Lock ;;;
      let* st := get_sharedState in
      put_sharedState
        (mkSharedState (PodDeviceConfig st)
           (delete (kubeletplugin.UID claim) (PreparedData st))) ;;;
      mu_Unlock ;;;
      UnprepareResourceClaims_loop rest errors
  end.

Definition UnprepareResourceClaims (claims : list kubeletplugin.NamespacedObject)
  : Prog World (gmap string error * option error) :=
  let* errors := UnprepareResourceClaims_loop claims ∅ in
  ret (errors, None).

(** [Synchronize] only logs. *)
Definition Synchronize : Prog World (list unit * option error) :=
  ret ([], None).

(** The network namespace path of a pod: the path of the first namespace
    of type ["network"], the empty string when there is none. *)
Fixpoint getNetworkNamespace_loop (namespaces : list api.LinuxNamespace) : string :=
  match namespaces with
  | [] => ""
  | ns :: rest =>
      if bool_decide (api.Type_ ns = "network") then api.Path ns
      else getNetworkNamespace_loop rest
  end.

Definition getNetworkNamespace (pod : api.PodSandbox) : string :=
  getNetworkNamespace_loop (api.GetNamespaces (api.Linux pod)).

(** [configureDeviceForPod] moves the device into the pod's namespace. *)
Definition configureDeviceForPod (device : AllocatedDevice)
    (networkNamespace : string) (podSandbox : api.PodSandbox)
    (preparedData : any) : Prog World (option error) :=
  match preparedData with
  | any_string hostDeviceName =>
      (* the device name inside the pod is the same as on the host *)
      let podInterfaceName := hostDeviceName in
      let* (_, err) :=
        in_kernel (NsAttachNetdev hostDeviceName networkNamespace
                     (mkLinkAttrs 0 0 podInterfaceName None "" 0 0 0 0) []) in
      ret err
  | _ =>
      ret (Some (Errorf "invalid prepared data type: expected string, got %T"
                   [any_T preparedData]))
  end.

(** [cleanupDeviceForPod] moves the device back to the host namespace. *)
Definition cleanupDeviceForPod (device : AllocatedDevice)
    (networkNamespace : string) (podSandbox : api.PodSandbox)
    (preparedData : any) : Prog World (option error) :=
  match preparedData with
  | any_string hostDeviceName =>
      let podInterfaceName := hostDeviceName in
      in_kernel (NsDetachNetdev networkNamespace podInterfaceName hostDeviceName)
  | _ =>
      ret (Some (Errorf "invalid prepared data type: expected string, got %T"
                   [any_T preparedData]))
  end.

(** The loop of [RunPodSandbox]: the first failure is returned. *)
Fixpoint RunPodSandbox_loop (devices : list AllocatedDevice)
    (networkNamespace : string) (pod : api.PodSandbox) (preparedData : any)
  : Prog World (option error) :=
  match devices with
  | [] => ret None
  | device :: rest =>
      let* err := configureDeviceForPod device networkNamespace pod preparedData in
      match err with
      | Some e => ret (Some e)
      | None => RunPodSandbox_loop rest networkNamespace pod preparedData
      end
  end.

(** [RunPodSandbox] is called when a pod is created by the runtime. *)
Definition RunPodSandbox (pod : api.PodSandbox) : Prog World (option error) :=
  let podUID := api.Uid pod in
  let networkNamespace := getNetworkNamespace pod in
  if bool_decide (networkNamespace = "") then
    ret (Some (Errorf "pod %s/%s has no network namespace"
                 [api.Namespace pod; api.Name pod]))
  else
    mu_Lock ;;;
    defer mu_Unlock (
      let* st := get_sharedState in
      let devices := default [] (PodDeviceConfig st !! podUID) in
      let preparedData := default any_nil (PreparedData st !! podUID) in
      RunPodSandbox_loop devices networkNamespace pod preparedData).

(** The loop of [StopPodSandbox]: a failure is logged and the loop goes on. *)
Fixpoint StopPodSandbox_loop (devices : list AllocatedDevice)
    (networkNamespace : string) (pod : api.PodSandbox) (preparedData : any)
  : Prog World unit :=
  match devices with
  | [] => ret tt
  | device :: rest =>
      let* err := cleanupDeviceForPod device networkNamespace pod preparedData in
      match err with
      | Some e =>
          emit (EvLogError "failed to cleanup device %s for pod %s: %v"
                  [Name device; api.Name pod] e)
      | None => ret tt
      end ;;;
      StopPodSandbox_loop rest networkNamespace pod preparedData
  end.

(** [StopPodSandbox] is called when a pod is stopped by the runtime. *)
Definition StopPodSandbox (pod : api.PodSandbox) : Prog World (option error) :=
  let podUID := api.Uid pod in
  let networkNamespace := getNetworkNamespace pod in
  mu_Lock ;;;
  defer mu_Unlock (
    let* st := get_sharedState in
    let devices := default [] (PodDeviceConfig st !! podUID) in
    let preparedData := default any_nil (PreparedData st !! podUID) in
    StopPodSandbox_loop devices networkNamespace pod preparedData ;;;
    ret None).

(** [RemovePodSandbox] is called when a pod is removed by the runtime. *)
Definition RemovePodSandbox (pod : api.PodSandbox) : Prog World (option error) :=
  let podUID := api.Uid pod in
  mu_Lock ;;;
  defer mu_Unlock (
    let* st := get_sharedState in
    put_sharedState
      (mkSharedState (delete podUID (PodDeviceConfig st)) (PreparedData st)) ;;;
    let* st := get_sharedState in
    put_sharedState
      (mkSharedState (PodDeviceConfig st) (delete podUID (PreparedData st))) ;;;
    ret None).

End Driver.
End driver.

(* ===================================================================== *)
(** ** Observations on traces *)
(* ===================================================================== *)

(** Entry into the relocation engine. *)
Definition is_engine_entry (e : event) : bool :=
  match e with
  | EvNsAttachNetdev _ _ _ _ | EvNsDetachNetdev _ _ _ => true
  | _ => false
  end.

(** Kernel / network I/O: an engine call or a platform call made by it. *)
Definition is_io (e : event) : bool :=
  match e with
  | EvCall _ | EvNsAttachNetdev _ _ _ _ | EvNsDetachNetdev _ _ _ => true
  | _ => false
  end.





(** The library contract on lookups: a lookup that reports no error, or only
    an interrupted dump, hands back a link. *)
Definition lookups_return_links (P : Platform) : Prop :=
  forall h name k l e k1,
    k_LinkByName h name k = ((l, e), k1) ->
    not_nil_and_not_dump_interrupted e = false ->
    is_Some l.

(* ===================================================================== *)
(** ** A scripted platform *)
(* ===================================================================== *)

(** A platform whose answers are fixed in advance: what a lookup returns
    inside a namespace and in the host namespace, and what the kernel answers
    to a modify-link request.  Opening the namespace at the empty path fails;
    every other call succeeds.  The kernel state counts the descriptors
    currently open. *)
Record script : Type := mkScript {
  in_namespace : option Link * option error;
  in_host : option Link * option error;
  on_execute : option error;
}.

Definition scripted (sc : script) : Platform := {|
  kstate := Z;
  k_LinkByName := fun h _ k =>
    (match h with Some _ => in_namespace sc | None => in_host sc end, k);
  k_LinkSetDown := fun _ _ k => (None, k);
  k_LinkSetUp := fun _ _ k => (None, k);
  k_AddrAdd := fun _ _ _ k => (None, k);
  k_GetFromPath := fun path k =>
    if bool_decide (path = "") then ((-1, Some (ErrExternal "ENOENT")), k)
    else ((3 + k, None), k + 1);
  k_Get := fun k => ((3 + k, None), k + 1);
  k_NsClose := fun _ k => k - 1;
  k_GetNetlinkSocketAt := fun _ _ k => ((3 + k, None), k + 1);
  k_SocketClose := fun _ k => k - 1;
  k_NewHandleAt := fun _ k => ((3 + k, None), k + 1);
  k_HandleClose := fun _ k => k - 1;
  k_Execute := fun _ k => (on_execute sc, k);
  HardwareAddr_String := fun _ => "";
  IP_String := fun _ => "";
|}.

Definition eth0_as_net1 : Link := mkLinkAttrs 7 1500 "net1" None "eth0" 0 0 0 0.
Definition eth0 : Link := mkLinkAttrs 7 1500 "eth0" None "" 0 0 0 0.

(** The request that moves link 7 back to the host under the name ["eth0"]. *)
Definition request_eth0 : nl.NetlinkRequest :=
  nl.mkRequest 16 5 (Some 6)
    [nl.IfInfomsg 0 7;
     nl.RtAttr unix.IFLA_IFNAME (nl.ZeroTerminated "eth0");
     nl.RtAttr unix.IFLA_NET_NS_FD (nl.Uint32Attr 5)].

(** All lookups succeed. *)
Definition calm : script := mkScript (Some eth0, None) (Some eth0, None) None.
(** The device in the namespace was renamed and carries its old name as alias. *)
Definition renamed : script :=
  mkScript (Some eth0_as_net1, None) (Some eth0, None) None.
(** Lookups find the link but report an interrupted dump. *)
Definition interrupted : script :=
  mkScript (Some eth0, Some ErrDumpInterrupted)
           (Some eth0, Some ErrDumpInterrupted) None.
(** The kernel rejects the modify-link request. *)
Definition rejecting : script :=
  mkScript (Some eth0, None) (Some eth0, None) (Some (ErrExternal "EBUSY")).

(* ===================================================================== *)
(** ** Reasoning about programs: definitions and tactics *)
(* ===================================================================== *)

(** Symbolic execution: unfold the program combinators and split on every
    answer of the platform, innermost scrutinee first. *)
Ltac case_scrutinee :=
  match goal with
  | |- context [match ?x with _ => _ end] =>
      lazymatch x with
      | context [match _ with _ => _ end] => fail
      | _ => destruct x eqn:?
      end
  end.

Ltac unfold_prog :=
  cbv [bind defer ret emit panic deref syscall syscall_
       netlink_LinkByName netlink_LinkSetDown netlink_LinkSetUp netlink_AddrAdd
       netns_GetFromPath netns_Get NsHandle_Close nl_GetNetlinkSocketAt
       Socket_Close netlink_NewHandleAt Handle_Close req_Execute
       trace_of outcome_of state_of].

Ltac run_prog := unfold_prog; repeat (case_scrutinee; cbn [fst snd app]).

(** Membership of an event in an explicit trace. *)
Ltac in_trace H :=
  repeat (apply elem_of_cons in H as [H | H]; [try discriminate H |]);
  try (apply elem_of_nil in H; destruct H).

(** Every event a program emits satisfies [P]. *)
Definition emits {S A} (P : event -> Prop) (m : Prog S A) : Prop :=
  forall s, Forall P (trace_of (m s)).

(** A program keeps a property of the state. *)
Definition preserves {S A} (I : S -> Prop) (m : Prog S A) : Prop :=
  forall s, I s -> I (state_of (m s)).

Definition is_mutex (e : event) : bool :=
  match e with
  | EvLock | EvUnlock => true
  | _ => false
  end.

Definition is_call (e : event) : bool :=
  match e with
  | EvCall _ => true
  | _ => false
  end.

(* ===================================================================== *)
(** ** Reachable states of the driver *)
(* ===================================================================== *)

(** The entry points through which the kubelet and the container runtime
    drive the plugin. *)
Inductive op : Type :=
  | OpPrepareResourceClaims (claims : list resourceapi.ResourceClaim)
  | OpUnprepareResourceClaims (claims : list kubeletplugin.NamespacedObject)
  | OpSynchronize
  | OpRunPodSandbox (pod : api.PodSandbox)
  | OpStopPodSandbox (pod : api.PodSandbox)
  | OpRemovePodSandbox (pod : api.PodSandbox).

Definition run_op `{Platform} (o : op) (w : driver.World) : driver.World :=
  match o with
  | OpPrepareResourceClaims claims => state_of (driver.PrepareResourceClaims claims w)
  | OpUnprepareResourceClaims claims => state_of (driver.UnprepareResourceClaims claims w)
  | OpSynchronize => state_of (driver.Synchronize w)
  | OpRunPodSandbox pod => state_of (driver.RunPodSandbox pod w)
  | OpStopPodSandbox pod => state_of (driver.StopPodSandbox pod w)
  | OpRemovePodSandbox pod => state_of (driver.RemovePodSandbox pod w)
  end.

(** The worlds a driver can be in: it starts from [NewNetworkDriver]'s empty
    maps on any kernel, its entry points run, and the kernel may change
    behind its back.  Entry points only touch the shared state under the
    mutex, one map operation per critical section or (for the NRI handlers)
    the whole handler, so every interleaving of concurrent calls leaves the
    shared state in a world of this set. *)
Inductive reachable `{Platform} : driver.World -> Prop :=
  | reachable_new (k : kstate) :
      reachable (driver.mkWorld driver.NewSharedState k)
  | reachable_op (o : op) (w : driver.World) :
      reachable w -> reachable (run_op o w)
  | reachable_kernel (w : driver.World) (k : kstate) :
      reachable w -> reachable (driver.mkWorld (driver.sharedState w) k).

(** What the NRI handlers read for a pod: missing keys read as the zero
    value. *)
Definition devices_of `{Platform} (w : driver.World) (pod : api.PodSandbox)
  : list driver.AllocatedDevice :=
  default [] (driver.PodDeviceConfig (driver.sharedState w) !! api.Uid pod).

Definition prepared_of `{Platform} (w : driver.World) (pod : api.PodSandbox) : any :=
  default any_nil (driver.PreparedData (driver.sharedState w) !! api.Uid pod).

(** The allocation result of a claim grants no device. *)
Definition no_granted_devices (claim : resourceapi.ResourceClaim) : bool :=
  match resourceapi.Allocation (resourceapi.Status claim) with
  | None => true
  | Some allocation =>
      match resourceapi.Results (resourceapi.Devices allocation) with
      | [] => true
      | _ :: _ => false
      end
  end.

(** The sandbox lists no namespace of type ["network"]. *)
Definition no_network_namespace (pod : api.PodSandbox) : Prop :=
  Forall (fun ns => api.Type_ ns ≠ "network") (api.GetNamespaces (api.Linux pod)).

(** The name [NsDetachNetdev] puts in its request for a link [l]. *)
Definition outgoing_name (outName : string) (l : Link) : string :=
  if bool_decide (outName ≠ "") then outName
  else if bool_decide (Alias l ≠ "") then Alias l
  else Name l.

(* ===================================================================== *)
(** ** Statements of the specification that the code does not satisfy *)
(* ===================================================================== *)

(** "If the device carries a previously-recorded alias, prefer it; otherwise
    use [restoreName]": for a non-empty [restoreName], the request for a
    device with a non-empty alias names the alias. *)
Definition detach_prefers_alias : Prop :=
  forall (P : Platform) (k : kstate) (containerNsPAth devName restoreName : string)
         (h : Handle) (l : Link) (req : nl.NetlinkRequest),
    restoreName ≠ "" ->
    EvCall (CLinkSetDown (Some h) l)
      ∈ trace_of (NsDetachNetdev containerNsPAth devName restoreName k) ->
    Alias l ≠ "" ->
    EvCall (CExecute req)
      ∈ trace_of (NsDetachNetdev containerNsPAth devName restoreName k) ->
    nl.ifnames req = [Alias l].


(* ===================================================================== *)
(** ** Concrete pods, claims and worlds *)
(* ===================================================================== *)

Definition pod_w1 : api.PodSandbox :=
  api.mkPodSandbox "w1" "uid-w1" "default"
    (Some (api.mkLinuxPodSandbox
             [api.mkLinuxNamespace "ipc" "/proc/41/ns/ipc";
              api.mkLinuxNamespace "network" "/run/netns/w1"])).

Definition pod_without_netns : api.PodSandbox :=
  api.mkPodSandbox "w2" "uid-w1" "default"
    (Some (api.mkLinuxPodSandbox [api.mkLinuxNamespace "ipc" "/proc/42/ns/ipc"])).

Definition device_a : driver.AllocatedDevice :=
  driver.mkAllocatedDevice "eth0" ∅ "node-1" "req-a".
Definition device_b : driver.AllocatedDevice :=
  driver.mkAllocatedDevice "eth1" ∅ "node-1" "req-b".

(** A world in which pod [uid-w1] has two allocated devices and a prepared
    device name. *)
Definition world_two_devices (sc : script) : driver.World (H:=scripted sc) :=
  @driver.mkWorld (scripted sc)
    (driver.mkSharedState {["uid-w1" := [device_a; device_b]]}
                          {["uid-w1" := any_string "eth0"]})
    0.

(** The world of a freshly created driver. *)
Definition world_new (sc : script) : driver.World (H:=scripted sc) :=
  @driver.mkWorld (scripted sc) driver.NewSharedState 0.

Definition claim_unallocated : resourceapi.ResourceClaim :=
  resourceapi.mkResourceClaim "claim-0" "uid-c0" (resourceapi.mkResourceClaimStatus None).

Definition claim_empty : resourceapi.ResourceClaim :=
  resourceapi.mkResourceClaim "claim-1" "uid-c1"
    (resourceapi.mkResourceClaimStatus
       (Some (resourceapi.mkAllocationResult (resourceapi.mkDeviceAllocationResult [])))).

Definition claim_eth0 : resourceapi.ResourceClaim :=
  resourceapi.mkResourceClaim "claim-2" "uid-c2"
    (resourceapi.mkResourceClaimStatus
       (Some (resourceapi.mkAllocationResult
                (resourceapi.mkDeviceAllocationResult
                   [resourceapi.mkDeviceRequestAllocationResult
                      "req-a" "hostdevice.k8s.io" "node-1" "eth0"])))).

(** What [StopPodSandbox] logs after one cleanup, by the cleanup's outcome. *)
Definition cleanup_log (d : driver.AllocatedDevice) (pod : api.PodSandbox)
    (o : outcome (option error)) : list event :=
  match o with
  | Returned (Some e) =>
      [EvLogError "failed to cleanup device %s for pod %s: %v"
         [driver.Name d; api.Name pod] e]
  | _ => []
  end.

(** The engine calls [StopPodSandbox] makes for [n] devices: every one of
    them detaches the prepared device name. *)
Definition detach_entries (ns : string) (prepared : any) (n : nat) : list event :=
  match prepared with
  | any_string name => replicate n (EvNsDetachNetdev ns name name)
  | _ => []
  end.

(* ===================================================================== *)
(** ** Further observations on requests and traces *)
(* ===================================================================== *)

(** The attribute types a request carries, in order. *)
Definition request_attrs (req : nl.NetlinkRequest) : list unix.ifla :=
  omap (fun d => match d with
                 | nl.RtAttr ty _ => Some ty
                 | nl.IfInfomsg _ _ => None
                 end) (nl.Data req).

(** The modify-link requests of a trace, in order. *)
Definition executes (t : list event) : list nl.NetlinkRequest :=
  omap (fun e => match e with
                 | EvCall (CExecute req) => Some req
                 | _ => None
                 end) t.

(** [down_before_move down t]: scanning [t], with the device initially
    administratively [down] or not, every modify-link request is sent while
    the device is down: after a [LinkSetDown] and before any [LinkSetUp]. *)
Fixpoint down_before_move (down : bool) (t : list event) : bool :=
  match t with
  | [] => true
  | EvCall (CLinkSetDown _ _) :: t' => down_before_move true t'
  | EvCall (CLinkSetUp _ _) :: t' => down_before_move false t'
  | EvCall (CExecute _) :: t' => down && down_before_move down t'
  | _ :: t' => down_before_move down t'
  end.

(** The optional configuration attributes [NsAttachNetdev] adds for
    [newAttr], in the order it adds them. *)
Definition configuration_attrs (newAttr : LinkAttrs) : list nl.data :=
  (if bool_decide (MTU newAttr ≠ 0)
   then [nl.RtAttr unix.IFLA_MTU (nl.Uint32Attr (uint32 (MTU newAttr)))] else [])
  ++ match HardwareAddr newAttr with
     | Some hw => [nl.RtAttr unix.IFLA_ADDRESS (nl.Bytes hw)]
     | None => []
     end
  ++ (if bool_decide (GSOMaxSize newAttr ≠ 0)
      then [nl.RtAttr unix.IFLA_GSO_MAX_SIZE (nl.Uint32Attr (GSOMaxSize newAttr))] else [])
  ++ (if bool_decide (GROMaxSize newAttr ≠ 0)
      then [nl.RtAttr unix.IFLA_GRO_MAX_SIZE (nl.Uint32Attr (GROMaxSize newAttr))] else [])
  ++ (if bool_decide (GSOIPv4MaxSize newAttr ≠ 0)
      then [nl.RtAttr unix.IFLA_GSO_IPV4_MAX_SIZE (nl.Uint32Attr (GSOIPv4MaxSize newAttr))]
      else [])
  ++ (if bool_decide (GROIPv4MaxSize newAttr ≠ 0)
      then [nl.RtAttr unix.IFLA_GRO_IPV4_MAX_SIZE (nl.Uint32Attr (GROIPv4MaxSize newAttr))]
      else []).

(** The name [NsAttachNetdev] gives the device in the namespace. *)
Definition attached_name (newAttr : LinkAttrs) (hostDev : Link) : string :=
  if bool_decide (Name newAttr ≠ "") then Name newAttr else Name hostDev.

(** Symbolic execution that splits on the answers of the platform and on
    the errors tested, but leaves alone the tests that only shape the data
    of a request. *)
Ltac case_control :=
  match goal with
  | |- context [match ?x with _ => _ end] =>
      lazymatch x with
      | context [match _ with _ => _ end] => fail
      | bool_decide _ => fail
      | HardwareAddr _ => fail
      | _ => destruct x eqn:?
      end
  end.

Ltac case_call :=
  match goal with
  | |- context [k_LinkByName ?h ?n ?k] =>
      is_var k; destruct (k_LinkByName h n k) as [[? ?] ?] eqn:?
  | |- context [k_LinkSetDown ?h ?l ?k] =>
      is_var k; destruct (k_LinkSetDown h l k) as [? ?] eqn:?
  | |- context [k_LinkSetUp ?h ?l ?k] =>
      is_var k; destruct (k_LinkSetUp h l k) as [? ?] eqn:?
  | |- context [k_AddrAdd ?h ?l ?a ?k] =>
      is_var k; destruct (k_AddrAdd h l a k) as [? ?] eqn:?
  | |- context [k_GetFromPath ?p ?k] =>
      is_var k; destruct (k_GetFromPath p k) as [[? ?] ?] eqn:?
  | |- context [k_Get ?k] =>
      is_var k; destruct (k_Get k) as [[? ?] ?] eqn:?
  | |- context [k_GetNetlinkSocketAt ?a ?b ?k] =>
      is_var k; destruct (k_GetNetlinkSocketAt a b k) as [[? ?] ?] eqn:?
  | |- context [k_NewHandleAt ?a ?k] =>
      is_var k; destruct (k_NewHandleAt a k) as [[? ?] ?] eqn:?
  | |- context [k_Execute ?r ?k] =>
      is_var k; destruct (k_Execute r k) as [? ?] eqn:?
  end.

Ltac run_control :=
  unfold_prog; cbn [fst snd app];
  repeat (first [case_control | case_call]; cbn [fst snd app]).

(** The address additions of a trace: handle, link and address, in order. *)
Definition addr_adds (t : list event) : list (Handle * Link * IPNet) :=
  omap (fun e => match e with
                 | EvCall (CAddrAdd h l a) => Some (h, l, a)
                 | _ => None
                 end) t.

(* ===================================================================== *)
(** ** Assumptions on the platform *)
(* ===================================================================== *)

(** The kernel accepts every call other than a lookup or a modify-link
    request, and the namespace at [path] can be opened. *)
Definition kernel_accepts (P : Platform) (path : string) : Prop :=
  (forall h l k, (k_LinkSetDown h l k).1 = None) /\
  (forall h l k, (k_LinkSetUp h l k).1 = None) /\
  (forall h l a k, (k_AddrAdd h l a k).1 = None) /\
  (forall k, (k_GetFromPath path k).1.2 = None) /\
  (forall k, (k_Get k).1.2 = None) /\
  (forall a b k, (k_GetNetlinkSocketAt a b k).1.2 = None) /\
  (forall a k, (k_NewHandleAt a k).1.2 = None).

(** Lookups find the link and requests go through, but any of them may
    report an interrupted dump. *)
Definition dumps_may_be_interrupted (P : Platform) : Prop :=
  (forall h n k,
     is_Some (k_LinkByName h n k).1.1 /\
     not_nil_and_not_dump_interrupted (k_LinkByName h n k).1.2 = false) /\
  (forall r k, not_nil_and_not_dump_interrupted (k_Execute r k).1 = false).

(** Lookups find the link; only lookups in the calling namespace (through
    the package-level handle) may report an interrupted dump; requests are
    accepted. *)
Definition host_dumps_may_be_interrupted (P : Platform) : Prop :=
  (forall nh n k,
     is_Some (k_LinkByName (Some nh) n k).1.1 /\ (k_LinkByName (Some nh) n k).1.2 = None) /\
  (forall n k,
     is_Some (k_LinkByName None n k).1.1 /\
     not_nil_and_not_dump_interrupted (k_LinkByName None n k).1.2 = false) /\
  (forall r k, (k_Execute r k).1 = None).

(* ===================================================================== *)
(** ** Descriptor accounting *)
(* ===================================================================== *)

(** What the engine opens and must close. *)
Inductive descriptor : Type :=
  | DNamespace (ns : NsHandle)
  | DHandle (h : Handle)
  | DSocket (s : Socket).

Global Instance descriptor_eq_dec : EqDecision descriptor.
Proof. solve_decision. Defined.

(** Closing [d]: the most recently opened descriptor equal to [d] is no
    longer open. *)
Fixpoint close_descriptor (d : descriptor) (open : list descriptor)
  : list descriptor :=
  match open with
  | [] => []
  | x :: rest => if decide (x = d) then rest else x :: close_descriptor d rest
  end.

Definition opened (d : descriptor) (err : option error) (open : list descriptor)
  : list descriptor :=
  match err with
  | None => d :: open
  | Some _ => open
  end.

(** A platform together with the list of the descriptors it has handed out
    and that have not been closed since.  A call that reports an error hands
    out nothing. *)
Definition accounting (P : Platform) : Platform := {|
  kstate := (@kstate P * list descriptor)%type;
  k_LinkByName := fun h n s =>
    let '(r, k1) := @k_LinkByName P h n s.1 in (r, (k1, s.2));
  k_LinkSetDown := fun h l s =>
    let '(r, k1) := @k_LinkSetDown P h l s.1 in (r, (k1, s.2));
  k_LinkSetUp := fun h l s =>
    let '(r, k1) := @k_LinkSetUp P h l s.1 in (r, (k1, s.2));
  k_AddrAdd := fun h l a s =>
    let '(r, k1) := @k_AddrAdd P h l a s.1 in (r, (k1, s.2));
  k_GetFromPath := fun path s =>
    let '((fd, err), k1) := @k_GetFromPath P path s.1 in
    ((fd, err), (k1, opened (DNamespace fd) err s.2));
  k_Get := fun s =>
    let '((fd, err), k1) := @k_Get P s.1 in
    ((fd, err), (k1, opened (DNamespace fd) err s.2));
  k_NsClose := fun fd s =>
    (@k_NsClose P fd s.1, close_descriptor (DNamespace fd) s.2);
  k_GetNetlinkSocketAt := fun a b s =>
    let '((sock, err), k1) := @k_GetNetlinkSocketAt P a b s.1 in
    ((sock, err), (k1, opened (DSocket sock) err s.2));
  k_SocketClose := fun sock s =>
    (@k_SocketClose P sock s.1, close_descriptor (DSocket sock) s.2);
  k_NewHandleAt := fun a s =>
    let '((h, err), k1) := @k_NewHandleAt P a s.1 in
    ((h, err), (k1, opened (DHandle h) err s.2));
  k_HandleClose := fun h s =>
    (@k_HandleClose P h s.1, close_descriptor (DHandle h) s.2);
  k_Execute := fun r s =>
    let '(e, k1) := @k_Execute P r s.1 in (e, (k1, s.2));
  HardwareAddr_String := @HardwareAddr_String P;
  IP_String := @IP_String P;
|}.

(* ===================================================================== *)
(** ** More concrete inputs *)
(* ===================================================================== *)

(** Both lookups and the request report an interrupted dump. *)
Definition all_interrupted : script :=
  mkScript (Some eth0, Some ErrDumpInterrupted)
           (Some eth0, Some ErrDumpInterrupted)
           (Some ErrDumpInterrupted).

(** Only the lookup in the host namespace reports an interrupted dump. *)
Definition host_interrupted : script :=
  mkScript (Some eth0, None) (Some eth0, Some ErrDumpInterrupted) None.

(** Rename to ["net1"] with an MTU of 9000. *)
Definition net1_mtu9000 : LinkAttrs := mkLinkAttrs 0 9000 "net1" None "" 0 0 0 0.

Definition link_local : IPNet := mkIPNet [169; 254; 169; 13] [255; 255; 255; 255].

(** The request that moves link 7 into the namespace at descriptor 3 as
    ["net1"] with an MTU of 9000. *)
Definition request_net1 : nl.NetlinkRequest :=
  nl.mkRequest 16 5 (Some 4)
    [nl.IfInfomsg 0 7;
     nl.RtAttr unix.IFLA_IFNAME (nl.ZeroTerminated "net1");
     nl.RtAttr unix.IFLA_MTU (nl.Uint32Attr 9000);
     nl.RtAttr unix.IFLA_NET_NS_FD (nl.Uint32Attr 3)].

(* ===================================================================== *)
(** ** The driver: further observations *)
(* ===================================================================== *)

(** The engine calls [RunPodSandbox] makes for [n] devices: every one of
    them attaches the prepared device name under that same name, with no
    other attribute and no address. *)
Definition attach_entries (ns : string) (prepared : any) (n : nat) : list event :=
  match prepared with
  | any_string name =>
      replicate n (EvNsAttachNetdev name ns (mkLinkAttrs 0 0 name None "" 0 0 0 0) [])
  | _ => []
  end.

(** The error of the type assertion on the prepared data. *)
Definition invalid_prepared_data (prepared : any) : error :=
  Errorf "invalid prepared data type: expected string, got %T" [any_T prepared].

Definition is_any_string (v : any) : bool :=
  match v with
  | any_string _ => true
  | _ => false
  end.

Definition claim_two_devices : resourceapi.ResourceClaim :=
  resourceapi.mkResourceClaim "claim-3" "uid-c3"
    (resourceapi.mkResourceClaimStatus
       (Some (resourceapi.mkAllocationResult
                (resourceapi.mkDeviceAllocationResult
                   [resourceapi.mkDeviceRequestAllocationResult
                      "req-a" "hostdevice.k8s.io" "node-1" "eth2";
                    resourceapi.mkDeviceRequestAllocationResult
                      "req-b" "hostdevice.k8s.io" "node-1" "eth3"])))).

(** The object the kubelet passes to unprepare for a claim. *)
Definition namespaced (ns : string) (claim : resourceapi.ResourceClaim)
  : kubeletplugin.NamespacedObject :=
  kubeletplugin.mkNamespacedObject ns (resourceapi.Name claim) (resourceapi.UID claim).

(** Devices are recorded for pod [uid-w1] but nothing was prepared. *)
Definition world_unprepared (sc : script) : driver.World (H:=scripted sc) :=
  @driver.mkWorld (scripted sc)
    (driver.mkSharedState {["uid-w1" := [device_a; device_b]]} ∅) 0.

(** A sandbox whose first network namespace has no path. *)
Definition pod_empty_path : api.PodSandbox :=
  api.mkPodSandbox "w3" "uid-w1" "default"
    (Some (api.mkLinuxPodSandbox
             [api.mkLinuxNamespace "ipc" "/proc/43/ns/ipc";
              api.mkLinuxNamespace "network" "";
              api.mkLinuxNamespace "network" "/run/netns/w3"])).

(** The line [StopPodSandbox] logs for a device whose cleanup failed. *)
Definition cleanup_failure (pod : api.PodSandbox) (e : error)
    (d : driver.AllocatedDevice) : event :=
  EvLogError "failed to cleanup device %s for pod %s: %v"
    [driver.Name d; api.Name pod] e.

(* ===================================================================== *)
(** ** Device discovery ([getDevices]) *)
(* ===================================================================== *)

(** [net.Flags] bits. *)
Module net.
Definition FlagUp : Z := 1.
Definition FlagLoopback : Z := 4.
End net.

(** A link as [netlink.LinkList] returns it: the attributes above together
    with the [Flags] field of [netlink.LinkAttrs], which only discovery
    reads. *)
Record ListedLink : Type := mkListedLink {
  Attrs : LinkAttrs;
  Flags : Z;
}.

(** [resourceapi.Device] and [resourceapi.DeviceAttribute], the fields
    discovery fills in. *)
Module device.
Record DeviceAttribute : Type := mkDeviceAttribute {
  StringValue : option string;
}.
Record Device : Type := mkDevice {
  Name : string;
  Attributes : gmap string DeviceAttribute;
}.
End device.

Section Discovery.
Context `{Platform}.

(** The loop of [getDevices] over the links, appending to [devices]. *)
Fixpoint getDevices_loop (links : list ListedLink) (devices : list device.Device)
  : list device.Device :=
  match links with
  | [] => devices
  | link :: rest =>
      let attrs := Attrs link in
      (* skip loopback, virtual, and down interfaces *)
      if bool_decide (Z.land (Flags link) net.FlagLoopback ≠ 0)
         || bool_decide (Z.land (Flags link) net.FlagUp = 0)
      then getDevices_loop rest devices
      else if String.prefix "veth" (Name attrs)
              || String.prefix "docker" (Name attrs)
              || String.prefix "cni" (Name attrs)
      then getDevices_loop rest devices
      else
        let device :=
          device.mkDevice (Name attrs)
            (<["interface-name" := device.mkDeviceAttribute (Some (Name attrs))]>
               (<["mac-address" :=
                    device.mkDeviceAttribute
                      (Some (HardwareAddr_String (HardwareAddr attrs)))]> ∅)) in
        getDevices_loop rest (devices ++ [device])
  end.

(** [getDevices], as a function of what [netlink.LinkList] answered. *)
Definition getDevices (LinkList : list ListedLink * option error)
  : list device.Device * option error :=
  let '(links, err) := LinkList in
  match err with
  | Some e => ([], Some (ErrorfW "failed to list network interfaces: %w" [] e))
  | None => (getDevices_loop links [], None)
  end.

(** A link that discovery publishes: administratively up, not a loopback,
    and not named like a virtual interface of the container runtime. *)
Definition publishable (link : ListedLink) : Prop :=
  Z.testbit (Flags link) 0 = true /\
  Z.testbit (Flags link) 2 = false /\
  String.prefix "veth" (Name (Attrs link)) = false /\
  String.prefix "docker" (Name (Attrs link)) = false /\
  String.prefix "cni" (Name (Attrs link)) = false.

Global Instance publishable_dec (link : ListedLink) : Decision (publishable link).
Proof. unfold publishable. apply _. Defined.

(** The device published for a link. *)
Definition published (link : ListedLink) : device.Device :=
  device.mkDevice (Name (Attrs link))
    {["interface-name" := device.mkDeviceAttribute (Some (Name (Attrs link)));
      "mac-address" :=
        device.mkDeviceAttribute (Some (HardwareAddr_String (HardwareAddr (Attrs link))))]}.

End Discovery.

Definition link_lo : ListedLink :=
  mkListedLink (mkLinkAttrs 1 65536 "lo" None "" 0 0 0 0) 37.
Definition link_eth0 : ListedLink := mkListedLink eth0 51.
Definition link_eth1_down : ListedLink :=
  mkListedLink (mkLinkAttrs 8 1500 "eth1" None "" 0 0 0 0) 18.
Definition link_veth : ListedLink :=
  mkListedLink (mkLinkAttrs 9 1500 "veth1a2b" None "" 0 0 0 0) 51.
Definition link_ens5 : ListedLink :=
  mkListedLink (mkLinkAttrs 10 9001 "ens5" None "" 0 0 0 0) 51.

(* ===================================================================== *)
(** ** The publisher ([publishResources]) *)
(* ===================================================================== *)

(** [k8s.io/dynamic-resource-allocation/resourceslice], as the publisher
    fills it in. *)
Module resourceslice.
Record Slice : Type := mkSlice { Devices : list device.Device }.
Record Pool : Type := mkPool { Slices : list Slice }.
Record DriverResources : Type := mkDriverResources { Pools : gmap string Pool }.
End resourceslice.

(** What one [select] of the publisher's loop received: the cancellation of
    the context, or a tick, with what [netlink.LinkList] answers at that tick
    and what [PublishResources] answers if it is called. *)
Inductive publisher_case : Type :=
  | CtxDone
  | TickerC (LinkList : list ListedLink * option error)
            (PublishResources : option error).

Inductive publisher_event : Type :=
  | EvPublishResources (resources : resourceslice.DriverResources)
  | EvPublisherError (format : string) (err : error).

Section Publisher.
Context `{Platform}.

(** [publishResources], driven by the cases its [select] receives.  The
    result tells whether the function returned; it is still waiting in
    [select] when the cases run out. *)
Fixpoint publishResources (nodeName : string) (cases : list publisher_case)
  : bool * list publisher_event :=
  match cases with
  | [] => (false, [])
  | CtxDone :: _ => (true, [])
  | TickerC LinkList PublishResources :: rest =>
      let '(devices, err) := getDevices LinkList in
      match err with
      | Some e =>
          let '(returned, events) := publishResources nodeName rest in
          (returned, EvPublisherError "failed to get devices: %v" e :: events)
      | None =>
          let resources :=
            resourceslice.mkDriverResources
              {[nodeName := resourceslice.mkPool [resourceslice.mkSlice devices]]} in
          let '(returned, events) := publishResources nodeName rest in
          (returned,
           EvPublishResources resources
           :: match PublishResources with
              | Some e => EvPublisherError "failed to publish resources: %v" e :: events
              | None => events
              end)
      end
  end.

End Publisher.

(** The resources published at a tick, in order. *)
Definition publications (events : list publisher_event)
  : list resourceslice.DriverResources :=
  omap (fun e => match e with
                 | EvPublishResources r => Some r
                 | EvPublisherError _ _ => None
                 end) events.

(** The listings of the ticks whose enumeration succeeded, in order. *)
Definition listings (ticks : list ((list ListedLink * option error) * option error))
  : list (list ListedLink) :=
  omap (fun t => match t with
                 | ((links, None), _) => Some links
                 | ((_, Some _), _) => None
                 end) ticks.

(* ===================================================================== *)
(** ** The NRI plugin loop ([runNRIPlugin]) *)
(* ===================================================================== *)

Definition maxAttempts : Z := 10.
(** [5 * time.Minute], in nanoseconds. *)
Definition stabilityThreshold : Z := 5 * (60 * 1000000000).

(** One turn of the loop, as the environment decides it: how long
    [nriPlugin.Run] ran, what it returned, and whether the context was
    cancelled before the five-second timer of the [select] fired. *)
Record plugin_run : Type := mkPluginRun {
  elapsed : Z;
  run_err : option error;
  cancelled : bool;
}.

Inductive nri_event : Type :=
  | EvPluginRun
  | EvPluginFailed (err : error)       (* klog.Errorf "NRI plugin failed: %v" *)
  | EvPluginStable                     (* klog.Infof "... resetting retry counter" *)
  | EvPluginRestart (attempt : Z)      (* klog.Infof "Restarting NRI plugin (attempt %d/%d)" *)
  | EvPluginFatal.                     (* klog.Fatalf: the process exits *)

Inductive nri_exit : Type :=
  | NriReturned                        (* the context was cancelled *)
  | NriFatal                           (* klog.Fatalf *)
  | NriRunning (attempt : Z).          (* the runs ran out: the plugin is running *)

(** [runNRIPlugin] from the loop test on, with the counter at [attempt]. *)
Fixpoint runNRIPlugin_from (attempt : Z) (runs : list plugin_run)
  : nri_exit * list nri_event :=
  if bool_decide (attempt < maxAttempts) then
    match runs with
    | [] => (NriRunning attempt, [])
    | run :: rest =>
        let failed := match run_err run with
                      | Some e => [EvPluginFailed e]
                      | None => []
                      end in
        (* if the plugin was stable for a while, reset the backoff counter *)
        let '(attempt, stable) :=
          if bool_decide (elapsed run > stabilityThreshold)
          then (0, [EvPluginStable])
          else (attempt + 1, []) in
        if cancelled run then (NriReturned, EvPluginRun :: failed ++ stable)
        else
          let '(exit, events) := runNRIPlugin_from attempt rest in
          (exit, EvPluginRun :: failed ++ stable ++ EvPluginRestart attempt :: events)
    end
  else (NriFatal, [EvPluginFatal]).

Definition runNRIPlugin (runs : list plugin_run) : nri_exit * list nri_event :=
  runNRIPlugin_from 0 runs.

(** A run that did not last longer than the stability threshold and was not
    followed by a cancellation. *)
Definition unstable (run : plugin_run) : Prop :=
  elapsed run <= stabilityThreshold /\ cancelled run = false.

Definition plugin_runs (events : list nri_event) : nat :=
  length (List.filter (fun e => match e with EvPluginRun => true | _ => false end) events).

(* ===================================================================== *)
(** ** The program logic *)
(* ===================================================================== *)

Section ProgramLogic.
Context {S : Type}.

Lemma emits_ret {A} P (a : A) : emits (S:=S) P (ret a).
Proof. intros s. constructor. Qed.

Lemma emits_panic {A} P msg : emits (S:=S) P (panic (A:=A) msg).
Proof. intros s. constructor. Qed.

Lemma emits_emit P e : P e -> emits (S:=S) P (emit e).
Proof. intros He s. repeat constructor. exact He. Qed.

Lemma emits_bind {A B} P (m : Prog S A) (f : A -> Prog S B) :
  emits P m -> (forall a, emits P (f a)) -> emits P (bind m f).
Proof.
  intros Hm Hf s. specialize (Hm s). unfold bind, trace_of in *.
  destruct (m s) as [[[a | msg] s1] t1]; cbn in *; [| exact Hm].
  specialize (Hf a s1). unfold trace_of in Hf.
  destruct (f a s1) as [[r s2] t2]; cbn in *.
  apply Forall_app; split; assumption.
Qed.

Lemma emits_defer {A} P (d : Prog S unit) (m : Prog S A) :
  emits P d -> emits P m -> emits P (defer d m).
Proof.
  intros Hd Hm s. specialize (Hm s). unfold defer, trace_of in *.
  destruct (m s) as [[r s1] t1]; cbn in *.
  specialize (Hd s1). unfold trace_of in Hd.
  destruct (d s1) as [[r' s2] t2]; cbn in *.
  apply Forall_app; split; assumption.
Qed.

Lemma preserves_ret {A} I (a : A) : preserves (S:=S) I (ret a).
Proof. intros s Hs. exact Hs. Qed.

Lemma preserves_emit I e : preserves (S:=S) I (emit e).
Proof. intros s Hs. exact Hs. Qed.

Lemma preserves_bind {A B} I (m : Prog S A) (f : A -> Prog S B) :
  preserves I m -> (forall a, preserves I (f a)) -> preserves I (bind m f).
Proof.
  intros Hm Hf s Hs. specialize (Hm s Hs). unfold bind, state_of in *.
  destruct (m s) as [[[a | msg] s1] t1]; cbn in *; [| exact Hm].
  specialize (Hf a s1 Hm). unfold state_of in Hf.
  destruct (f a s1) as [[r s2] t2]; exact Hf.
Qed.

Lemma preserves_defer {A} I (d : Prog S unit) (m : Prog S A) :
  preserves I d -> preserves I m -> preserves I (defer d m).
Proof.
  intros Hd Hm s Hs. specialize (Hm s Hs). unfold defer, state_of in *.
  destruct (m s) as [[r s1] t1]; cbn in *.
  specialize (Hd s1 Hm). unfold state_of in Hd.
  destruct (d s1) as [[r' s2] t2]; exact Hd.
Qed.

(** Unfolding [bind] along a run that returns. *)
Lemma bind_returned {A B} (m : Prog S A) (f : A -> Prog S B) s a s1 t1 :
  m s = (Returned a, s1, t1) ->
  bind m f s = ((f a s1).1.1, (f a s1).1.2, t1 ++ (f a s1).2).
Proof. intros Hm. unfold bind. rewrite Hm. destruct (f a s1) as [[? ?] ?]. reflexivity. Qed.

End ProgramLogic.

(* ===================================================================== *)
(** ** Facts about traces *)
(* ===================================================================== *)






(* ===================================================================== *)
(** ** The relocation engine: traces and outcomes *)
(* ===================================================================== *)

Section EngineFacts.
Context `{Platform}.

(** A call of [NsDetachNetdev] is its entry event followed by platform
    calls only. *)
Lemma NsDetachNetdev_trace ns dev out k :
  exists t,
    trace_of (NsDetachNetdev ns dev out k) = EvNsDetachNetdev ns dev out :: t /\
    Forall (fun e => is_call e = true) t.
Proof.
  unfold NsDetachNetdev. run_prog.
  all: eexists; split; [reflexivity | repeat constructor].
Qed.

Lemma emits_syscall {A} P c (op : kstate -> A * kstate) :
  P (EvCall c) -> emits P (syscall c op).
Proof.
  intros Hc k. unfold syscall, trace_of. destruct (op k) as [a k1]; cbn.
  repeat constructor. exact Hc.
Qed.

Lemma emits_syscall_ P c (op : kstate -> kstate) :
  P (EvCall c) -> emits P (syscall_ c op).
Proof. intros Hc k. repeat constructor. exact Hc. Qed.

Lemma emits_deref P (l : option Link) : emits (S:=kstate) P (deref l).
Proof. destruct l; [apply emits_ret | apply emits_panic]. Qed.

(** One step of a proof that a program only emits events satisfying a
    predicate that holds of every platform call. *)
Ltac emits_step :=
  lazymatch goal with
  | |- emits _ (match ?x with _ => _ end) => destruct x
  | |- emits _ (bind _ _) => apply emits_bind; [| intros]
  | |- emits _ (defer _ _) => apply emits_defer
  | |- emits _ (ret _) => apply emits_ret
  | |- emits _ (deref _) => apply emits_deref
  | |- emits _ (emit _) => apply emits_emit; try assumption
  | |- emits _ (syscall _ _) => apply emits_syscall; auto
  | |- emits _ (syscall_ _ _) => apply emits_syscall_; auto
  end.

Lemma NsAttachNetdev_addresses_emits P nhNs nsLink ns data addrs :
  (forall c, P (EvCall c)) ->
  emits P (NsAttachNetdev_addresses nhNs nsLink ns data addrs).
Proof.
  intros Hc. revert data. induction addrs as [| a addrs IH]; intros data.
  - apply emits_ret.
  - cbn [NsAttachNetdev_addresses]. unfold netlink_AddrAdd.
    repeat emits_step. apply IH.
Qed.

(** [NsAttachNetdev] emits its entry event and platform calls only. *)
Lemma NsAttachNetdev_emits P hostIfName ns newAttr addrs :
  P (EvNsAttachNetdev hostIfName ns newAttr addrs) ->
  (forall c, P (EvCall c)) ->
  emits P (NsAttachNetdev hostIfName ns newAttr addrs).
Proof.
  intros He Hc. unfold NsAttachNetdev.
  unfold netlink_LinkByName, netlink_LinkSetDown, netlink_LinkSetUp,
    netns_GetFromPath, NsHandle_Close, nl_GetNetlinkSocketAt, Socket_Close,
    netlink_NewHandleAt, Handle_Close, req_Execute.
  repeat first [ apply NsAttachNetdev_addresses_emits; assumption | emits_step ].
Qed.


(** On a platform whose lookups honour the library contract,
    [NsDetachNetdev] returns: it never dereferences a nil link. *)
Lemma NsDetachNetdev_returns ns dev out k :
  lookups_return_links H ->
  exists err, outcome_of (NsDetachNetdev ns dev out k) = Returned err.
Proof.
  intros Hc. unfold NsDetachNetdev. run_prog.
  all: try (eexists; reflexivity).
  all: exfalso.
  all: match goal with
       | Hl : k_LinkByName _ _ _ = (None, ?e, _) |- _ =>
           destruct (Hc _ _ _ _ _ _ Hl) as [? ?]; [try reflexivity; try assumption | discriminate]
       end.
Qed.

End EngineFacts.

(* ===================================================================== *)
(** ** The driver: helper lemmas *)
(* ===================================================================== *)

Section DriverFacts.
Context `{Platform}.

Import driver.

Lemma in_kernel_trace {A} (m : Prog kstate A) w :
  trace_of (in_kernel m w) = trace_of (m (kernel w)).
Proof. unfold in_kernel, trace_of. destruct (m (kernel w)) as [[? ?] ?]. reflexivity. Qed.

Lemma in_kernel_outcome {A} (m : Prog kstate A) w :
  outcome_of (in_kernel m w) = outcome_of (m (kernel w)).
Proof. unfold in_kernel, outcome_of. destruct (m (kernel w)) as [[? ?] ?]. reflexivity. Qed.

Lemma in_kernel_sharedState {A} (m : Prog kstate A) w :
  sharedState (state_of (in_kernel m w)) = sharedState w.
Proof. unfold in_kernel, state_of. destruct (m (kernel w)) as [[? ?] ?]. reflexivity. Qed.

Lemma emits_in_kernel {A} P (m : Prog kstate A) :
  emits P m -> emits P (in_kernel m).
Proof. intros Hm w. rewrite in_kernel_trace. apply Hm. Qed.

(** A handler body run under the mutex, released by a deferred unlock. *)
Lemma locked_run {A} (body : Prog World A) w :
  (mu_Lock ;;; defer mu_Unlock body) w
  = (outcome_of (body w), state_of (body w),
     EvLock :: trace_of (body w) ++ [EvUnlock]).
Proof.
  unfold mu_Lock, mu_Unlock, bind, defer, emit, outcome_of, state_of, trace_of.
  destruct (body w) as [[r w1] t]. reflexivity.
Qed.

(** *** Events of the two per-device operations *)





(** *** The shared state is only read by the per-device operations *)

Lemma configureDeviceForPod_sharedState device ns pod prepared w :
  sharedState (state_of (configureDeviceForPod device ns pod prepared w))
  = sharedState w.
Proof.
  unfold configureDeviceForPod. destruct prepared; try reflexivity.
  unfold bind, state_of.
  pose proof (in_kernel_sharedState
                (NsAttachNetdev s ns (mkLinkAttrs 0 0 s None "" 0 0 0 0) []) w) as Hk.
  unfold state_of in Hk.
  destruct (in_kernel _ w) as [[[[? ?] | ?] w1] t]; cbn in *; exact Hk.
Qed.

Lemma cleanupDeviceForPod_sharedState device ns pod prepared w :
  sharedState (state_of (cleanupDeviceForPod device ns pod prepared w))
  = sharedState w.
Proof.
  unfold cleanupDeviceForPod. destruct prepared; try reflexivity.
  apply in_kernel_sharedState.
Qed.

Lemma RunPodSandbox_loop_sharedState devices ns pod prepared w :
  sharedState (state_of (RunPodSandbox_loop devices ns pod prepared w))
  = sharedState w.
Proof.
  revert w. induction devices as [| d devices IH]; intros w; [reflexivity |].
  cbn [RunPodSandbox_loop]. unfold bind, state_of.
  pose proof (configureDeviceForPod_sharedState d ns pod prepared w) as Hd.
  unfold state_of in Hd.
  destruct (configureDeviceForPod d ns pod prepared w) as [[[[e |] | msg] w1] t1];
    cbn in *; try exact Hd.
  specialize (IH w1). unfold state_of in IH.
  destruct (RunPodSandbox_loop devices ns pod prepared w1) as [[r w2] t2]; cbn in *.
  congruence.
Qed.

Lemma StopPodSandbox_loop_sharedState devices ns pod prepared w :
  sharedState (state_of (StopPodSandbox_loop devices ns pod prepared w))
  = sharedState w.
Proof.
  revert w. induction devices as [| d devices IH]; intros w; [reflexivity |].
  cbn [StopPodSandbox_loop]. unfold bind, state_of.
  pose proof (cleanupDeviceForPod_sharedState d ns pod prepared w) as Hd.
  unfold state_of in Hd.
  destruct (cleanupDeviceForPod d ns pod prepared w) as [[[err | msg] w1] t1];
    cbn in *; try exact Hd.
  specialize (IH w1). unfold state_of in IH.
  destruct err; cbn;
    destruct (StopPodSandbox_loop devices ns pod prepared w1) as [[r w2] t2]; cbn in *;
    congruence.
Qed.

End DriverFacts.

(* ===================================================================== *)
(** ** Removal, unprepare and the missing namespace *)
(* ===================================================================== *)

(** C5 (purge completeness).  From every world, [RemovePodSandbox] returns nil
    and leaves neither an allocated-devices entry nor a prepared artifact
    under the pod's UID; it takes the mutex, releases it, and makes no call
    into the relocation engine. *)
Theorem RemovePodSandbox_purges `{Platform} (w : driver.World) (pod : api.PodSandbox) :
  outcome_of (driver.RemovePodSandbox pod w) = Returned None /\
  driver.PodDeviceConfig (driver.sharedState (state_of (driver.RemovePodSandbox pod w)))
    !! api.Uid pod = None /\
  driver.PreparedData (driver.sharedState (state_of (driver.RemovePodSandbox pod w)))
    !! api.Uid pod = None /\
  trace_of (driver.RemovePodSandbox pod w) = [EvLock; EvUnlock].
Proof.
  unfold driver.RemovePodSandbox. rewrite locked_run.
  cbn. repeat split; apply lookup_delete_eq.
Qed.

Section Unprepare.
Context `{Platform}.
Import driver.

(** Deleting the UIDs of a batch, one after the other. *)
Lemma lookup_foldl_delete (claims : list kubeletplugin.NamespacedObject)
    (m : gmap string any) (u : string) :
  foldl (fun m c => delete (kubeletplugin.UID c) m) m claims !! u
  = if decide (u ∈ kubeletplugin.UID <$> claims) then None else m !! u.
Proof.
  revert m. induction claims as [| c claims IH]; intros m; cbn [foldl].
  - rewrite decide_False; [reflexivity | apply not_elem_of_nil].
  - rewrite IH, fmap_cons.
    destruct (decide (u ∈ kubeletplugin.UID <$> claims)) as [Hin | Hnin].
    + rewrite decide_True; [reflexivity | apply elem_of_cons; right; exact Hin].
    + destruct (decide (u = kubeletplugin.UID c)) as [-> | Hne].
      * rewrite lookup_delete_eq.
        rewrite decide_True; [reflexivity | apply elem_of_cons; left; reflexivity].
      * rewrite lookup_delete_ne by congruence.
        rewrite decide_False; [reflexivity |].
        apply not_elem_of_cons. split; assumption.
Qed.

Lemma UnprepareResourceClaims_loop_run claims errors w :
  UnprepareResourceClaims_loop claims errors w
  = (Returned errors,
     mkWorld (mkSharedState (PodDeviceConfig (sharedState w))
                (foldl (fun m c => delete (kubeletplugin.UID c) m)
                       (PreparedData (sharedState w)) claims))
             (kernel w),
     concat (map (fun _ => [EvLock; EvUnlock]) claims)).
Proof.
  revert errors w. induction claims as [| c claims IH]; intros errors w.
  - destruct w as [[? ?] ?]. reflexivity.
  - cbn [UnprepareResourceClaims_loop unprepareDevice].
    unfold mu_Lock, mu_Unlock, get_sharedState, put_sharedState, bind, emit.
    rewrite IH. reflexivity.
Qed.

Lemma UnprepareResourceClaims_run claims w :
  UnprepareResourceClaims claims w
  = (Returned (∅, None),
     mkWorld (mkSharedState (PodDeviceConfig (sharedState w))
                (foldl (fun m c => delete (kubeletplugin.UID c) m)
                       (PreparedData (sharedState w)) claims))
             (kernel w),
     concat (map (fun _ => [EvLock; EvUnlock]) claims)).
Proof.
  unfold UnprepareResourceClaims, bind.
  rewrite UnprepareResourceClaims_loop_run. unfold ret.
  rewrite app_nil_r. reflexivity.
Qed.

End Unprepare.

(** C6 (idempotence of unprepare).  [UnprepareResourceClaims] reports no error,
    neither for the batch nor for any claim of it, whatever the state; after
    it no claim of the batch has a prepared artifact; and running it a second
    time on the same batch leaves the world exactly as the first run left
    it. *)
Theorem UnprepareResourceClaims_idempotent `{Platform} (w : driver.World)
    (claims : list kubeletplugin.NamespacedObject) :
  outcome_of (driver.UnprepareResourceClaims claims w) = Returned (∅, None) /\
  outcome_of (driver.UnprepareResourceClaims claims
                (state_of (driver.UnprepareResourceClaims claims w)))
    = Returned (∅, None) /\
  state_of (driver.UnprepareResourceClaims claims
              (state_of (driver.UnprepareResourceClaims claims w)))
    = state_of (driver.UnprepareResourceClaims claims w) /\
  Forall (fun c =>
            driver.PreparedData
              (driver.sharedState (state_of (driver.UnprepareResourceClaims claims w)))
              !! kubeletplugin.UID c = None) claims.
Proof.
  rewrite !UnprepareResourceClaims_run. cbn.
  split; [reflexivity |]. split; [reflexivity |]. split.
  - f_equal. f_equal. apply map_eq. intros u.
    rewrite !lookup_foldl_delete. case_decide; reflexivity.
  - apply Forall_forall. intros c Hc.
    rewrite lookup_foldl_delete. case_decide as Hin; [reflexivity |].
    exfalso. apply Hin. apply list_elem_of_fmap_2. exact Hc.
Qed.

Lemma getNetworkNamespace_none (pod : api.PodSandbox) :
  no_network_namespace pod -> driver.getNetworkNamespace pod = "".
Proof.
  unfold no_network_namespace, driver.getNetworkNamespace.
  induction 1 as [| ns l Hns _ IH]; [reflexivity |].
  cbn. rewrite bool_decide_eq_false_2 by exact Hns. exact IH.
Qed.

(** C8 (no namespace is a hard error on ready).  For a pod whose sandbox lists
    no namespace of type ["network"], [RunPodSandbox] returns an error, leaves
    the world as it was and emits nothing: the mutex is not taken and no
    attach is made for any device. *)
Theorem RunPodSandbox_no_namespace `{Platform} (w : driver.World) (pod : api.PodSandbox) :
  no_network_namespace pod ->
  driver.RunPodSandbox pod w
  = (Returned (Some (Errorf "pod %s/%s has no network namespace"
                       [api.Namespace pod; api.Name pod])),
     w, []).
Proof.
  intros Hns. unfold driver.RunPodSandbox.
  rewrite (getNetworkNamespace_none pod Hns). reflexivity.
Qed.

Lemma RunPodSandbox_no_namespace_witness :
  no_network_namespace pod_without_netns /\
  driver.RunPodSandbox pod_without_netns (world_two_devices calm)
  = (Returned (Some (Errorf "pod %s/%s has no network namespace" ["default"; "w2"])),
     world_two_devices calm, []).
Proof.
  assert (Hns : no_network_namespace pod_without_netns).
  { repeat constructor. cbn. discriminate. }
  split; [exact Hns |].
  exact (RunPodSandbox_no_namespace (world_two_devices calm) pod_without_netns Hns).
Defined.

(* ===================================================================== *)
(** ** The critical section of the NRI handlers *)
(* ===================================================================== *)

Lemma bind_run {S A B} (m : Prog S A) (f : A -> Prog S B) (s : S) (a : A) :
  outcome_of (m s) = Returned a ->
  outcome_of (bind m f s) = outcome_of (f a (state_of (m s))) /\
  state_of (bind m f s) = state_of (f a (state_of (m s))) /\
  trace_of (bind m f s) = trace_of (m s) ++ trace_of (f a (state_of (m s))).
Proof.
  unfold bind, outcome_of, state_of, trace_of.
  destruct (m s) as [[r s1] t1]; cbn. intros ->.
  destruct (f a s1) as [[r2 s2] t2]; cbn. repeat split.
Qed.

Section CriticalSection.
Context `{Platform}.
Import driver.


Lemma StopPodSandbox_run pod w :
  let loop := StopPodSandbox_loop (devices_of w pod) (getNetworkNamespace pod) pod
                (prepared_of w pod) w in
  trace_of (StopPodSandbox pod w) = EvLock :: trace_of loop ++ [EvUnlock] /\
  state_of (StopPodSandbox pod w) = state_of loop /\
  (outcome_of loop = Returned tt -> outcome_of (StopPodSandbox pod w) = Returned None).
Proof.
  unfold StopPodSandbox, devices_of, prepared_of. rewrite locked_run.
  unfold get_sharedState, bind, trace_of, state_of, outcome_of. cbn.
  destruct (StopPodSandbox_loop _ _ _ _ w) as [[[[] | msg] w1] t]; cbn.
  - rewrite app_nil_r. repeat split.
  - repeat split. discriminate.
Qed.

End CriticalSection.



(* ===================================================================== *)
(** ** The stopping handler: best-effort detach *)
(* ===================================================================== *)

Lemma filter_entries_calls (t : list event) :
  Forall (fun e => is_call e = true) t -> List.filter is_engine_entry t = [].
Proof.
  induction 1 as [| e t He _ IH]; [reflexivity |].
  destruct e; cbn in *; try discriminate. exact IH.
Qed.

Section BestEffort.
Context `{Platform}.
Hypothesis contract : lookups_return_links H.
Import driver.

Lemma cleanupDeviceForPod_returns d ns pod prepared w :
  exists err, outcome_of (cleanupDeviceForPod d ns pod prepared w) = Returned err.
Proof.
  unfold cleanupDeviceForPod.
  destruct prepared; try (eexists; reflexivity).
  rewrite in_kernel_outcome. apply NsDetachNetdev_returns, contract.
Qed.

Lemma cleanupDeviceForPod_entries d ns pod prepared w :
  List.filter is_engine_entry (trace_of (cleanupDeviceForPod d ns pod prepared w))
  = detach_entries ns prepared 1.
Proof.
  unfold cleanupDeviceForPod, detach_entries.
  destruct prepared; try reflexivity.
  rewrite in_kernel_trace.
  destruct (NsDetachNetdev_trace ns s s (kernel w)) as (t & -> & Ht).
  cbn. rewrite (filter_entries_calls t Ht). reflexivity.
Qed.

(** One round of the loop: the cleanup, its log line if it failed, then
    the remaining devices from the world the cleanup left. *)
Lemma StopPodSandbox_loop_cons d rest ns pod prepared w :
  let rd := cleanupDeviceForPod d ns pod prepared w in
  let rr := StopPodSandbox_loop rest ns pod prepared (state_of rd) in
  outcome_of (StopPodSandbox_loop (d :: rest) ns pod prepared w) = outcome_of rr /\
  state_of (StopPodSandbox_loop (d :: rest) ns pod prepared w) = state_of rr /\
  trace_of (StopPodSandbox_loop (d :: rest) ns pod prepared w)
  = trace_of rd ++ cleanup_log d pod (outcome_of rd) ++ trace_of rr.
Proof.
  cbn zeta. cbn [StopPodSandbox_loop].
  destruct (cleanupDeviceForPod_returns d ns pod prepared w) as [err Herr].
  destruct (bind_run (cleanupDeviceForPod d ns pod prepared)
              (fun err =>
                 match err with
                 | Some e =>
                     emit (EvLogError "failed to cleanup device %s for pod %s: %v"
                             [Name d; api.Name pod] e)
                 | None => ret tt
                 end ;;; StopPodSandbox_loop rest ns pod prepared)
              w err Herr) as (Ho & Hs & Ht).
  rewrite Ho, Hs, Ht, Herr. clear Ho Hs Ht.
  set (w1 := state_of (cleanupDeviceForPod d ns pod prepared w)).
  unfold bind, emit, ret, outcome_of, state_of, trace_of, cleanup_log.
  destruct err as [e |]; cbn;
    destruct (StopPodSandbox_loop rest ns pod prepared w1) as [[r w2] t2];
    repeat split.
Qed.

Lemma StopPodSandbox_loop_returns devices ns pod prepared w :
  outcome_of (StopPodSandbox_loop devices ns pod prepared w) = Returned tt.
Proof.
  revert w. induction devices as [| d rest IH]; intros w; [reflexivity |].
  destruct (StopPodSandbox_loop_cons d rest ns pod prepared w) as (-> & _ & _).
  apply IH.
Qed.

Lemma detach_entries_S ns prepared n :
  detach_entries ns prepared (S n)
  = detach_entries ns prepared 1 ++ detach_entries ns prepared n.
Proof. destruct prepared; reflexivity. Qed.

Lemma StopPodSandbox_loop_entries devices ns pod prepared w :
  List.filter is_engine_entry (trace_of (StopPodSandbox_loop devices ns pod prepared w))
  = detach_entries ns prepared (length devices).
Proof.
  revert w. induction devices as [| d rest IH]; intros w.
  - destruct prepared; reflexivity.
  - destruct (StopPodSandbox_loop_cons d rest ns pod prepared w) as (_ & _ & ->).
    cbn [length]. rewrite (detach_entries_S ns prepared (length rest)).
    rewrite !List.filter_app, IH, cleanupDeviceForPod_entries. f_equal.
    unfold cleanup_log.
    destruct (outcome_of (cleanupDeviceForPod d ns pod prepared w)) as [[e |] | msg];
      reflexivity.
Qed.

(** The loop over [pre ++ post] is the loop over [pre] followed by the loop
    over [post]. *)
Lemma StopPodSandbox_loop_app pre post ns pod prepared w :
  state_of (StopPodSandbox_loop (pre ++ post) ns pod prepared w)
  = state_of (StopPodSandbox_loop post ns pod prepared
                (state_of (StopPodSandbox_loop pre ns pod prepared w))) /\
  trace_of (StopPodSandbox_loop (pre ++ post) ns pod prepared w)
  = trace_of (StopPodSandbox_loop pre ns pod prepared w)
    ++ trace_of (StopPodSandbox_loop post ns pod prepared
                   (state_of (StopPodSandbox_loop pre ns pod prepared w))).
Proof.
  revert w. induction pre as [| d pre IH]; intros w.
  - split; reflexivity.
  - rewrite <- app_comm_cons.
    destruct (StopPodSandbox_loop_cons d (pre ++ post) ns pod prepared w) as (_ & -> & ->).
    destruct (StopPodSandbox_loop_cons d pre ns pod prepared w) as (_ & -> & ->).
    destruct (IH (state_of (cleanupDeviceForPod d ns pod prepared w))) as (-> & ->).
    split; [reflexivity |]. rewrite <- !app_assoc. reflexivity.
Qed.

(** The trace of the handler around any one device of the pod. *)
Lemma StopPodSandbox_trace_split pod w pre d post :
  devices_of w pod = pre ++ d :: post ->
  let ns := getNetworkNamespace pod in
  let prepared := prepared_of w pod in
  let before := StopPodSandbox_loop pre ns pod prepared w in
  let rd := cleanupDeviceForPod d ns pod prepared (state_of before) in
  trace_of (StopPodSandbox pod w)
  = EvLock :: trace_of before ++ trace_of rd ++ cleanup_log d pod (outcome_of rd)
      ++ trace_of (StopPodSandbox_loop post ns pod prepared (state_of rd))
      ++ [EvUnlock].
Proof.
  intros Hsplit. cbn zeta.
  destruct (StopPodSandbox_run pod w) as (-> & _ & _).
  rewrite Hsplit.
  destruct (StopPodSandbox_loop_app pre (d :: post) (getNetworkNamespace pod) pod
              (prepared_of w pod) w) as (_ & ->).
  destruct (StopPodSandbox_loop_cons d post (getNetworkNamespace pod) pod
              (prepared_of w pod)
              (state_of (StopPodSandbox_loop pre (getNetworkNamespace pod) pod
                           (prepared_of w pod) w))) as (_ & _ & ->).
  rewrite <- !app_assoc. reflexivity.
Qed.

Lemma StopPodSandbox_returns_nil pod w :
  outcome_of (StopPodSandbox pod w) = Returned None.
Proof.
  destruct (StopPodSandbox_run pod w) as (_ & _ & Ho).
  apply Ho, StopPodSandbox_loop_returns.
Qed.

Lemma StopPodSandbox_entries pod w :
  List.filter is_engine_entry (trace_of (StopPodSandbox pod w))
  = detach_entries (getNetworkNamespace pod) (prepared_of w pod)
      (length (devices_of w pod)).
Proof.
  destruct (StopPodSandbox_run pod w) as (-> & _ & _).
  cbn [List.filter is_engine_entry].
  rewrite List.filter_app, StopPodSandbox_loop_entries. cbn. apply app_nil_r.
Qed.

End BestEffort.

Lemma scripted_lookups_return_links (sc : script) :
  is_Some (in_namespace sc).1 -> is_Some (in_host sc).1 ->
  lookups_return_links (scripted sc).
Proof.
  intros Hns Hhost h name k l e k1 Hlook _. cbn in Hlook.
  destruct h; injection Hlook as Hle _.
  - rewrite Hle in Hns. exact Hns.
  - rewrite Hle in Hhost. exact Hhost.
Qed.



(** C10 (stopping without a namespace).  For a pod whose sandbox lists no
    namespace of type ["network"], on a platform whose lookups honour the
    library contract: [StopPodSandbox] returns nil although [RunPodSandbox]
    returns an error for the same pod; every engine call it makes is a detach
    from the empty namespace path, one per allocated device; and a cleanup
    that fails adds one log line and the loop goes on. *)
Theorem StopPodSandbox_no_namespace `{P : Platform} (w : driver.World)
    (pod : api.PodSandbox) :
  lookups_return_links P ->
  no_network_namespace pod ->
  outcome_of (driver.StopPodSandbox pod w) = Returned None /\
  (exists e, outcome_of (driver.RunPodSandbox pod w) = Returned (Some e)) /\
  List.filter is_engine_entry (trace_of (driver.StopPodSandbox pod w))
  = detach_entries "" (prepared_of w pod) (length (devices_of w pod)) /\
  forall pre d post,
    devices_of w pod = pre ++ d :: post ->
    let prepared := prepared_of w pod in
    let before := driver.StopPodSandbox_loop pre "" pod prepared w in
    let rd := driver.cleanupDeviceForPod d "" pod prepared (state_of before) in
    trace_of (driver.StopPodSandbox pod w)
    = EvLock :: trace_of before ++ trace_of rd ++ cleanup_log d pod (outcome_of rd)
        ++ trace_of (driver.StopPodSandbox_loop post "" pod prepared (state_of rd))
        ++ [EvUnlock].
Proof.
  intros Hc Hns. pose proof (getNetworkNamespace_none pod Hns) as Hempty.
  split; [| split; [| split]].
  - apply StopPodSandbox_returns_nil, Hc.
  - unfold driver.RunPodSandbox. rewrite Hempty. eexists. reflexivity.
  - rewrite <- Hempty. apply StopPodSandbox_entries, Hc.
  - intros pre d post Hsplit. rewrite <- Hempty.
    apply StopPodSandbox_trace_split; assumption.
Qed.

(** Opening the namespace at the empty path fails for both devices; both
    failures are logged and the handler returns nil. *)
Lemma StopPodSandbox_no_namespace_witness :
  lookups_return_links (scripted calm) /\
  no_network_namespace pod_without_netns /\
  outcome_of (driver.StopPodSandbox pod_without_netns (world_two_devices calm))
  = Returned None /\
  trace_of (driver.StopPodSandbox pod_without_netns (world_two_devices calm))
  = [EvLock;
     EvNsDetachNetdev "" "eth0" "eth0"; EvCall (CGetFromPath "");
     EvLogError "failed to cleanup device %s for pod %s: %v" ["eth0"; "w2"]
       (ErrorfW "could not get network namespace from path %s for network device %s : %w"
          [""; "eth0"] (ErrExternal "ENOENT"));
     EvNsDetachNetdev "" "eth0" "eth0"; EvCall (CGetFromPath "");
     EvLogError "failed to cleanup device %s for pod %s: %v" ["eth1"; "w2"]
       (ErrorfW "could not get network namespace from path %s for network device %s : %w"
          [""; "eth0"] (ErrExternal "ENOENT"));
     EvUnlock].
Proof.
  assert (Hc : lookups_return_links (scripted calm)).
  { apply scripted_lookups_return_links; eexists; reflexivity. }
  assert (Hns : no_network_namespace pod_without_netns).
  { repeat constructor. cbn. discriminate. }
  destruct (StopPodSandbox_no_namespace (world_two_devices calm) pod_without_netns Hc Hns)
    as (Hret & _ & _ & Hsplit).
  split; [exact Hc |]. split; [exact Hns |]. split; [exact Hret |].
  rewrite (Hsplit [] device_a [device_b] eq_refl). reflexivity.
Defined.

(* ===================================================================== *)
(** ** Prepare *)
(* ===================================================================== *)

Section Prepare.
Context `{Platform}.
Import driver.

Lemma prepareDevice_no_devices claim :
  no_granted_devices claim = true ->
  prepareDevice claim
  = (any_nil, Some (Errorf "claim %s has no allocated devices"
                      [resourceapi.Name claim])).
Proof.
  unfold no_granted_devices, prepareDevice.
  destruct (resourceapi.Allocation _) as [a |]; [| reflexivity].
  destruct (resourceapi.Results _); [reflexivity | discriminate].
Qed.

Lemma prepareDevice_granted claim :
  no_granted_devices claim = false ->
  exists name, prepareDevice claim = (any_string name, None).
Proof.
  unfold no_granted_devices, prepareDevice.
  destruct (resourceapi.Allocation _) as [a |]; [| discriminate].
  destruct (resourceapi.Results _); [discriminate |].
  intros _. eexists. reflexivity.
Qed.

(** The loop of [PrepareResourceClaims]: it returns, it only touches the
    prepared-data map, and for an identity [u] under which the batch holds
    only claims without granted devices, the prepared data at [u] is what
    it was and the result at [u] is the error of such a claim. *)
Lemma PrepareResourceClaims_loop_spec claims :
  forall results w,
  exists results' pd' t,
    PrepareResourceClaims_loop claims results w
    = (Returned results',
       mkWorld (mkSharedState (PodDeviceConfig (sharedState w)) pd') (kernel w), t) /\
    Forall (fun e => is_mutex e = true) t /\
    forall u,
      (forall c, c ∈ claims -> resourceapi.UID c = u -> no_granted_devices c = true) ->
      pd' !! u = PreparedData (sharedState w) !! u /\
      (u ∉ resourceapi.UID <$> claims -> results' !! u = results !! u) /\
      (u ∈ resourceapi.UID <$> claims ->
       exists c, c ∈ claims /\ resourceapi.UID c = u /\
         results' !! u
         = Some (kubeletplugin.mkPrepareResult
                   (Some (Errorf "claim %s has no allocated devices"
                            [resourceapi.Name c])))).
Proof.
  induction claims as [| c rest IH]; intros results w.
  - exists results, (PreparedData (sharedState w)), [].
    split; [destruct w as [[? ?] ?]; reflexivity |].
    split; [constructor |].
    intros u _. split; [reflexivity |]. split; [reflexivity |].
    intros Hin. apply elem_of_nil in Hin. destruct Hin.
  - cbn [PrepareResourceClaims_loop].
    destruct (no_granted_devices c) eqn:Hc.
    + rewrite (prepareDevice_no_devices c Hc).
      destruct (IH (<[resourceapi.UID c :=
                      kubeletplugin.mkPrepareResult
                        (Some (Errorf "claim %s has no allocated devices"
                                 [resourceapi.Name c]))]> results) w)
        as (results' & pd' & t & Hrun & Ht & Hspec).
      exists results', pd', t. split; [exact Hrun |]. split; [exact Ht |].
      intros u Hu.
      destruct (Hspec u) as (Hpd & Hout & Hin).
      { intros c' Hc'. apply Hu. apply elem_of_cons. right. exact Hc'. }
      split; [exact Hpd |]. rewrite fmap_cons. split.
      * intros Hnin. apply not_elem_of_cons in Hnin as [Hne Hnin].
        rewrite (Hout Hnin). apply lookup_insert_ne. congruence.
      * intros Hcons.
        destruct (decide (u ∈ resourceapi.UID <$> rest)) as [Hrest | Hrest].
        -- destruct (Hin Hrest) as (c' & Hc' & Hu' & Hres).
           exists c'. split; [apply elem_of_cons; right; exact Hc' |].
           split; assumption.
        -- apply elem_of_cons in Hcons as [-> | Hcons]; [| contradiction].
           exists c. split; [apply elem_of_cons; left; reflexivity |].
           split; [reflexivity |].
           rewrite (Hout Hrest). apply lookup_insert_eq.
    + destruct (prepareDevice_granted c Hc) as [name ->].
      unfold mu_Lock, mu_Unlock, get_sharedState, put_sharedState, bind, emit.
      destruct (IH (<[resourceapi.UID c := kubeletplugin.mkPrepareResult None]> results)
                  (mkWorld (mkSharedState (PodDeviceConfig (sharedState w))
                              (<[resourceapi.UID c := any_string name]>
                                 (PreparedData (sharedState w))))
                           (kernel w)))
        as (results' & pd' & t & Hrun & Ht & Hspec).
      rewrite Hrun. cbv beta iota.
      exists results', pd', (EvLock :: EvUnlock :: t).
      split; [reflexivity |].
      split; [repeat (constructor; [reflexivity |]); exact Ht |].
      intros u Hu.
      assert (Hne : resourceapi.UID c ≠ u).
      { intros Heq. rewrite (Hu c) in Hc; [discriminate | | exact Heq].
        apply elem_of_cons. left. reflexivity. }
      destruct (Hspec u) as (Hpd & Hout & Hin).
      { intros c' Hc'. apply Hu. apply elem_of_cons. right. exact Hc'. }
      cbn in Hpd. rewrite lookup_insert_ne in Hpd by exact Hne.
      split; [exact Hpd |]. rewrite fmap_cons. split.
      * intros Hnin. apply not_elem_of_cons in Hnin as [_ Hnin].
        rewrite (Hout Hnin). apply lookup_insert_ne. exact Hne.
      * intros Hcons. apply elem_of_cons in Hcons as [Heq | Hcons]; [congruence |].
        destruct (Hin Hcons) as (c' & Hc' & Hu' & Hres).
        exists c'. split; [apply elem_of_cons; right; exact Hc' |].
        split; assumption.
Qed.

End Prepare.

(** C4 (prepare without granted devices).  [prepareDevice] fails on a claim
    whose allocation is absent or lists no device.  In a batch, when every
    claim filed under that claim's UID is such a claim (in particular when the
    UIDs of the batch are distinct), [PrepareResourceClaims] reports that
    error under the UID and the prepared-data map is, at that UID, what it
    was before the call: no entry is gained. *)
Theorem PrepareResourceClaims_no_devices `{Platform} (w : driver.World)
    (claims : list resourceapi.ResourceClaim) (claim : resourceapi.ResourceClaim) :
  claim ∈ claims ->
  (forall c, c ∈ claims -> resourceapi.UID c = resourceapi.UID claim ->
             no_granted_devices c = true) ->
  driver.prepareDevice claim
  = (any_nil, Some (Errorf "claim %s has no allocated devices" [resourceapi.Name claim])) /\
  exists results,
    outcome_of (driver.PrepareResourceClaims claims w) = Returned (results, None) /\
    (exists c, c ∈ claims /\ resourceapi.UID c = resourceapi.UID claim /\
       results !! resourceapi.UID claim
       = Some (kubeletplugin.mkPrepareResult
                 (Some (Errorf "claim %s has no allocated devices"
                          [resourceapi.Name c])))) /\
    driver.PreparedData (driver.sharedState (state_of (driver.PrepareResourceClaims claims w)))
      !! resourceapi.UID claim
    = driver.PreparedData (driver.sharedState w) !! resourceapi.UID claim /\
    driver.PodDeviceConfig (driver.sharedState (state_of (driver.PrepareResourceClaims claims w)))
    = driver.PodDeviceConfig (driver.sharedState w).
Proof.
  intros Hin Hu. split.
  - apply prepareDevice_no_devices. apply Hu; [exact Hin | reflexivity].
  - destruct (PrepareResourceClaims_loop_spec claims ∅ w)
      as (results & pd' & t & Hrun & _ & Hspec).
    destruct (Hspec (resourceapi.UID claim) Hu) as (Hpd & _ & Hres).
    exists results.
    unfold driver.PrepareResourceClaims, bind, outcome_of, state_of.
    rewrite Hrun. cbn. split; [reflexivity |]. split; [| split; [exact Hpd | reflexivity]].
    apply Hres. apply list_elem_of_fmap_2. exact Hin.
Qed.

Lemma PrepareResourceClaims_no_devices_witness :
  claim_empty ∈ [claim_eth0; claim_empty; claim_unallocated] /\
  exists results,
    outcome_of (driver.PrepareResourceClaims
                  [claim_eth0; claim_empty; claim_unallocated] (world_new calm))
    = Returned (results, None) /\
    (exists c, c ∈ [claim_eth0; claim_empty; claim_unallocated] /\
       resourceapi.UID c = "uid-c1" /\
       results !! "uid-c1"
       = Some (kubeletplugin.mkPrepareResult
                 (Some (Errorf "claim %s has no allocated devices"
                          [resourceapi.Name c])))) /\
    driver.PreparedData
      (driver.sharedState
         (state_of (driver.PrepareResourceClaims
                      [claim_eth0; claim_empty; claim_unallocated] (world_new calm))))
      !! "uid-c1" = None.
Proof.
  assert (Hin : claim_empty ∈ [claim_eth0; claim_empty; claim_unallocated]).
  { apply elem_of_cons. right. apply elem_of_cons. left. reflexivity. }
  split; [exact Hin |].
  destruct (PrepareResourceClaims_no_devices (world_new calm)
              [claim_eth0; claim_empty; claim_unallocated] claim_empty Hin)
    as (_ & results & Hret & Hres & Hpd & _).
  { intros c Hc Huid.
    apply elem_of_cons in Hc as [-> | Hc]; [discriminate Huid |].
    apply elem_of_cons in Hc as [-> | Hc]; [reflexivity |].
    apply elem_of_cons in Hc as [-> | Hc]; [reflexivity |].
    apply elem_of_nil in Hc. destruct Hc. }
  exists results. split; [exact Hret |]. split; [exact Hres |]. exact Hpd.
Defined.

(* ===================================================================== *)
(** ** The allocated-devices map is never written *)
(* ===================================================================== *)

Section NeverWritten.
Context `{Platform}.
Import driver.

Lemma PrepareResourceClaims_PodDeviceConfig claims w :
  PodDeviceConfig (sharedState (state_of (PrepareResourceClaims claims w)))
  = PodDeviceConfig (sharedState w).
Proof.
  destruct (PrepareResourceClaims_loop_spec claims ∅ w)
    as (results & pd' & t & Hrun & _ & _).
  unfold PrepareResourceClaims, bind, state_of. rewrite Hrun. reflexivity.
Qed.

Lemma RunPodSandbox_sharedState pod w :
  sharedState (state_of (RunPodSandbox pod w)) = sharedState w.
Proof.
  unfold RunPodSandbox. case_bool_decide; [reflexivity |].
  rewrite locked_run. unfold state_of at 1. cbn [fst snd].
  unfold get_sharedState, bind, state_of.
  pose proof (RunPodSandbox_loop_sharedState
                (default [] (PodDeviceConfig (sharedState w) !! api.Uid pod))
                (getNetworkNamespace pod) pod
                (default any_nil (PreparedData (sharedState w) !! api.Uid pod)) w) as Hl.
  unfold state_of in Hl.
  destruct (RunPodSandbox_loop _ _ _ _ w) as [[r w1] t]. exact Hl.
Qed.

Lemma StopPodSandbox_sharedState pod w :
  sharedState (state_of (StopPodSandbox pod w)) = sharedState w.
Proof.
  destruct (StopPodSandbox_run pod w) as (_ & -> & _).
  apply StopPodSandbox_loop_sharedState.
Qed.

(** No entry point adds an entry to [PodDeviceConfig]: an entry found after
    an operation was there before it. *)
Lemma run_op_PodDeviceConfig o w u devices :
  PodDeviceConfig (sharedState (run_op o w)) !! u = Some devices ->
  PodDeviceConfig (sharedState w) !! u = Some devices.
Proof.
  destruct o as [claims | claims | | pod | pod | pod]; cbn [run_op].
  - rewrite PrepareResourceClaims_PodDeviceConfig. auto.
  - rewrite UnprepareResourceClaims_run. auto.
  - auto.
  - rewrite RunPodSandbox_sharedState. auto.
  - rewrite StopPodSandbox_sharedState. auto.
  - unfold RemovePodSandbox. rewrite locked_run. cbn.
    intros Hdel. apply lookup_delete_Some in Hdel as [_ Hdel]. exact Hdel.
Qed.

Lemma reachable_PodDeviceConfig_empty w :
  reachable w -> PodDeviceConfig (sharedState w) = ∅.
Proof.
  induction 1 as [k | o w _ IH | w k _ IH].
  - reflexivity.
  - apply map_eq. intros u. rewrite lookup_empty.
    destruct (PodDeviceConfig (sharedState (run_op o w)) !! u) as [devices |] eqn:Hu;
      [| reflexivity].
    apply run_op_PodDeviceConfig in Hu. rewrite IH, lookup_empty in Hu.
    discriminate Hu.
  - exact IH.
Qed.

End NeverWritten.

(** C9 (the allocated-devices map stays empty).  In every reachable world the
    map [PodDeviceConfig] is empty, and stays empty after any entry point; so
    the device list the ready and stopping handlers read is empty for every
    pod, [RunPodSandbox] emits no I/O event at all, and [StopPodSandbox] only
    takes and releases the mutex: neither enters [NsAttachNetdev] or
    [NsDetachNetdev]. *)
Theorem PodDeviceConfig_never_populated `{Platform} (w : driver.World) :
  reachable w ->
  driver.PodDeviceConfig (driver.sharedState w) = ∅ /\
  (forall o, driver.PodDeviceConfig (driver.sharedState (run_op o w)) = ∅) /\
  forall pod,
    devices_of w pod = [] /\
    Forall (fun e => is_io e = false) (trace_of (driver.RunPodSandbox pod w)) /\
    trace_of (driver.StopPodSandbox pod w) = [EvLock; EvUnlock].
Proof.
  intros Hw. pose proof (reachable_PodDeviceConfig_empty w Hw) as Hempty.
  split; [exact Hempty |]. split.
  - intros o. apply reachable_PodDeviceConfig_empty. constructor. exact Hw.
  - intros pod.
    assert (Hdev : devices_of w pod = []).
    { unfold devices_of. rewrite Hempty, lookup_empty. reflexivity. }
    split; [exact Hdev |]. split.
    + unfold driver.RunPodSandbox. case_bool_decide; [constructor |].
      rewrite locked_run. unfold driver.get_sharedState, bind, trace_of at 1. cbn.
      fold (devices_of w pod). rewrite Hdev. cbn. repeat constructor.
    + destruct (StopPodSandbox_run pod w) as (-> & _ & _).
      rewrite Hdev. reflexivity.
Qed.

(** After a successful prepare the prepared name is recorded, but no device
    is: the ready handler takes the mutex and releases it. *)
Lemma PodDeviceConfig_never_populated_witness :
  reachable (run_op (OpPrepareResourceClaims [claim_eth0]) (world_new calm)) /\
  driver.PreparedData
    (driver.sharedState (run_op (OpPrepareResourceClaims [claim_eth0]) (world_new calm)))
    !! "uid-c2" = Some (any_string "eth0") /\
  driver.PodDeviceConfig
    (driver.sharedState (run_op (OpPrepareResourceClaims [claim_eth0]) (world_new calm)))
  = ∅ /\
  trace_of (driver.StopPodSandbox pod_w1
              (run_op (OpPrepareResourceClaims [claim_eth0]) (world_new calm)))
  = [EvLock; EvUnlock].
Proof.
  assert (Hw : reachable (run_op (OpPrepareResourceClaims [claim_eth0]) (world_new calm))).
  { apply reachable_op. apply (reachable_new (H:=scripted calm)). }
  destruct (PodDeviceConfig_never_populated _ Hw) as (Hempty & _ & Hpods).
  destruct (Hpods pod_w1) as (_ & _ & Hstop).
  split; [exact Hw |]. split; [reflexivity |]. split; [exact Hempty | exact Hstop].
Defined.

(* ===================================================================== *)
(** ** Detach: the outgoing name and the interrupted dump *)
(* ===================================================================== *)

(** C1, as the code has it.  Every modify-link request [NsDetachNetdev] sends
    is for the link it looked up and set down in the namespace, and names
    [outName] whenever [outName] is non-empty; only when [outName] is empty
    does it name the link's alias, and the link's current name when the alias
    is empty too. *)
Theorem NsDetachNetdev_outgoing_name `{Platform} (containerNsPAth devName outName : string)
    (k : kstate) (req : nl.NetlinkRequest) :
  EvCall (CExecute req) ∈ trace_of (NsDetachNetdev containerNsPAth devName outName k) ->
  exists h l,
    EvCall (CLinkSetDown (Some h) l)
      ∈ trace_of (NsDetachNetdev containerNsPAth devName outName k) /\
    nl.ifnames req = [outgoing_name outName l].
Proof.
  unfold NsDetachNetdev, outgoing_name. run_prog.
  (* one goal per path through the function: find the request in its trace *)
  all: intros Hin; in_trace Hin.
  all: injection Hin as ->.
  all: eexists _, _; split;
    [ repeat first [ apply list_elem_of_here | apply list_elem_of_further ]
    | cbn [nl.ifnames nl.Data nl.AddData nl.SetSocket nl.NewNetlinkRequest app omap
           list_omap Name Alias];
      repeat match goal with
             | Hb : bool_decide _ = _ |- _ => rewrite Hb
             end;
      reflexivity ].
Qed.

Lemma NsDetachNetdev_outgoing_name_witness :
  EvCall (CExecute request_eth0)
    ∈ trace_of (NsDetachNetdev (H:=scripted renamed) "/run/netns/w1" "net1" "" 0) /\
  exists h l,
    EvCall (CLinkSetDown (Some h) l)
      ∈ trace_of (NsDetachNetdev (H:=scripted renamed) "/run/netns/w1" "net1" "" 0) /\
    nl.ifnames request_eth0 = [outgoing_name "" l].
Proof.
  assert (Hin : EvCall (CExecute request_eth0)
                  ∈ trace_of (NsDetachNetdev (H:=scripted renamed)
                                "/run/netns/w1" "net1" "" 0)).
  { vm_compute. repeat first [ apply list_elem_of_here | apply list_elem_of_further ]. }
  split; [exact Hin |].
  exact (NsDetachNetdev_outgoing_name (H:=scripted renamed)
           "/run/netns/w1" "net1" "" 0 request_eth0 Hin).
Defined.

(** C1, as the specification states it, fails: detaching ["net1"], whose alias
    is ["eth0"], with restore name ["eth9"] sends ["eth9"] to the kernel. *)
Lemma detach_prefers_alias_fails : ~ detach_prefers_alias.
Proof.
  intros Hc.
  specialize (Hc (scripted renamed) 0 "/run/netns/w1" "net1" "eth9" 4 eth0_as_net1
                (nl.mkRequest 16 5 (Some 6)
                   [nl.IfInfomsg 0 7;
                    nl.RtAttr unix.IFLA_IFNAME (nl.ZeroTerminated "eth9");
                    nl.RtAttr unix.IFLA_NET_NS_FD (nl.Uint32Attr 5)])).
  assert (Hname : ["eth9"] = ["eth0"]); [| discriminate Hname].
  apply Hc.
  - discriminate.
  - vm_compute. repeat first [ apply list_elem_of_here | apply list_elem_of_further ].
  - discriminate.
  - vm_compute. repeat first [ apply list_elem_of_here | apply list_elem_of_further ].
Qed.

(** C2, on the code.  When the lookup of the device inside the namespace
    hands back an error that is an interrupted dump (with or without a
    link), [NsDetachNetdev] does not go on: it returns that error, wrapped,
    still recognisable by [errors.Is], and sends no request to the kernel. *)
Theorem NsDetachNetdev_surfaces_dump_interrupted `{Platform}
    (containerNsPAth devName outName : string) (k k1 k2 k3 : kstate)
    (containerNs : NsHandle) (nhNs : Handle) (l : option Link) (e : error) :
  k_GetFromPath containerNsPAth k = ((containerNs, None), k1) ->
  k_NewHandleAt containerNs k1 = ((nhNs, None), k2) ->
  k_LinkByName (Some nhNs) devName k2 = ((l, Some e), k3) ->
  errors_Is_ErrDumpInterrupted e = true ->
  outcome_of (NsDetachNetdev containerNsPAth devName outName k)
  = Returned (Some (ErrorfW "link not found for interface %s on namespace %s: %w"
                      [devName; containerNsPAth] e)) /\
  errors_Is_ErrDumpInterrupted
    (ErrorfW "link not found for interface %s on namespace %s: %w"
       [devName; containerNsPAth] e) = true /\
  Forall (fun ev => forall req, ev ≠ EvCall (CExecute req))
    (trace_of (NsDetachNetdev containerNsPAth devName outName k)).
Proof.
  intros Hns Hnh Hlook He.
  unfold NsDetachNetdev. unfold_prog.
  rewrite Hns. cbn [fst snd]. rewrite Hnh. cbn [fst snd]. rewrite Hlook. cbn.
  split; [reflexivity |]. split; [exact He |].
  repeat (constructor; [intros req; discriminate |]). constructor.
Qed.

(** The dump is interrupted while the link is found: detach fails where
    attach, on the same platform, goes through. *)
Lemma NsDetachNetdev_surfaces_dump_interrupted_witness :
  outcome_of (NsDetachNetdev (H:=scripted interrupted) "/run/netns/w1" "eth0" "eth0" 0)
  = Returned (Some (ErrorfW "link not found for interface %s on namespace %s: %w"
                      ["eth0"; "/run/netns/w1"] ErrDumpInterrupted)) /\
  outcome_of (NsAttachNetdev (H:=scripted interrupted) "eth0" "/run/netns/w1"
                (mkLinkAttrs 0 0 "eth0" None "" 0 0 0 0) [] 0)
  = Returned (Some (mkNetworkDeviceData "eth0" "" []), None).
Proof.
  split; [| reflexivity].
  apply (NsDetachNetdev_surfaces_dump_interrupted (H:=scripted interrupted)
           "/run/netns/w1" "eth0" "eth0" 0 1 2 2 3 4 (Some eth0) ErrDumpInterrupted);
    reflexivity.
Defined.

(** The engine's other lookups absorb an interrupted dump: with a link in
    hand, [NsAttachNetdev] goes through all three of them. *)
Lemma NsAttachNetdev_absorbs_dump_interrupted :
  NsAttachNetdev (H:=scripted (mkScript (Some eth0, Some ErrDumpInterrupted)
                                        (Some eth0, Some ErrDumpInterrupted)
                                        (Some ErrDumpInterrupted)))
    "eth0" "/run/netns/w1" LinkAttrs_zero [] 0
  = (Returned (Some (mkNetworkDeviceData "eth0" "" []), None), 0,
     [EvNsAttachNetdev "eth0" "/run/netns/w1" LinkAttrs_zero [];
      EvCall (CLinkByName None "eth0");
      EvCall (CLinkSetDown None eth0);
      EvCall (CGetFromPath "/run/netns/w1");
      EvCall (CGetNetlinkSocketAt (-1) (-1));
      EvCall (CExecute
                (nl.mkRequest 16 5 (Some 4)
                   [nl.IfInfomsg 0 7;
                    nl.RtAttr unix.IFLA_IFNAME (nl.ZeroTerminated "eth0");
                    nl.RtAttr unix.IFLA_NET_NS_FD (nl.Uint32Attr 3)]));
      EvCall (CNewHandleAt 3);
      EvCall (CLinkByName (Some 5) "eth0");
      EvCall (CLinkSetUp (Some 5) eth0);
      EvCall (CHandleClose 5); EvCall (CSocketClose 4); EvCall (CNsClose 3)]).
Proof. reflexivity. Qed.

(** So does the host-side lookup at the end of [NsDetachNetdev]. *)
Lemma NsDetachNetdev_absorbs_host_dump_interrupted :
  outcome_of
    (NsDetachNetdev (H:=scripted (mkScript (Some eth0, None)
                                           (Some eth0, Some ErrDumpInterrupted) None))
       "/run/netns/w1" "eth0" "eth0" 0)
  = Returned None.
Proof. reflexivity. Qed.

(* ===================================================================== *)
(** ** The relocation engine: the address loop *)
(* ===================================================================== *)

Section AddressLoop.
Context `{Platform}.

(** The loop adds the addresses in order on the handle and link it is given,
    stops at the first failure, which it reports with the address and the
    cause, and otherwise returns every address rendered, in order. *)
Lemma NsAttachNetdev_addresses_run nhNs nsLink ns data addrs k :
  exists n,
    trace_of (NsAttachNetdev_addresses nhNs nsLink ns data addrs k)
    = (fun a => EvCall (CAddrAdd nhNs nsLink (mkIPNet (IP a) (Mask a)))) <$> take n addrs /\
    match outcome_of (NsAttachNetdev_addresses nhNs nsLink ns data addrs k) with
    | Returned (inl d) =>
        n = length addrs /\
        d = mkNetworkDeviceData (InterfaceName data) (HardwareAddress data)
              (IPs data ++ ((fun a => IP_String (IP a)) <$> addrs))
    | Returned (inr e) =>
        exists pre a post cause,
          addrs = pre ++ a :: post /\ n = S (length pre) /\
          e = ErrorfW "fail to set up address %s on namespace %s: %w"
                [IP_String (IP a); ns] cause
    | Panicked _ => False
    end.
Proof.
  revert data k. induction addrs as [| a addrs IH]; intros data k.
  - exists 0%nat. split; [reflexivity |]. cbn. split; [reflexivity |].
    destruct data. cbn. rewrite app_nil_r. reflexivity.
  - cbn [NsAttachNetdev_addresses]. unfold netlink_AddrAdd. unfold_prog.
    destruct (k_AddrAdd nhNs nsLink _ k) as [[cause |] k1] eqn:Hadd; cbn [fst snd app].
    + exists 1%nat. split; [reflexivity |].
      exists [], a, addrs, cause. repeat split.
    + destruct (IH (mkNetworkDeviceData (InterfaceName data) (HardwareAddress data)
                      (IPs data ++ [IP_String (IP a)])) k1) as (n & Ht & Ho).
      unfold trace_of, outcome_of in Ht, Ho.
      destruct (NsAttachNetdev_addresses _ _ _ _ addrs k1) as [[r k2] t2].
      cbn [fst snd] in *. exists (S n). split.
      * cbn. rewrite Ht. reflexivity.
      * destruct r as [[d | e] | msg]; [| | exact Ho].
        -- destruct Ho as [-> ->]. split; [reflexivity |].
           cbn. rewrite <- app_assoc. reflexivity.
        -- destruct Ho as (pre & a' & post & cause & -> & -> & ->).
           exists (a :: pre), a', post, cause. repeat split.
Qed.

End AddressLoop.

(* ===================================================================== *)
(** ** The relocation engine: what attach sends and returns *)
(* ===================================================================== *)

Section AttachFacts.
Context `{Platform}.

(** What is known of the address loop once it has run. *)
Ltac loop_facts :=
  match goal with
  | Hl : NsAttachNetdev_addresses ?a ?b ?c ?d ?e ?f = (_, _, ?t) |- _ =>
      let n := fresh "n" in
      let Htr := fresh "Htr" in
      let Hout := fresh "Hout" in
      destruct (NsAttachNetdev_addresses_run a b c d e f) as (n & Htr & Hout);
      unfold trace_of, outcome_of in Htr, Hout; rewrite Hl in Htr, Hout;
      cbn [fst snd] in Htr, Hout; subst t; clear Hl
  end.

(** Membership of a request in a trace that may contain the address loop. *)
Ltac request_in_trace H :=
  rewrite <- ?app_assoc in H; cbn [app] in H;
  repeat first
    [ apply elem_of_cons in H as [H | H]; [try discriminate H |]
    | apply elem_of_app in H as [H | H];
      [ apply list_elem_of_fmap in H as (? & H & _); discriminate H |] ];
  try (apply elem_of_nil in H; destruct H).

Ltac find_in_trace :=
  rewrite <- ?app_assoc; cbn [app];
  repeat first [ apply list_elem_of_here
               | apply list_elem_of_further
               | apply elem_of_app; right ].

(** The request [NsAttachNetdev] builds, attribute by attribute, for the host
    link [l], the socket [s] and the namespace descriptor [n]. *)
Lemma attach_request_built (newAttr : LinkAttrs) (l : Link) (s : Socket) (n : NsHandle) :
  let req := nl.NewNetlinkRequest unix.RTM_NEWLINK
               (Z.lor unix.NLM_F_REQUEST unix.NLM_F_ACK) in
  let req := nl.SetSocket req s in
  let req := nl.AddData req (nl.IfInfomsg unix.AF_UNSPEC (int32 (Index l))) in
  let ifName := if bool_decide (Name newAttr ≠ "") then Name newAttr else Name l in
  let req := nl.AddData req (nl.RtAttr unix.IFLA_IFNAME (nl.ZeroTerminated ifName)) in
  let req := if bool_decide (MTU newAttr ≠ 0)
             then nl.AddData req
                    (nl.RtAttr unix.IFLA_MTU (nl.Uint32Attr (uint32 (MTU newAttr))))
             else req in
  let req := match HardwareAddr newAttr with
             | Some hw => nl.AddData req (nl.RtAttr unix.IFLA_ADDRESS (nl.Bytes hw))
             | None => req
             end in
  let req := if bool_decide (GSOMaxSize newAttr ≠ 0)
             then nl.AddData req
                    (nl.RtAttr unix.IFLA_GSO_MAX_SIZE (nl.Uint32Attr (GSOMaxSize newAttr)))
             else req in
  let req := if bool_decide (GROMaxSize newAttr ≠ 0)
             then nl.AddData req
                    (nl.RtAttr unix.IFLA_GRO_MAX_SIZE (nl.Uint32Attr (GROMaxSize newAttr)))
             else req in
  let req := if bool_decide (GSOIPv4MaxSize newAttr ≠ 0)
             then nl.AddData req
                    (nl.RtAttr unix.IFLA_GSO_IPV4_MAX_SIZE
                       (nl.Uint32Attr (GSOIPv4MaxSize newAttr)))
             else req in
  let req := if bool_decide (GROIPv4MaxSize newAttr ≠ 0)
             then nl.AddData req
                    (nl.RtAttr unix.IFLA_GRO_IPV4_MAX_SIZE
                       (nl.Uint32Attr (GROIPv4MaxSize newAttr)))
             else req in
  nl.AddData req (nl.RtAttr unix.IFLA_NET_NS_FD (nl.Uint32Attr (uint32 n)))
  = nl.mkRequest unix.RTM_NEWLINK (Z.lor unix.NLM_F_REQUEST unix.NLM_F_ACK) (Some s)
      (nl.IfInfomsg unix.AF_UNSPEC (int32 (Index l))
       :: nl.RtAttr unix.IFLA_IFNAME (nl.ZeroTerminated (attached_name newAttr l))
       :: configuration_attrs newAttr
       ++ [nl.RtAttr unix.IFLA_NET_NS_FD (nl.Uint32Attr (uint32 n))]).
Proof.
  cbv zeta. unfold configuration_attrs, attached_name.
  destruct (bool_decide (MTU newAttr ≠ 0)), (HardwareAddr newAttr),
    (bool_decide (GSOMaxSize newAttr ≠ 0)), (bool_decide (GROMaxSize newAttr ≠ 0)),
    (bool_decide (GSOIPv4MaxSize newAttr ≠ 0)), (bool_decide (GROIPv4MaxSize newAttr ≠ 0));
    reflexivity.
Qed.

(** X1 (what attach sends).  Every modify-link request of [NsAttachNetdev] is
    for the host link it set down, by index; it names [newAttr.Name], or the
    link's own name when that is empty; it carries the configuration
    attributes whose value in [newAttr] is not zero, in the order MTU,
    address, GSO, GRO, GSO-IPv4, GRO-IPv4; and it ends with the descriptor
    of the namespace, which the call closes before it returns. *)
Theorem NsAttachNetdev_request (hostIfName containerNsPAth : string)
    (newAttr : LinkAttrs) (addresses : list IPNet) (k : kstate)
    (req : nl.NetlinkRequest) :
  EvCall (CExecute req)
    ∈ trace_of (NsAttachNetdev hostIfName containerNsPAth newAttr addresses k) ->
  exists l n s,
    EvCall (CLinkSetDown None l)
      ∈ trace_of (NsAttachNetdev hostIfName containerNsPAth newAttr addresses k) /\
    EvCall (CNsClose n)
      ∈ trace_of (NsAttachNetdev hostIfName containerNsPAth newAttr addresses k) /\
    req = nl.mkRequest unix.RTM_NEWLINK (Z.lor unix.NLM_F_REQUEST unix.NLM_F_ACK) (Some s)
            (nl.IfInfomsg unix.AF_UNSPEC (int32 (Index l))
             :: nl.RtAttr unix.IFLA_IFNAME (nl.ZeroTerminated (attached_name newAttr l))
             :: configuration_attrs newAttr
             ++ [nl.RtAttr unix.IFLA_NET_NS_FD (nl.Uint32Attr (uint32 n))]).
Proof.
  unfold NsAttachNetdev. run_control.
  all: try loop_facts.
  all: intros Hin; request_in_trace Hin.
  all: injection Hin as ->.
  all: eexists _, _, _; split; [find_in_trace | split; [find_in_trace |]].
  all: apply attach_request_built.
Qed.

Lemma executes_addresses (f : IPNet -> event) (l : list IPNet) (rest : list event) :
  (forall a, exists h lk ip, f a = EvCall (CAddrAdd h lk ip)) ->
  executes ((f <$> l) ++ rest) = executes rest /\
  forall d, down_before_move d ((f <$> l) ++ rest) = down_before_move d rest.
Proof.
  intros Hf. induction l as [| a l [IH1 IH2]]; [split; reflexivity |].
  destruct (Hf a) as (h & lk & ip & Ha).
  split; [| intros d]; cbn; rewrite Ha; cbn; [apply IH1 | apply IH2].
Qed.

Lemma addr_adds_addresses h lk (g : IPNet -> IPNet) (l : list IPNet) :
  addr_adds ((fun a => EvCall (CAddrAdd h lk (g a))) <$> l)
  = (fun a => (h, lk, g a)) <$> l.
Proof. induction l as [| a l IH]; [reflexivity |]. cbn. f_equal. exact IH. Qed.

Ltac skip_addresses :=
  rewrite <- ?app_assoc; cbn [app];
  repeat match goal with
         | |- context [(?f <$> ?l) ++ ?rest] =>
             let He := fresh "He" in
             destruct (executes_addresses f l rest) as [He Hd];
             [ intros ?; eexists _, _, _; reflexivity |];
             unfold executes in He;
             rewrite ?He, ?Hd; clear He Hd
         end.

(** X2 (attach moves a downed device, once).  [NsAttachNetdev] sends at most
    one modify-link request, and only between setting the host link down and
    setting the link up in the namespace. *)
Theorem NsAttachNetdev_moves_once (hostIfName containerNsPAth : string)
    (newAttr : LinkAttrs) (addresses : list IPNet) (k : kstate) :
  (length (executes
             (trace_of (NsAttachNetdev hostIfName containerNsPAth newAttr addresses k)))
   <= 1)%nat /\
  down_before_move false
    (trace_of (NsAttachNetdev hostIfName containerNsPAth newAttr addresses k)) = true.
Proof.
  unfold NsAttachNetdev. run_control.
  all: try loop_facts.
  all: cbn [executes down_before_move omap list_omap andb length].
  all: try skip_addresses.
  all: cbn; split; [lia | reflexivity].
Qed.

Lemma addr_adds_app (t1 t2 : list event) :
  addr_adds (t1 ++ t2) = addr_adds t1 ++ addr_adds t2.
Proof. apply omap_app. Qed.


(** X24 (addresses, in order, before the link is set up).  [NsAttachNetdev]
    adds addresses only to one link through one handle, in the order of
    [addresses] and without skipping any; and it sets a link up in the
    namespace only after every address has been added. *)
Theorem NsAttachNetdev_adds_addresses_in_order (hostIfName containerNsPAth : string)
    (newAttr : LinkAttrs) (addresses : list IPNet) (k : kstate) :
  exists (n : nat) (nhNs : Handle) (nsLink : Link),
    addr_adds (trace_of (NsAttachNetdev hostIfName containerNsPAth newAttr addresses k))
    = (fun a => (nhNs, nsLink, mkIPNet (IP a) (Mask a))) <$> take n addresses /\
    forall h l,
      EvCall (CLinkSetUp h l)
        ∈ trace_of (NsAttachNetdev hostIfName containerNsPAth newAttr addresses k) ->
      take n addresses = addresses.
Proof.
  unfold NsAttachNetdev. run_control.
  all: try loop_facts.
  all: rewrite <- ?app_assoc; cbn [app].
  all: try solve
         [ exists 0%nat, 0, LinkAttrs_zero; split; [reflexivity |];
           intros h' l' Hin; exfalso; in_trace Hin ].
  all: match goal with
       | |- context [(_ <$> take ?n _) ++ _] =>
           match goal with
           | |- context [CAddrAdd ?h ?l _] => exists n, h, l
           end
       end.
  all: split;
    [ match goal with
      | |- addr_adds (?a :: ?b :: ?c :: ?d :: ?e :: ?f :: ?g :: ?h :: ?t ++ ?r) = _ =>
          change (a :: b :: c :: d :: e :: f :: g :: h :: t ++ r)
            with ([a; b; c; d; e; f; g; h] ++ t ++ r);
          rewrite !addr_adds_app, addr_adds_addresses; cbn; rewrite app_nil_r; reflexivity
      end
    | intros h' l' Hin ].
  all: try (destruct Hout as [-> _]; apply firstn_all).
  all: exfalso; request_in_trace Hin.
Qed.

End AttachFacts.

(* ===================================================================== *)
(** ** The relocation engine: descriptors *)
(* ===================================================================== *)

Section Accounting.
Context (P : Platform).

Ltac run_accounting :=
  unfold_prog;
  repeat (cbn [kstate k_LinkByName k_LinkSetDown k_LinkSetUp k_AddrAdd k_GetFromPath
               k_Get k_NsClose k_GetNetlinkSocketAt k_SocketClose k_NewHandleAt
               k_HandleClose k_Execute accounting fst snd app];
          first [case_control | case_call]).

Lemma close_descriptor_head (d : descriptor) (open : list descriptor) :
  close_descriptor d (d :: open) = open.
Proof. cbn. rewrite decide_True by reflexivity. reflexivity. Qed.

Ltac balance :=
  cbn [kstate k_NsClose k_SocketClose k_HandleClose accounting fst snd opened];
  rewrite ?close_descriptor_head;
  try reflexivity.

Lemma NsAttachNetdev_addresses_open nhNs nsLink ns data addrs
    (k : @kstate P) (open : list descriptor) :
  (state_of (@NsAttachNetdev_addresses (accounting P) nhNs nsLink ns data addrs
               (k, open))).2 = open.
Proof.
  revert data k. induction addrs as [| a addrs IH]; intros data k; [reflexivity |].
  cbn [NsAttachNetdev_addresses]. unfold netlink_AddrAdd. unfold_prog.
  cbn [kstate k_AddrAdd accounting fst snd].
  destruct (@k_AddrAdd P nhNs nsLink _ k) as [[e |] k1]; cbn [fst snd]; [reflexivity |].
  specialize (IH (mkNetworkDeviceData (InterfaceName data) (HardwareAddress data)
                    (IPs data ++ [@IP_String (accounting P) (IP a)])) k1).
  unfold state_of in IH.
  destruct (@NsAttachNetdev_addresses (accounting P) _ _ _ _ addrs (k1, open))
    as [[r s2] t2].
  exact IH.
Qed.

(** X4 (detach releases what it opened).  Whatever the platform answers,
    and also when a nil link makes it panic, [NsDetachNetdev] leaves open
    exactly the descriptors that were open when it was called: the namespace
    descriptors, the netlink handle and the socket it obtained are closed on
    every path. *)
Theorem NsDetachNetdev_closes_what_it_opens (containerNsPAth devName outName : string)
    (k : @kstate P) (open : list descriptor) :
  (state_of (@NsDetachNetdev (accounting P) containerNsPAth devName outName
               (k, open))).2 = open.
Proof.
  unfold NsDetachNetdev. run_accounting.
  all: balance.
Qed.

(** X5 (attach releases what it opened).  Whatever the platform answers, and
    also when a nil link makes it panic, [NsAttachNetdev] leaves open exactly
    the descriptors that were open when it was called. *)
Theorem NsAttachNetdev_closes_what_it_opens (hostIfName containerNsPAth : string)
    (newAttr : LinkAttrs) (addresses : list IPNet)
    (k : @kstate P) (open : list descriptor) :
  (state_of (@NsAttachNetdev (accounting P) hostIfName containerNsPAth newAttr addresses
               (k, open))).2 = open.
Proof.
  unfold NsAttachNetdev. run_accounting.
  all: try match goal with
       | Hl : @NsAttachNetdev_addresses _ ?a ?b ?c ?d ?e (?k1, ?o) = (_, ?s, _) |- _ =>
           let Ho := fresh "Ho" in
           pose proof (NsAttachNetdev_addresses_open a b c d e k1 o) as Ho;
           rewrite Hl in Ho; unfold state_of in Ho; cbn [fst snd] in Ho;
           destruct s as [? ?]; cbn [snd] in Ho; subst
       end.
  all: balance.
Qed.

End Accounting.

(* ===================================================================== *)
(** ** The relocation engine: what detach sends and returns *)
(* ===================================================================== *)

Section DetachFacts.
Context `{Platform}.



(** X7 (detach moves a downed device, once).  [NsDetachNetdev] sends at most
    one modify-link request, and only between setting the link down in the
    namespace and setting it up in the host namespace. *)
Theorem NsDetachNetdev_moves_once (containerNsPAth devName outName : string)
    (k : kstate) :
  (length (executes (trace_of (NsDetachNetdev containerNsPAth devName outName k))) <= 1)%nat /\
  down_before_move false (trace_of (NsDetachNetdev containerNsPAth devName outName k))
  = true.
Proof.
  unfold NsDetachNetdev. run_control.
  all: cbn; split; [lia | reflexivity].
Qed.


End DetachFacts.

(* ===================================================================== *)
(** ** The relocation engine: interrupted dumps that are absorbed *)
(* ===================================================================== *)

Section Tolerance.
Context `{Platform}.

(** Confront the answers a run has got with what the platform promises. *)
Ltac confront Haccept :=
  destruct Haccept as (Hdown & Hup & Hadd & Hpath & Hget & Hsock & Hhandle);
  repeat match goal with
         | Heq : k_LinkSetDown ?h ?l ?k = _ |- _ =>
             let X := fresh in pose proof (Hdown h l k) as X;
             rewrite Heq in X; cbn [fst snd] in X; clear Heq
         | Heq : k_LinkSetUp ?h ?l ?k = _ |- _ =>
             let X := fresh in pose proof (Hup h l k) as X;
             rewrite Heq in X; cbn [fst snd] in X; clear Heq
         | Heq : k_GetFromPath _ ?k = _ |- _ =>
             let X := fresh in pose proof (Hpath k) as X;
             rewrite Heq in X; cbn [fst snd] in X; clear Heq
         | Heq : k_Get ?k = _ |- _ =>
             let X := fresh in pose proof (Hget k) as X;
             rewrite Heq in X; cbn [fst snd] in X; clear Heq
         | Heq : k_GetNetlinkSocketAt ?a ?b ?k = _ |- _ =>
             let X := fresh in pose proof (Hsock a b k) as X;
             rewrite Heq in X; cbn [fst snd] in X; clear Heq
         | Heq : k_NewHandleAt ?a ?k = _ |- _ =>
             let X := fresh in pose proof (Hhandle a k) as X;
             rewrite Heq in X; cbn [fst snd] in X; clear Heq
         end.

Ltac absurd_answer :=
  solve [ exfalso;
          repeat match goal with
                 | X : _ /\ _ |- _ => destruct X
                 | X : is_Some None |- _ => destruct X; discriminate
                 | X : Some _ = None |- _ => discriminate X
                 | X : ?b = false, Y : ?b = true |- _ => rewrite X in Y; discriminate Y
                 end ].

Lemma NsAttachNetdev_addresses_accepted nhNs nsLink ns data addrs k :
  (forall h l a k, (k_AddrAdd h l a k).1 = None) ->
  exists d, outcome_of (NsAttachNetdev_addresses nhNs nsLink ns data addrs k)
            = Returned (inl d).
Proof.
  intros Hadd. revert data k. induction addrs as [| a addrs IH]; intros data k.
  - eexists. reflexivity.
  - cbn [NsAttachNetdev_addresses]. unfold netlink_AddrAdd. unfold_prog.
    pose proof (Hadd nhNs nsLink (mkIPNet (IP a) (Mask a)) k) as Ha.
    destruct (k_AddrAdd nhNs nsLink _ k) as [e k1]. cbn [fst snd] in *. subst e.
    destruct (IH (mkNetworkDeviceData (InterfaceName data) (HardwareAddress data)
                    (IPs data ++ [IP_String (IP a)])) k1) as [d Hd].
    unfold outcome_of in Hd.
    destruct (NsAttachNetdev_addresses _ _ _ _ addrs k1) as [[r k2] t2].
    cbn [fst snd] in *. subst r. eexists. reflexivity.
Qed.

(** X9 (attach absorbs interrupted dumps).  On a platform that accepts every
    call, finds the link at every lookup and lets the request through,
    [NsAttachNetdev] returns device data and no error even when each of its
    two lookups and the request report an interrupted dump. *)
Theorem NsAttachNetdev_tolerates_interrupted_dumps (hostIfName containerNsPAth : string)
    (newAttr : LinkAttrs) (addresses : list IPNet) (k : kstate) :
  kernel_accepts H containerNsPAth ->
  dumps_may_be_interrupted H ->
  exists data,
    outcome_of (NsAttachNetdev hostIfName containerNsPAth newAttr addresses k)
    = Returned (Some data, None).
Proof.
  intros Haccept [Hlook Hexec].
  pose proof Haccept as (_ & _ & Haddr & _).
  unfold NsAttachNetdev. run_control.
  all: repeat match goal with
         | Hl : NsAttachNetdev_addresses ?a ?b ?c ?d ?e ?f = (?r, _, _) |- _ =>
             let d' := fresh "d" in
             let Hd := fresh "Hd" in
             destruct (NsAttachNetdev_addresses_accepted a b c d e f Haddr) as [d' Hd];
             unfold outcome_of in Hd; rewrite Hl in Hd; cbn [fst snd] in Hd; clear Hl
         | Heq : k_LinkByName ?h ?n ?k = _ |- _ =>
             let X := fresh in pose proof (Hlook h n k) as X;
             rewrite Heq in X; cbn [fst snd] in X; clear Heq
         | Heq : k_Execute ?r ?k = _ |- _ =>
             let X := fresh in pose proof (Hexec r k) as X;
             rewrite Heq in X; cbn [fst snd] in X; clear Heq
         end.
  all: confront Haccept.
  all: try absurd_answer.
  all: try discriminate.
  all: eexists; reflexivity.
Qed.

(** X10 (detach absorbs an interrupted dump on the host side).  On a platform
    that accepts every call, finds the link at every lookup and accepts the
    request, [NsDetachNetdev] returns nil even when its closing lookup in the
    calling namespace reports an interrupted dump. *)
Theorem NsDetachNetdev_tolerates_host_interrupted_dump
    (containerNsPAth devName outName : string) (k : kstate) :
  kernel_accepts H containerNsPAth ->
  host_dumps_may_be_interrupted H ->
  outcome_of (NsDetachNetdev containerNsPAth devName outName k) = Returned None.
Proof.
  intros Haccept (Hns & Hhost & Hexec).
  unfold NsDetachNetdev. run_control.
  all: repeat match goal with
         | Heq : k_LinkByName (Some ?h) ?n ?k = _ |- _ =>
             let X := fresh in pose proof (Hns h n k) as X;
             rewrite Heq in X; cbn [fst snd] in X; clear Heq
         | Heq : k_LinkByName None ?n ?k = _ |- _ =>
             let X := fresh in pose proof (Hhost n k) as X;
             rewrite Heq in X; cbn [fst snd] in X; clear Heq
         | Heq : k_Execute ?r ?k = _ |- _ =>
             let X := fresh in pose proof (Hexec r k) as X;
             rewrite Heq in X; cbn [fst snd] in X; clear Heq
         end.
  all: confront Haccept.
  all: try absurd_answer.
  all: try discriminate.
  all: reflexivity.
Qed.

End Tolerance.

(* ===================================================================== *)
(** ** The relocation engine: witnesses *)
(* ===================================================================== *)

Lemma scripted_kernel_accepts (sc : script) (path : string) :
  path ≠ "" -> kernel_accepts (scripted sc) path.
Proof.
  intros Hpath. repeat split; intros; try reflexivity.
  cbn. rewrite bool_decide_eq_false_2 by exact Hpath. reflexivity.
Qed.

Lemma NsAttachNetdev_request_witness :
  EvCall (CExecute request_net1)
    ∈ trace_of (NsAttachNetdev (H:=scripted calm) "eth0" "/run/netns/w1"
                  net1_mtu9000 [link_local] 0) /\
  exists l n s,
    EvCall (CLinkSetDown None l)
      ∈ trace_of (NsAttachNetdev (H:=scripted calm) "eth0" "/run/netns/w1"
                    net1_mtu9000 [link_local] 0) /\
    EvCall (CNsClose n)
      ∈ trace_of (NsAttachNetdev (H:=scripted calm) "eth0" "/run/netns/w1"
                    net1_mtu9000 [link_local] 0) /\
    request_net1
    = nl.mkRequest unix.RTM_NEWLINK (Z.lor unix.NLM_F_REQUEST unix.NLM_F_ACK) (Some s)
        (nl.IfInfomsg unix.AF_UNSPEC (int32 (Index l))
         :: nl.RtAttr unix.IFLA_IFNAME (nl.ZeroTerminated (attached_name net1_mtu9000 l))
         :: configuration_attrs net1_mtu9000
         ++ [nl.RtAttr unix.IFLA_NET_NS_FD (nl.Uint32Attr (uint32 n))]).
Proof.
  assert (Hin : EvCall (CExecute request_net1)
                  ∈ trace_of (NsAttachNetdev (H:=scripted calm) "eth0" "/run/netns/w1"
                                net1_mtu9000 [link_local] 0)).
  { vm_compute. repeat first [ apply list_elem_of_here | apply list_elem_of_further ]. }
  split; [exact Hin |].
  exact (NsAttachNetdev_request (H:=scripted calm) "eth0" "/run/netns/w1"
           net1_mtu9000 [link_local] 0 request_net1 Hin).
Defined.


Lemma NsAttachNetdev_tolerates_interrupted_dumps_witness :
  kernel_accepts (scripted all_interrupted) "/run/netns/w1" /\
  dumps_may_be_interrupted (scripted all_interrupted) /\
  exists data,
    outcome_of (NsAttachNetdev (H:=scripted all_interrupted) "eth0" "/run/netns/w1"
                  net1_mtu9000 [link_local] 0)
    = Returned (Some data, None).
Proof.
  assert (Ha : kernel_accepts (scripted all_interrupted) "/run/netns/w1").
  { apply scripted_kernel_accepts. discriminate. }
  assert (Hd : dumps_may_be_interrupted (scripted all_interrupted)).
  { split; [intros [nh |] n k; split; first [eexists; reflexivity | reflexivity]
           | intros r k; reflexivity]. }
  split; [exact Ha |]. split; [exact Hd |].
  exact (NsAttachNetdev_tolerates_interrupted_dumps (H:=scripted all_interrupted)
           "eth0" "/run/netns/w1" net1_mtu9000 [link_local] 0 Ha Hd).
Defined.

Lemma NsDetachNetdev_tolerates_host_interrupted_dump_witness :
  kernel_accepts (scripted host_interrupted) "/run/netns/w1" /\
  host_dumps_may_be_interrupted (scripted host_interrupted) /\
  outcome_of (NsDetachNetdev (H:=scripted host_interrupted) "/run/netns/w1" "eth0" "eth0" 0)
  = Returned None.
Proof.
  assert (Ha : kernel_accepts (scripted host_interrupted) "/run/netns/w1").
  { apply scripted_kernel_accepts. discriminate. }
  assert (Hd : host_dumps_may_be_interrupted (scripted host_interrupted)).
  { split; [| split]; intros; first [split; first [eexists; reflexivity | reflexivity]
                                    | reflexivity]. }
  split; [exact Ha |]. split; [exact Hd |].
  exact (NsDetachNetdev_tolerates_host_interrupted_dump (H:=scripted host_interrupted)
           "/run/netns/w1" "eth0" "eth0" 0 Ha Hd).
Defined.



(* ===================================================================== *)
(** ** Prepare and unprepare: what the maps hold afterwards *)
(* ===================================================================== *)

Section PrepareMore.
Context `{Platform}.
Import driver.

(** One claim in front of a batch. *)
Lemma PrepareResourceClaims_loop_cons claim rest results w :
  PrepareResourceClaims_loop (claim :: rest) results w
  = match prepareDevice claim with
    | (_, Some e) =>
        PrepareResourceClaims_loop rest
          (<[resourceapi.UID claim := kubeletplugin.mkPrepareResult (Some e)]> results) w
    | (v, None) =>
        let r := PrepareResourceClaims_loop rest
                   (<[resourceapi.UID claim := kubeletplugin.mkPrepareResult None]> results)
                   (mkWorld (mkSharedState (PodDeviceConfig (sharedState w))
                               (<[resourceapi.UID claim := v]> (PreparedData (sharedState w))))
                            (kernel w)) in
        (outcome_of r, state_of r, EvLock :: EvUnlock :: trace_of r)
    end.
Proof.
  cbn [PrepareResourceClaims_loop].
  destruct (prepareDevice claim) as [v [e |]]; [reflexivity |].
  unfold mu_Lock, mu_Unlock, get_sharedState, put_sharedState, bind, emit,
    outcome_of, state_of, trace_of.
  cbn [fst snd app].
  destruct (PrepareResourceClaims_loop rest _ _) as [[[r | msg] w1] t]; reflexivity.
Qed.

(** The loop after a prefix of the batch continues from the results and the
    world the prefix produced. *)
Lemma PrepareResourceClaims_loop_app pre post results w :
  exists results1 pd1 t1,
    PrepareResourceClaims_loop pre results w
    = (Returned results1,
       mkWorld (mkSharedState (PodDeviceConfig (sharedState w)) pd1) (kernel w), t1) /\
    PrepareResourceClaims_loop (pre ++ post) results w
    = (outcome_of (PrepareResourceClaims_loop post results1
                     (mkWorld (mkSharedState (PodDeviceConfig (sharedState w)) pd1)
                              (kernel w))),
       state_of (PrepareResourceClaims_loop post results1
                   (mkWorld (mkSharedState (PodDeviceConfig (sharedState w)) pd1)
                            (kernel w))),
       t1 ++ trace_of (PrepareResourceClaims_loop post results1
                         (mkWorld (mkSharedState (PodDeviceConfig (sharedState w)) pd1)
                                  (kernel w)))).
Proof.
  revert results w. induction pre as [| c pre IH]; intros results w.
  - exists results, (PreparedData (sharedState w)), [].
    destruct w as [[pdc pd] k]. cbn.
    split; [reflexivity |].
    destruct (PrepareResourceClaims_loop post results _) as [[r w1] t]. reflexivity.
  - rewrite <- app_comm_cons, !PrepareResourceClaims_loop_cons.
    destruct (prepareDevice c) as [v [e |]].
    + apply IH.
    + destruct (IH (<[resourceapi.UID c := kubeletplugin.mkPrepareResult None]> results)
                  (mkWorld (mkSharedState (PodDeviceConfig (sharedState w))
                              (<[resourceapi.UID c := v]> (PreparedData (sharedState w))))
                           (kernel w)))
        as (results1 & pd1 & t1 & Hpre & Happ).
      cbn [sharedState PodDeviceConfig kernel] in Hpre, Happ.
      exists results1, pd1, (EvLock :: EvUnlock :: t1).
      cbv zeta. rewrite Hpre, Happ. split; reflexivity.
Qed.

(** The part of the loop's specification that concerns the identities a
    batch does not mention: nothing changes for them. *)
Lemma PrepareResourceClaims_loop_frame claims results w u :
  u ∉ resourceapi.UID <$> claims ->
  exists results' pd' t,
    PrepareResourceClaims_loop claims results w
    = (Returned results',
       mkWorld (mkSharedState (PodDeviceConfig (sharedState w)) pd') (kernel w), t) /\
    Forall (fun e => is_mutex e = true) t /\
    pd' !! u = PreparedData (sharedState w) !! u /\
    results' !! u = results !! u.
Proof.
  intros Hu.
  destruct (PrepareResourceClaims_loop_spec claims results w)
    as (results' & pd' & t & Hrun & Ht & Hspec).
  exists results', pd', t. split; [exact Hrun |]. split; [exact Ht |].
  destruct (Hspec u) as (Hpd & Hres & _).
  - intros c Hc Huid. exfalso. apply Hu. rewrite <- Huid.
    apply list_elem_of_fmap_2. exact Hc.
  - split; [exact Hpd | apply Hres, Hu].
Qed.

End PrepareMore.

(** X11 (prepare records the first granted device).  For the last claim of a
    batch filed under its UID, when its allocation grants at least one device:
    [PrepareResourceClaims] reports success under that UID and the prepared
    data under that UID is the name of the first granted device; further
    granted devices are ignored. *)
Theorem PrepareResourceClaims_records_first_device `{Platform} (w : driver.World)
    (pre post : list resourceapi.ResourceClaim) (claim : resourceapi.ResourceClaim)
    (allocation : resourceapi.AllocationResult)
    (first : resourceapi.DeviceRequestAllocationResult)
    (others : list resourceapi.DeviceRequestAllocationResult) :
  resourceapi.Allocation (resourceapi.Status claim) = Some allocation ->
  resourceapi.Results (resourceapi.Devices allocation) = first :: others ->
  resourceapi.UID claim ∉ resourceapi.UID <$> post ->
  exists results,
    outcome_of (driver.PrepareResourceClaims (pre ++ claim :: post) w)
    = Returned (results, None) /\
    results !! resourceapi.UID claim = Some (kubeletplugin.mkPrepareResult None) /\
    driver.PreparedData
      (driver.sharedState (state_of (driver.PrepareResourceClaims (pre ++ claim :: post) w)))
      !! resourceapi.UID claim
    = Some (any_string (resourceapi.Device first)).
Proof.
  intros Halloc Hres Hlast.
  assert (Hprep : driver.prepareDevice claim
                  = (any_string (resourceapi.Device first), None)).
  { unfold driver.prepareDevice. rewrite Halloc, Hres. reflexivity. }
  destruct (PrepareResourceClaims_loop_app pre (claim :: post) ∅ w)
    as (results1 & pd1 & t1 & _ & Happ).
  rewrite PrepareResourceClaims_loop_cons, Hprep in Happ. cbv zeta in Happ.
  cbn [driver.sharedState driver.PodDeviceConfig driver.PreparedData driver.kernel] in Happ.
  destruct (PrepareResourceClaims_loop_frame post
              (<[resourceapi.UID claim := kubeletplugin.mkPrepareResult None]> results1)
              (driver.mkWorld
                 (driver.mkSharedState (driver.PodDeviceConfig (driver.sharedState w))
                    (<[resourceapi.UID claim := any_string (resourceapi.Device first)]> pd1))
                 (driver.kernel w))
              (resourceapi.UID claim) Hlast)
    as (results' & pd' & t & Hrun & _ & Hpd & Hresult).
  cbn [driver.sharedState driver.PodDeviceConfig driver.PreparedData driver.kernel]
    in Hrun, Hpd.
  rewrite Hrun in Happ. unfold outcome_of, state_of, trace_of in Happ.
  cbn [fst snd] in Happ.
  exists results'.
  unfold driver.PrepareResourceClaims, bind, outcome_of, state_of.
  rewrite Happ. cbn.
  split; [reflexivity |]. split.
  - rewrite Hresult. apply lookup_insert_eq.
  - rewrite Hpd. apply lookup_insert_eq.
Qed.

Lemma PrepareResourceClaims_records_first_device_witness :
  exists results,
    outcome_of (driver.PrepareResourceClaims
                  ([claim_eth0] ++ claim_two_devices :: [claim_empty]) (world_new calm))
    = Returned (results, None) /\
    results !! "uid-c3" = Some (kubeletplugin.mkPrepareResult None) /\
    driver.PreparedData
      (driver.sharedState
         (state_of (driver.PrepareResourceClaims
                      ([claim_eth0] ++ claim_two_devices :: [claim_empty])
                      (world_new calm))))
      !! "uid-c3"
    = Some (any_string "eth2").
Proof.
  apply (PrepareResourceClaims_records_first_device (H:=scripted calm) (world_new calm)
           [claim_eth0] [claim_empty] claim_two_devices _ _ _ eq_refl eq_refl).
  intros Hin. apply elem_of_cons in Hin as [Hin | Hin]; [discriminate Hin |].
  apply elem_of_nil in Hin. exact Hin.
Defined.

(** X12 (prepare, then unprepare).  After a batch has been prepared and the
    same identities unprepared, no identity of the batch has prepared data,
    every other identity has the prepared data it had before, and the
    allocated-devices map and the kernel are as they were; if none of the
    identities had prepared data to begin with, the world is exactly the one
    before the prepare. *)
Theorem prepare_then_unprepare `{Platform} (w : driver.World)
    (claims : list resourceapi.ResourceClaim)
    (objs : list kubeletplugin.NamespacedObject) :
  kubeletplugin.UID <$> objs = resourceapi.UID <$> claims ->
  (forall u,
     driver.PreparedData
       (driver.sharedState
          (state_of (driver.UnprepareResourceClaims objs
                       (state_of (driver.PrepareResourceClaims claims w))))) !! u
     = if decide (u ∈ resourceapi.UID <$> claims) then None
       else driver.PreparedData (driver.sharedState w) !! u) /\
  driver.PodDeviceConfig
    (driver.sharedState
       (state_of (driver.UnprepareResourceClaims objs
                    (state_of (driver.PrepareResourceClaims claims w)))))
  = driver.PodDeviceConfig (driver.sharedState w) /\
  driver.kernel
    (state_of (driver.UnprepareResourceClaims objs
                 (state_of (driver.PrepareResourceClaims claims w))))
  = driver.kernel w /\
  ((forall u, u ∈ resourceapi.UID <$> claims ->
              driver.PreparedData (driver.sharedState w) !! u = None) ->
   state_of (driver.UnprepareResourceClaims objs
               (state_of (driver.PrepareResourceClaims claims w))) = w).
Proof.
  intros Hobjs.
  destruct (PrepareResourceClaims_loop_spec claims ∅ w)
    as (results & pd' & t & Hrun & _ & _).
  assert (Hstate : state_of (driver.PrepareResourceClaims claims w)
                   = driver.mkWorld
                       (driver.mkSharedState
                          (driver.PodDeviceConfig (driver.sharedState w)) pd')
                       (driver.kernel w)).
  { unfold driver.PrepareResourceClaims, bind, state_of. rewrite Hrun. reflexivity. }
  assert (Hframe : forall u, u ∉ resourceapi.UID <$> claims ->
                             pd' !! u = driver.PreparedData (driver.sharedState w) !! u).
  { intros u Hu.
    destruct (PrepareResourceClaims_loop_frame claims ∅ w u Hu)
      as (results2 & pd2 & t2 & Hrun2 & _ & Hpd & _).
    rewrite Hrun in Hrun2. injection Hrun2 as _ <- _. exact Hpd. }
  rewrite Hstate, UnprepareResourceClaims_run.
  cbn [state_of fst snd driver.sharedState driver.PreparedData driver.PodDeviceConfig
       driver.kernel].
  assert (Hlook : forall u,
             foldl (fun m c => delete (kubeletplugin.UID c) m) pd' objs !! u
             = if decide (u ∈ resourceapi.UID <$> claims) then None
               else driver.PreparedData (driver.sharedState w) !! u).
  { intros u. rewrite lookup_foldl_delete, Hobjs.
    case_decide as Hin; [reflexivity | apply Hframe, Hin]. }
  split; [exact Hlook |]. split; [reflexivity |]. split; [reflexivity |].
  intros Hfresh. destruct w as [[pdc pd] k]. cbn in *. f_equal. f_equal.
  apply map_eq. intros u. rewrite Hlook.
  case_decide as Hin; [symmetry; apply Hfresh, Hin | reflexivity].
Qed.

Lemma prepare_then_unprepare_witness :
  kubeletplugin.UID <$> (namespaced "default" <$> [claim_eth0; claim_two_devices])
  = resourceapi.UID <$> [claim_eth0; claim_two_devices] /\
  state_of (driver.UnprepareResourceClaims
              (namespaced "default" <$> [claim_eth0; claim_two_devices])
              (state_of (driver.PrepareResourceClaims [claim_eth0; claim_two_devices]
                           (world_new calm))))
  = world_new calm.
Proof.
  assert (Hobjs : kubeletplugin.UID <$> (namespaced "default" <$>
                                          [claim_eth0; claim_two_devices])
                  = resourceapi.UID <$> [claim_eth0; claim_two_devices])
    by reflexivity.
  split; [exact Hobjs |].
  destruct (prepare_then_unprepare (H:=scripted calm) (world_new calm)
              [claim_eth0; claim_two_devices]
              (namespaced "default" <$> [claim_eth0; claim_two_devices]) Hobjs)
    as (_ & _ & _ & Hback).
  apply Hback. intros u _. apply lookup_empty.
Defined.

(** X13 (removal is local).  [RemovePodSandbox] leaves the entries of every
    other identity, in both maps, and the kernel as they were. *)
Theorem RemovePodSandbox_other_identities `{Platform} (w : driver.World)
    (pod : api.PodSandbox) (u : string) :
  u ≠ api.Uid pod ->
  driver.PodDeviceConfig (driver.sharedState (state_of (driver.RemovePodSandbox pod w))) !! u
  = driver.PodDeviceConfig (driver.sharedState w) !! u /\
  driver.PreparedData (driver.sharedState (state_of (driver.RemovePodSandbox pod w))) !! u
  = driver.PreparedData (driver.sharedState w) !! u /\
  driver.kernel (state_of (driver.RemovePodSandbox pod w)) = driver.kernel w.
Proof.
  intros Hu. unfold driver.RemovePodSandbox. rewrite locked_run. cbn.
  split; [| split; [| reflexivity]]; apply lookup_delete_ne; congruence.
Qed.

Lemma RemovePodSandbox_other_identities_witness :
  "uid-w1" ≠ api.Uid (api.mkPodSandbox "w9" "uid-w9" "default" None) /\
  driver.PodDeviceConfig
    (driver.sharedState
       (state_of (driver.RemovePodSandbox (api.mkPodSandbox "w9" "uid-w9" "default" None)
                    (world_two_devices calm)))) !! "uid-w1"
  = Some [device_a; device_b].
Proof.
  assert (Hne : "uid-w1" ≠ api.Uid (api.mkPodSandbox "w9" "uid-w9" "default" None))
    by discriminate.
  split; [exact Hne |].
  destruct (RemovePodSandbox_other_identities (H:=scripted calm) (world_two_devices calm)
              (api.mkPodSandbox "w9" "uid-w9" "default" None) "uid-w1" Hne)
    as (Hpdc & _ & _).
  rewrite Hpdc. reflexivity.
Defined.

(* ===================================================================== *)
(** ** The ready handler: fail fast, no rollback *)
(* ===================================================================== *)

Section ReadyHandler.
Context `{Platform}.
Import driver.

Ltac emits_step :=
  lazymatch goal with
  | |- emits _ (match ?x with _ => _ end) => destruct x
  | |- emits _ (bind _ _) => apply emits_bind; [| intros]
  | |- emits _ (defer _ _) => apply emits_defer
  | |- emits _ (ret _) => apply emits_ret
  | |- emits _ (deref _) => apply emits_deref
  | |- emits _ (emit _) => apply emits_emit; try assumption
  | |- emits _ (syscall _ _) => apply emits_syscall; auto
  | |- emits _ (syscall_ _ _) => apply emits_syscall_; auto
  end.

Lemma emit_bind_shape {S A} (e : event) (m : Prog S A) (P : event -> Prop) :
  emits P m ->
  forall s, exists t, trace_of (bind (emit e) (fun _ => m) s) = e :: t /\ Forall P t.
Proof.
  intros Hm s. specialize (Hm s). unfold bind, emit, trace_of in *.
  destruct (m s) as [[r s1] t]. exists t. split; [reflexivity | exact Hm].
Qed.

(** A call of [NsAttachNetdev] is its entry event followed by platform
    calls only. *)
Lemma NsAttachNetdev_trace hostIfName ns newAttr addrs k :
  exists t,
    trace_of (NsAttachNetdev hostIfName ns newAttr addrs k)
    = EvNsAttachNetdev hostIfName ns newAttr addrs :: t /\
    Forall (fun e => is_call e = true) t.
Proof.
  unfold NsAttachNetdev. apply emit_bind_shape.
  unfold netlink_LinkByName, netlink_LinkSetDown, netlink_LinkSetUp,
    netns_GetFromPath, NsHandle_Close, nl_GetNetlinkSocketAt, Socket_Close,
    netlink_NewHandleAt, Handle_Close, req_Execute.
  repeat first [ apply NsAttachNetdev_addresses_emits; reflexivity | emits_step ].
Qed.

Lemma configureDeviceForPod_entries d ns pod prepared w :
  List.filter is_engine_entry (trace_of (configureDeviceForPod d ns pod prepared w))
  = attach_entries ns prepared 1.
Proof.
  unfold configureDeviceForPod, attach_entries.
  destruct prepared as [| name |]; try reflexivity.
  set (m := in_kernel (NsAttachNetdev name ns (mkLinkAttrs 0 0 name None "" 0 0 0 0) [])).
  assert (Ht : trace_of (bind m (fun '(_, err) => ret err) w) = trace_of (m w)).
  { unfold bind, ret, trace_of.
    destruct (m w) as [[[[data err] | msg] w1] t]; cbn; rewrite ?app_nil_r; reflexivity. }
  rewrite Ht. unfold m. rewrite in_kernel_trace.
  destruct (NsAttachNetdev_trace name ns (mkLinkAttrs 0 0 name None "" 0 0 0 0) []
              (kernel w)) as (t' & -> & Ht').
  cbn. rewrite (filter_entries_calls t' Ht'). reflexivity.
Qed.

Lemma configureDeviceForPod_no_detach d ns pod prepared :
  emits (fun e => forall a b c, e ≠ EvNsDetachNetdev a b c)
    (configureDeviceForPod d ns pod prepared).
Proof.
  unfold configureDeviceForPod. destruct prepared; try apply emits_ret.
  apply emits_bind.
  - apply emits_in_kernel, NsAttachNetdev_emits; intros; discriminate.
  - intros [? ?]. apply emits_ret.
Qed.

(** One round of the loop. *)
Lemma RunPodSandbox_loop_cons d rest ns pod prepared w :
  RunPodSandbox_loop (d :: rest) ns pod prepared w
  = match outcome_of (configureDeviceForPod d ns pod prepared w) with
    | Returned None =>
        (outcome_of (RunPodSandbox_loop rest ns pod prepared
                       (state_of (configureDeviceForPod d ns pod prepared w))),
         state_of (RunPodSandbox_loop rest ns pod prepared
                     (state_of (configureDeviceForPod d ns pod prepared w))),
         trace_of (configureDeviceForPod d ns pod prepared w)
         ++ trace_of (RunPodSandbox_loop rest ns pod prepared
                        (state_of (configureDeviceForPod d ns pod prepared w))))
    | Returned (Some e) =>
        (Returned (Some e), state_of (configureDeviceForPod d ns pod prepared w),
         trace_of (configureDeviceForPod d ns pod prepared w))
    | Panicked msg =>
        (Panicked msg, state_of (configureDeviceForPod d ns pod prepared w),
         trace_of (configureDeviceForPod d ns pod prepared w))
    end.
Proof.
  cbn [RunPodSandbox_loop]. unfold bind, ret, outcome_of, state_of, trace_of.
  destruct (configureDeviceForPod d ns pod prepared w) as [[[[e |] | msg] w1] t1];
    cbn [fst snd]; try rewrite app_nil_r; try reflexivity.
  destruct (RunPodSandbox_loop rest ns pod prepared w1) as [[r w2] t2]. reflexivity.
Qed.

(** After a prefix of devices that were all attached, the loop goes on with
    the rest from the world the prefix left. *)
Lemma RunPodSandbox_loop_app pre post ns pod prepared w :
  outcome_of (RunPodSandbox_loop pre ns pod prepared w) = Returned None ->
  RunPodSandbox_loop (pre ++ post) ns pod prepared w
  = (outcome_of (RunPodSandbox_loop post ns pod prepared
                   (state_of (RunPodSandbox_loop pre ns pod prepared w))),
     state_of (RunPodSandbox_loop post ns pod prepared
                 (state_of (RunPodSandbox_loop pre ns pod prepared w))),
     trace_of (RunPodSandbox_loop pre ns pod prepared w)
     ++ trace_of (RunPodSandbox_loop post ns pod prepared
                    (state_of (RunPodSandbox_loop pre ns pod prepared w)))).
Proof.
  revert w. induction pre as [| d pre IH]; intros w Hpre.
  - cbn. destruct (RunPodSandbox_loop post ns pod prepared w) as [[r w1] t]. reflexivity.
  - rewrite <- app_comm_cons, !RunPodSandbox_loop_cons in *.
    destruct (outcome_of (configureDeviceForPod d ns pod prepared w)) as [[e |] | msg];
      try discriminate Hpre.
    cbn [outcome_of state_of trace_of fst snd] in *.
    rewrite (IH _ Hpre). cbn [outcome_of state_of trace_of fst snd].
    rewrite app_assoc. reflexivity.
Qed.

Lemma RunPodSandbox_loop_entries devices ns pod prepared w :
  exists n,
    (n <= length devices)%nat /\
    List.filter is_engine_entry (trace_of (RunPodSandbox_loop devices ns pod prepared w))
    = attach_entries ns prepared n /\
    (outcome_of (RunPodSandbox_loop devices ns pod prepared w) = Returned None ->
     attach_entries ns prepared n = attach_entries ns prepared (length devices)).
Proof.
  revert w. induction devices as [| d rest IH]; intros w.
  - exists 0%nat. split; [lia |]. split; [destruct prepared; reflexivity | reflexivity].
  - rewrite RunPodSandbox_loop_cons.
    pose proof (configureDeviceForPod_entries d ns pod prepared w) as Hd.
    destruct (outcome_of (configureDeviceForPod d ns pod prepared w)) as [[e |] | msg].
    + exists 1%nat. cbn. split; [lia |]. split; [exact Hd | discriminate].
    + destruct (IH (state_of (configureDeviceForPod d ns pod prepared w)))
        as (n & Hn & Hfilter & Hok).
      exists (S n). cbn [outcome_of state_of trace_of fst snd length].
      split; [lia |]. split.
      * rewrite List.filter_app, Hd, Hfilter. destruct prepared; reflexivity.
      * intros Ho. specialize (Hok Ho). destruct prepared; try reflexivity.
        cbn in *. f_equal. exact Hok.
    + exists 1%nat. cbn. split; [lia |]. split; [exact Hd | discriminate].
Qed.

Lemma RunPodSandbox_loop_no_detach devices ns pod prepared :
  emits (fun e => forall a b c, e ≠ EvNsDetachNetdev a b c)
    (RunPodSandbox_loop devices ns pod prepared).
Proof.
  induction devices as [| d devices IH]; cbn [RunPodSandbox_loop].
  - apply emits_ret.
  - apply emits_bind; [apply configureDeviceForPod_no_detach |].
    intros [e |]; [apply emits_ret | exact IH].
Qed.

(** With a namespace path, the handler is its loop inside the critical
    section. *)
Lemma RunPodSandbox_run pod w :
  getNetworkNamespace pod ≠ "" ->
  RunPodSandbox pod w
  = (outcome_of (RunPodSandbox_loop (devices_of w pod) (getNetworkNamespace pod) pod
                   (prepared_of w pod) w),
     state_of (RunPodSandbox_loop (devices_of w pod) (getNetworkNamespace pod) pod
                 (prepared_of w pod) w),
     EvLock :: trace_of (RunPodSandbox_loop (devices_of w pod) (getNetworkNamespace pod)
                           pod (prepared_of w pod) w) ++ [EvUnlock]).
Proof.
  intros Hns. unfold RunPodSandbox, devices_of, prepared_of.
  rewrite bool_decide_eq_false_2 by exact Hns.
  rewrite locked_run. unfold get_sharedState, bind, outcome_of, state_of, trace_of.
  cbn [fst snd app].
  destruct (RunPodSandbox_loop _ _ _ _ w) as [[r w1] t]. reflexivity.
Qed.

End ReadyHandler.

(** X14 (the ready handler fails fast and does not roll back).  When the
    devices before [d] were attached and the attach of [d] returns an error,
    [RunPodSandbox] returns that error; its trace ends, before the unlock,
    with the attach of [d]: the devices after [d] are not touched; and
    nothing is detached, so the devices attached before [d] stay in the
    pod's namespace. *)
Theorem RunPodSandbox_fails_fast `{Platform} (w : driver.World) (pod : api.PodSandbox)
    (pre post : list driver.AllocatedDevice) (d : driver.AllocatedDevice) (e : error) :
  driver.getNetworkNamespace pod ≠ "" ->
  devices_of w pod = pre ++ d :: post ->
  outcome_of (driver.RunPodSandbox_loop pre (driver.getNetworkNamespace pod) pod
                (prepared_of w pod) w) = Returned None ->
  outcome_of (driver.configureDeviceForPod d (driver.getNetworkNamespace pod) pod
                (prepared_of w pod)
                (state_of (driver.RunPodSandbox_loop pre (driver.getNetworkNamespace pod)
                             pod (prepared_of w pod) w)))
  = Returned (Some e) ->
  outcome_of (driver.RunPodSandbox pod w) = Returned (Some e) /\
  trace_of (driver.RunPodSandbox pod w)
  = EvLock
    :: trace_of (driver.RunPodSandbox_loop pre (driver.getNetworkNamespace pod) pod
                   (prepared_of w pod) w)
    ++ trace_of (driver.configureDeviceForPod d (driver.getNetworkNamespace pod) pod
                   (prepared_of w pod)
                   (state_of (driver.RunPodSandbox_loop pre
                                (driver.getNetworkNamespace pod) pod
                                (prepared_of w pod) w)))
    ++ [EvUnlock] /\
  Forall (fun ev => forall a b c, ev ≠ EvNsDetachNetdev a b c)
    (trace_of (driver.RunPodSandbox pod w)).
Proof.
  intros Hns Hsplit Hpre Hd.
  rewrite (RunPodSandbox_run pod w Hns).
  cbn [outcome_of state_of trace_of fst snd].
  split; [| split].
  - rewrite Hsplit, (RunPodSandbox_loop_app pre (d :: post) _ _ _ _ Hpre).
    cbn [outcome_of fst snd]. rewrite RunPodSandbox_loop_cons, Hd. reflexivity.
  - rewrite Hsplit, (RunPodSandbox_loop_app pre (d :: post) _ _ _ _ Hpre).
    cbn [trace_of fst snd]. rewrite RunPodSandbox_loop_cons, Hd.
    cbn [trace_of fst snd]. rewrite <- app_assoc. reflexivity.
  - constructor; [discriminate |].
    apply Forall_app. split; [apply RunPodSandbox_loop_no_detach |].
    constructor; [discriminate | constructor].
Qed.

(** X15 (which attaches the ready handler makes).  With a namespace path,
    [RunPodSandbox] enters the engine only to attach the prepared device
    name, under that name, to the pod's namespace path, at most once per
    allocated device; when it returns nil it has done so once for every
    allocated device. *)
Theorem RunPodSandbox_attaches `{Platform} (w : driver.World) (pod : api.PodSandbox) :
  driver.getNetworkNamespace pod ≠ "" ->
  exists n,
    (n <= length (devices_of w pod))%nat /\
    List.filter is_engine_entry (trace_of (driver.RunPodSandbox pod w))
    = attach_entries (driver.getNetworkNamespace pod) (prepared_of w pod) n /\
    (outcome_of (driver.RunPodSandbox pod w) = Returned None ->
     List.filter is_engine_entry (trace_of (driver.RunPodSandbox pod w))
     = attach_entries (driver.getNetworkNamespace pod) (prepared_of w pod)
         (length (devices_of w pod))).
Proof.
  intros Hns. rewrite (RunPodSandbox_run pod w Hns).
  cbn [outcome_of state_of trace_of fst snd].
  destruct (RunPodSandbox_loop_entries (devices_of w pod) (driver.getNetworkNamespace pod)
              pod (prepared_of w pod) w) as (n & Hn & Hfilter & Hok).
  assert (Hall : List.filter is_engine_entry
                   (EvLock :: trace_of (driver.RunPodSandbox_loop (devices_of w pod)
                                          (driver.getNetworkNamespace pod) pod
                                          (prepared_of w pod) w) ++ [EvUnlock])
                 = attach_entries (driver.getNetworkNamespace pod) (prepared_of w pod) n).
  { cbn [List.filter is_engine_entry]. rewrite List.filter_app, Hfilter. cbn.
    apply app_nil_r. }
  exists n. split; [exact Hn |]. split; [exact Hall |].
  intros Ho. rewrite Hall. apply Hok, Ho.
Qed.

Lemma RunPodSandbox_fails_fast_witness :
  driver.getNetworkNamespace pod_w1 ≠ "" /\
  devices_of (world_two_devices rejecting) pod_w1 = [] ++ device_a :: [device_b] /\
  outcome_of (driver.RunPodSandbox pod_w1 (world_two_devices rejecting))
  = Returned (Some (ErrExternal "EBUSY")) /\
  List.filter is_engine_entry
    (trace_of (driver.RunPodSandbox pod_w1 (world_two_devices rejecting)))
  = [EvNsAttachNetdev "eth0" "/run/netns/w1" (mkLinkAttrs 0 0 "eth0" None "" 0 0 0 0) []].
Proof.
  assert (Hns : driver.getNetworkNamespace pod_w1 ≠ "") by discriminate.
  assert (Hsplit : devices_of (world_two_devices rejecting) pod_w1
                   = [] ++ device_a :: [device_b]) by reflexivity.
  destruct (RunPodSandbox_fails_fast (H:=scripted rejecting) (world_two_devices rejecting)
              pod_w1 [] [device_b] device_a (ErrExternal "EBUSY") Hns Hsplit
              eq_refl eq_refl) as (Hout & Htrace & _).
  split; [exact Hns |]. split; [exact Hsplit |]. split; [exact Hout |].
  rewrite Htrace. reflexivity.
Defined.

Lemma RunPodSandbox_attaches_witness :
  driver.getNetworkNamespace pod_w1 ≠ "" /\
  outcome_of (driver.RunPodSandbox pod_w1 (world_two_devices calm)) = Returned None /\
  List.filter is_engine_entry
    (trace_of (driver.RunPodSandbox pod_w1 (world_two_devices calm)))
  = [EvNsAttachNetdev "eth0" "/run/netns/w1" (mkLinkAttrs 0 0 "eth0" None "" 0 0 0 0) [];
     EvNsAttachNetdev "eth0" "/run/netns/w1" (mkLinkAttrs 0 0 "eth0" None "" 0 0 0 0) []].
Proof.
  assert (Hns : driver.getNetworkNamespace pod_w1 ≠ "") by discriminate.
  assert (Hout : outcome_of (driver.RunPodSandbox pod_w1 (world_two_devices calm))
                 = Returned None) by reflexivity.
  destruct (RunPodSandbox_attaches (H:=scripted calm) (world_two_devices calm) pod_w1 Hns)
    as (n & _ & _ & Hall).
  split; [exact Hns |]. split; [exact Hout |]. exact (Hall Hout).
Defined.

(* ===================================================================== *)
(** ** The handlers without prepared data *)
(* ===================================================================== *)

Section Unprepared.
Context `{Platform}.
Import driver.

Lemma StopPodSandbox_loop_unprepared devices ns pod prepared w :
  is_any_string prepared = false ->
  StopPodSandbox_loop devices ns pod prepared w
  = (Returned tt, w, cleanup_failure pod (invalid_prepared_data prepared) <$> devices).
Proof.
  intros Hp. induction devices as [| d rest IH]; [reflexivity |].
  cbn [StopPodSandbox_loop]. unfold cleanupDeviceForPod.
  destruct prepared; try discriminate Hp;
    unfold bind, ret, emit; rewrite IH; reflexivity.
Qed.

End Unprepared.

(** X16 (no prepared data).  When the prepared data of a pod is missing or is
    not a string, [StopPodSandbox] logs the failed type assertion once per
    allocated device, touches neither the kernel nor the maps, and returns
    nil; and [RunPodSandbox], for a pod with a namespace path and at least
    one allocated device, returns that type-assertion error without touching
    the kernel. *)
Theorem handlers_without_prepared_data `{Platform} (w : driver.World)
    (pod : api.PodSandbox) :
  is_any_string (prepared_of w pod) = false ->
  driver.StopPodSandbox pod w
  = (Returned None, w,
     EvLock :: (cleanup_failure pod (invalid_prepared_data (prepared_of w pod))
                  <$> devices_of w pod) ++ [EvUnlock]) /\
  forall d rest,
    devices_of w pod = d :: rest ->
    driver.getNetworkNamespace pod ≠ "" ->
    driver.RunPodSandbox pod w
    = (Returned (Some (invalid_prepared_data (prepared_of w pod))), w, [EvLock; EvUnlock]).
Proof.
  intros Hp. split.
  - unfold driver.StopPodSandbox. rewrite locked_run.
    unfold driver.get_sharedState, bind, ret.
    fold (devices_of w pod). fold (prepared_of w pod).
    rewrite (StopPodSandbox_loop_unprepared _ _ _ _ w Hp).
    cbn. rewrite app_nil_r. reflexivity.
  - intros d rest Hdev Hns.
    rewrite (RunPodSandbox_run pod w Hns), Hdev, RunPodSandbox_loop_cons.
    unfold driver.configureDeviceForPod.
    destruct (prepared_of w pod); try discriminate Hp; reflexivity.
Qed.

Lemma handlers_without_prepared_data_witness :
  is_any_string (prepared_of (world_unprepared calm) pod_w1) = false /\
  driver.StopPodSandbox pod_w1 (world_unprepared calm)
  = (Returned None, world_unprepared calm,
     [EvLock;
      EvLogError "failed to cleanup device %s for pod %s: %v" ["eth0"; "w1"]
        (Errorf "invalid prepared data type: expected string, got %T" ["<nil>"]);
      EvLogError "failed to cleanup device %s for pod %s: %v" ["eth1"; "w1"]
        (Errorf "invalid prepared data type: expected string, got %T" ["<nil>"]);
      EvUnlock]) /\
  driver.RunPodSandbox pod_w1 (world_unprepared calm)
  = (Returned (Some (Errorf "invalid prepared data type: expected string, got %T"
                       ["<nil>"])),
     world_unprepared calm, [EvLock; EvUnlock]).
Proof.
  assert (Hp : is_any_string (prepared_of (world_unprepared calm) pod_w1) = false)
    by reflexivity.
  destruct (handlers_without_prepared_data (H:=scripted calm) (world_unprepared calm)
              pod_w1 Hp) as (Hstop & Hrun).
  split; [exact Hp |]. split; [exact Hstop |].
  apply (Hrun device_a [device_b]); [reflexivity | discriminate].
Defined.

(* ===================================================================== *)
(** ** Which side each handler touches *)
(* ===================================================================== *)

(** X17 (maps on one side, kernel on the other).  The ready and stopping
    handlers only read the two maps; prepare, unprepare and removal leave the
    kernel as it was and make no call into the engine or the platform. *)
Theorem handlers_keep_to_their_side `{Platform} (w : driver.World) (pod : api.PodSandbox)
    (claims : list resourceapi.ResourceClaim)
    (objs : list kubeletplugin.NamespacedObject) :
  driver.sharedState (state_of (driver.RunPodSandbox pod w)) = driver.sharedState w /\
  driver.sharedState (state_of (driver.StopPodSandbox pod w)) = driver.sharedState w /\
  (driver.kernel (state_of (driver.PrepareResourceClaims claims w)) = driver.kernel w /\
   Forall (fun e => is_io e = false) (trace_of (driver.PrepareResourceClaims claims w))) /\
  (driver.kernel (state_of (driver.UnprepareResourceClaims objs w)) = driver.kernel w /\
   Forall (fun e => is_io e = false) (trace_of (driver.UnprepareResourceClaims objs w))) /\
  (driver.kernel (state_of (driver.RemovePodSandbox pod w)) = driver.kernel w /\
   Forall (fun e => is_io e = false) (trace_of (driver.RemovePodSandbox pod w))).
Proof.
  split; [apply RunPodSandbox_sharedState |].
  split; [apply StopPodSandbox_sharedState |].
  split; [| split].
  - destruct (PrepareResourceClaims_loop_spec claims ∅ w)
      as (results & pd' & t & Hrun & Ht & _).
    unfold driver.PrepareResourceClaims, bind, state_of, trace_of. rewrite Hrun. cbn.
    split; [reflexivity |]. rewrite app_nil_r.
    eapply Forall_impl; [exact Ht |]. intros [] He; cbn in *; congruence.
  - rewrite UnprepareResourceClaims_run. cbn. split; [reflexivity |].
    induction objs as [| o objs IH]; cbn; repeat constructor. exact IH.
  - unfold driver.RemovePodSandbox. rewrite locked_run. cbn.
    split; [reflexivity | repeat constructor].
Qed.

(* ===================================================================== *)
(** ** The namespace path of a sandbox *)
(* ===================================================================== *)

(** X18 (the first network namespace decides).  [getNetworkNamespace] returns
    the path of the first namespace of type ["network"], whatever follows
    it; when that path is empty [RunPodSandbox] rejects the pod as having no
    network namespace, even if a later network namespace has a path. *)
Theorem getNetworkNamespace_first `{Platform} (w : driver.World) (pod : api.PodSandbox)
    (before after : list api.LinuxNamespace) (ns : api.LinuxNamespace) :
  api.GetNamespaces (api.Linux pod) = before ++ ns :: after ->
  Forall (fun n => api.Type_ n ≠ "network") before ->
  api.Type_ ns = "network" ->
  driver.getNetworkNamespace pod = api.Path ns /\
  (api.Path ns = "" ->
   driver.RunPodSandbox pod w
   = (Returned (Some (Errorf "pod %s/%s has no network namespace"
                        [api.Namespace pod; api.Name pod])), w, [])).
Proof.
  intros Hsplit Hbefore Hns.
  assert (Hpath : driver.getNetworkNamespace pod = api.Path ns).
  { unfold driver.getNetworkNamespace. rewrite Hsplit. clear Hsplit.
    induction Hbefore as [| n before Hn _ IH]; cbn.
    - rewrite bool_decide_eq_true_2 by exact Hns. reflexivity.
    - rewrite bool_decide_eq_false_2 by exact Hn. exact IH. }
  split; [exact Hpath |].
  intros Hempty. unfold driver.RunPodSandbox. rewrite Hpath, Hempty. reflexivity.
Qed.

Lemma getNetworkNamespace_first_witness :
  driver.getNetworkNamespace pod_empty_path = "" /\
  driver.RunPodSandbox pod_empty_path (world_two_devices calm)
  = (Returned (Some (Errorf "pod %s/%s has no network namespace" ["default"; "w3"])),
     world_two_devices calm, []).
Proof.
  destruct (getNetworkNamespace_first (H:=scripted calm) (world_two_devices calm)
              pod_empty_path
              [api.mkLinuxNamespace "ipc" "/proc/43/ns/ipc"]
              [api.mkLinuxNamespace "network" "/run/netns/w3"]
              (api.mkLinuxNamespace "network" "") eq_refl)
    as (Hpath & Hrun).
  - repeat constructor. cbn. discriminate.
  - reflexivity.
  - split; [exact Hpath | exact (Hrun eq_refl)].
Defined.

(* ===================================================================== *)
(** ** Device discovery *)
(* ===================================================================== *)

Lemma land_bit_zero (flags : Z) (n : Z) :
  0 <= n -> (Z.land flags (2 ^ n) = 0 <-> Z.testbit flags n = false).
Proof.
  intros Hn. split.
  - intros Hland.
    assert (Hbit : Z.testbit (Z.land flags (2 ^ n)) n = false)
      by (rewrite Hland; apply Z.bits_0).
    rewrite Z.land_spec, Z.pow2_bits_true, andb_true_r in Hbit by exact Hn.
    exact Hbit.
  - intros Hbit. apply Z.bits_inj'. intros m Hm.
    rewrite Z.land_spec, Z.bits_0.
    destruct (Z.eq_dec n m) as [<- | Hne].
    + rewrite Hbit. reflexivity.
    + rewrite Z.pow2_bits_false by assumption. apply andb_false_r.
Qed.

Section DiscoveryFacts.
Context `{Platform}.

Lemma skipped_iff_not_publishable (link : ListedLink) :
  (bool_decide (Z.land (Flags link) net.FlagLoopback ≠ 0)
   || bool_decide (Z.land (Flags link) net.FlagUp = 0) = false /\
   String.prefix "veth" (Name (Attrs link))
   || String.prefix "docker" (Name (Attrs link))
   || String.prefix "cni" (Name (Attrs link)) = false)
  <-> publishable link.
Proof.
  unfold publishable, net.FlagLoopback, net.FlagUp.
  pose proof (land_bit_zero (Flags link) 2 ltac:(lia)) as Hlo.
  pose proof (land_bit_zero (Flags link) 0 ltac:(lia)) as Hup.
  change (2 ^ 2) with 4 in Hlo. change (2 ^ 0) with 1 in Hup.
  rewrite !orb_false_iff, !bool_decide_eq_false.
  split.
  - intros [[Hl Hu] [[Hv Hd] Hc]]. repeat split; try assumption.
    + destruct (Z.testbit (Flags link) 0) eqn:Hb; [reflexivity |].
      exfalso. apply Hu, Hup. reflexivity.
    + apply Hlo. destruct (Z.eq_dec (Z.land (Flags link) 4) 0); [assumption |].
      exfalso. apply Hl. assumption.
  - intros (Hu & Hl & Hv & Hd & Hc). repeat split; try assumption.
    + intros Hne. apply Hne, Hlo, Hl.
    + intros Hz. apply Hup in Hz. congruence.
Qed.

Lemma getDevices_loop_filter (links : list ListedLink) (devices : list device.Device) :
  getDevices_loop links devices
  = devices ++ (published <$> filter publishable links).
Proof.
  revert devices. induction links as [| link rest IH]; intros devices.
  - cbn. rewrite app_nil_r. reflexivity.
  - cbn [getDevices_loop].
    pose proof (skipped_iff_not_publishable link) as Hskip.
    destruct (bool_decide (Z.land (Flags link) net.FlagLoopback ≠ 0)
              || bool_decide (Z.land (Flags link) net.FlagUp = 0)) eqn:Hflags.
    + rewrite IH, filter_cons_False; [reflexivity |].
      intros Hp. apply Hskip in Hp as [Hp _]. discriminate Hp.
    + destruct (String.prefix "veth" (Name (Attrs link))
                || String.prefix "docker" (Name (Attrs link))
                || String.prefix "cni" (Name (Attrs link))) eqn:Hname.
      * rewrite IH, filter_cons_False; [reflexivity |].
        intros Hp. apply Hskip in Hp as [_ Hp]. discriminate Hp.
      * rewrite IH, filter_cons_True by (apply Hskip; split; reflexivity).
        rewrite <- app_assoc. reflexivity.
Qed.

End DiscoveryFacts.

(** X19 (what discovery publishes).  When [netlink.LinkList] reports no
    error, [getDevices] returns, in the order of the listing, one device for
    exactly the links that are up (flag bit 0), not loopback (flag bit 2) and
    not named [veth...], [docker...] or [cni...]; each device carries the
    link's name, as name and as ["interface-name"], and its hardware address
    rendered as ["mac-address"]. *)
Theorem getDevices_publishes `{Platform} (links : list ListedLink) :
  getDevices (links, None) = (published <$> filter publishable links, None).
Proof.
  unfold getDevices. rewrite getDevices_loop_filter. reflexivity.
Qed.

(** A listing with a loopback, a physical link, a link that is down, a veth
    and another physical link. *)
Lemma getDevices_publishes_example :
  device.Name <$> (getDevices (H:=scripted calm)
                     ([link_lo; link_eth0; link_eth1_down; link_veth; link_ens5], None)).1
  = ["eth0"; "ens5"].
Proof. vm_compute. reflexivity. Qed.

(* ===================================================================== *)
(** ** The publisher *)
(* ===================================================================== *)

(** X20 (the publisher).  Over any sequence of ticks, [publishResources]
    publishes once for every tick whose enumeration succeeded, and only for
    those: one pool named after the node, holding one slice with the devices
    discovery returns for that listing.  Neither a failed enumeration nor a
    failed publication ends the loop; the cancellation of the context does,
    and nothing that comes after it is looked at. *)
Theorem publishResources_publishes `{Platform} (nodeName : string)
    (ticks : list ((list ListedLink * option error) * option error))
    (later : list publisher_case) :
  (publishResources nodeName ((fun t => TickerC t.1 t.2) <$> ticks)).1 = false /\
  (publishResources nodeName (((fun t => TickerC t.1 t.2) <$> ticks) ++ CtxDone :: later)).1
  = true /\
  (publishResources nodeName (((fun t => TickerC t.1 t.2) <$> ticks) ++ CtxDone :: later)).2
  = (publishResources nodeName ((fun t => TickerC t.1 t.2) <$> ticks)).2 /\
  publications (publishResources nodeName ((fun t => TickerC t.1 t.2) <$> ticks)).2
  = (fun links =>
       resourceslice.mkDriverResources
         {[nodeName := resourceslice.mkPool
                         [resourceslice.mkSlice (published <$> filter publishable links)]]})
    <$> listings ticks.
Proof.
  induction ticks as [| [[links err] pub] ticks (IH1 & IH2 & IH3 & IH4)].
  - repeat split.
  - cbn [fmap list_fmap fst snd app publishResources listings omap list_omap].
    change (list_fmap _ _ ?f ticks) with (f <$> ticks).
    destruct err as [e |].
    + cbn [getDevices].
      destruct (publishResources nodeName ((fun t => TickerC t.1 t.2) <$> ticks))
        as [r1 ev1].
      destruct (publishResources nodeName
                  (((fun t => TickerC t.1 t.2) <$> ticks) ++ CtxDone :: later))
        as [r2 ev2].
      cbn [fst snd] in *. subst. repeat split. exact IH4.
    + rewrite getDevices_publishes.
      destruct (publishResources nodeName ((fun t => TickerC t.1 t.2) <$> ticks))
        as [r1 ev1].
      destruct (publishResources nodeName
                  (((fun t => TickerC t.1 t.2) <$> ticks) ++ CtxDone :: later))
        as [r2 ev2].
      cbn [fst snd] in *. subst. repeat split.
      destruct pub; cbn; f_equal; exact IH4.
Qed.

(* ===================================================================== *)
(** ** The NRI plugin loop *)
(* ===================================================================== *)

Lemma runNRIPlugin_from_exhausted (attempt : Z) (runs : list plugin_run) :
  maxAttempts <= attempt ->
  runNRIPlugin_from attempt runs = (NriFatal, [EvPluginFatal]).
Proof.
  intros Ha. destruct runs; cbn; rewrite bool_decide_eq_false_2 by lia; reflexivity.
Qed.

(** One turn that is not cut short by a cancellation. *)
Lemma runNRIPlugin_from_turn (attempt : Z) (run : plugin_run) (rest : list plugin_run) :
  attempt < maxAttempts ->
  cancelled run = false ->
  let next := if bool_decide (elapsed run > stabilityThreshold) then 0 else attempt + 1 in
  (runNRIPlugin_from attempt (run :: rest)).1 = (runNRIPlugin_from next rest).1 /\
  plugin_runs (runNRIPlugin_from attempt (run :: rest)).2
  = S (plugin_runs (runNRIPlugin_from next rest).2).
Proof.
  intros Ha Hc. cbn [runNRIPlugin_from]. rewrite bool_decide_eq_true_2 by exact Ha.
  rewrite Hc. unfold plugin_runs.
  destruct (bool_decide (elapsed run > stabilityThreshold));
    destruct (run_err run);
    match goal with
    | |- context [runNRIPlugin_from ?a rest] =>
        destruct (runNRIPlugin_from a rest) as [exit events]
    end;
    cbn; split; reflexivity.
Qed.

Lemma runNRIPlugin_from_window (attempt : Z) (window post : list plugin_run) :
  0 <= attempt ->
  Forall unstable window ->
  maxAttempts - attempt <= Z.of_nat (length window) ->
  (runNRIPlugin_from attempt (window ++ post)).1 = NriFatal.
Proof.
  intros Ha Hw. revert attempt Ha.
  induction Hw as [| run window [Hshort Hc] _ IH]; intros attempt Ha Hlen.
  - cbn in Hlen. rewrite runNRIPlugin_from_exhausted by lia. reflexivity.
  - destruct (decide (attempt < maxAttempts)) as [Hlt | Hge].
    + rewrite <- app_comm_cons.
      destruct (runNRIPlugin_from_turn attempt run (window ++ post) Hlt Hc) as [-> _].
      rewrite bool_decide_eq_false_2 by lia.
      apply IH; [lia |]. cbn [length] in Hlen. lia.
    + rewrite runNRIPlugin_from_exhausted by lia. reflexivity.
Qed.

(** X21 (ten unstable runs in a row are fatal).  Whatever ran before without
    a cancellation, ten consecutive runs that each lasted no longer than the
    stability threshold, with no cancellation, end the loop in [Fatalf]. *)
Theorem runNRIPlugin_gives_up (before window after : list plugin_run) :
  Forall (fun run => cancelled run = false) before ->
  Forall unstable window ->
  length window = 10%nat ->
  (runNRIPlugin (before ++ window ++ after)).1 = NriFatal.
Proof.
  intros Hb Hw Hlen. unfold runNRIPlugin.
  assert (Hgen : forall attempt, 0 <= attempt ->
            (runNRIPlugin_from attempt (before ++ window ++ after)).1 = NriFatal).
  { induction Hb as [| run before Hc _ IH]; intros attempt Ha.
    - cbn [app]. apply (runNRIPlugin_from_window attempt window after Ha Hw).
      rewrite Hlen. unfold maxAttempts. lia.
    - destruct (decide (attempt < maxAttempts)) as [Hlt | Hge].
      + rewrite <- app_comm_cons.
        destruct (runNRIPlugin_from_turn attempt run (before ++ window ++ after) Hlt Hc)
          as [-> _].
        apply IH. case_bool_decide; lia.
      + rewrite runNRIPlugin_from_exhausted by lia. reflexivity. }
  apply Hgen. lia.
Qed.

Lemma runNRIPlugin_gives_up_witness :
  (runNRIPlugin ([mkPluginRun 1 None false; mkPluginRun (stabilityThreshold + 1) None false]
                 ++ replicate 10 (mkPluginRun 1 (Some (ErrExternal "EOF")) false)
                 ++ [mkPluginRun 1 None true])).1 = NriFatal.
Proof.
  apply runNRIPlugin_gives_up.
  - repeat constructor.
  - repeat (constructor; [split; [unfold stabilityThreshold; cbn; lia | reflexivity] |]).
    constructor.
  - reflexivity.
Defined.

(** The history of the loop: the [attempt] most recent runs were unstable. *)
Lemma runNRIPlugin_from_fatal (attempt : Z) (runs earlier recent : list plugin_run) :
  (runNRIPlugin_from attempt runs).1 = NriFatal ->
  Forall (fun run => cancelled run = false) earlier ->
  Forall unstable recent ->
  Z.of_nat (length recent) = attempt ->
  attempt <= maxAttempts ->
  exists before window after,
    earlier ++ recent ++ runs = before ++ window ++ after /\
    length window = 10%nat /\
    Forall unstable window /\
    Forall (fun run => cancelled run = false) before /\
    (length earlier + length recent
     + plugin_runs (runNRIPlugin_from attempt runs).2)%nat
    = (length before + 10)%nat.
Proof.
  revert attempt earlier recent.
  induction runs as [| run rest IH]; intros attempt earlier recent Hf He Hr Hlen Hmax.
  - destruct (decide (attempt < maxAttempts)) as [Hlt | Hge].
    + cbn in Hf. rewrite bool_decide_eq_true_2 in Hf by exact Hlt. discriminate Hf.
    + rewrite runNRIPlugin_from_exhausted by lia.
      exists earlier, recent, []. unfold maxAttempts in *.
      split; [reflexivity |]. split; [lia |]. split; [exact Hr |].
      split; [exact He |]. cbn. lia.
  - destruct (decide (attempt < maxAttempts)) as [Hlt | Hge].
    + destruct (cancelled run) eqn:Hc.
      { cbn in Hf. rewrite bool_decide_eq_true_2 in Hf by exact Hlt.
        rewrite Hc in Hf.
        destruct (bool_decide (elapsed run > stabilityThreshold)); discriminate Hf. }
      destruct (runNRIPlugin_from_turn attempt run rest Hlt Hc) as [Hexit Hruns].
      rewrite Hexit in Hf. rewrite Hruns.
      destruct (bool_decide (elapsed run > stabilityThreshold)) eqn:Hstable.
      * destruct (IH 0 ((earlier ++ recent) ++ [run]) [] Hf) as
          (before & window & after & Heq & Hw & Hu & Hb & Hn).
        { apply Forall_app. split; [| repeat constructor; exact Hc].
          apply Forall_app. split; [exact He |].
          eapply Forall_impl; [exact Hr |]. intros r [_ Hrc]. exact Hrc. }
        { constructor. }
        { reflexivity. }
        { unfold maxAttempts. lia. }
        exists before, window, after.
        split; [rewrite <- Heq, <- !app_assoc; reflexivity |].
        split; [exact Hw |]. split; [exact Hu |]. split; [exact Hb |].
        rewrite !length_app in Hn. cbn in Hn. lia.
      * apply bool_decide_eq_false in Hstable.
        destruct (IH (attempt + 1) earlier (recent ++ [run]) Hf He) as
          (before & window & after & Heq & Hw & Hu & Hb & Hn).
        { apply Forall_app. split; [exact Hr |]. repeat constructor; [lia | exact Hc]. }
        { rewrite length_app. cbn. lia. }
        { lia. }
        exists before, window, after.
        split; [rewrite <- Heq, <- !app_assoc; reflexivity |].
        split; [exact Hw |]. split; [exact Hu |]. split; [exact Hb |].
        rewrite !length_app in Hn. cbn in Hn. lia.
    + rewrite runNRIPlugin_from_exhausted by lia.
      exists earlier, recent, (run :: rest). unfold maxAttempts in *.
      split; [reflexivity |]. split; [lia |]. split; [exact Hr |].
      split; [exact He |]. cbn. lia.
Qed.

(** X22 (the loop gives up only after ten unstable runs in a row).  When
    [runNRIPlugin] ends in [Fatalf], the runs it made end with ten
    consecutive runs that each lasted no longer than the stability threshold;
    no run before them was followed by a cancellation, and no run after them
    was made. *)
Theorem runNRIPlugin_fatal_only_after_ten (runs : list plugin_run) :
  (runNRIPlugin runs).1 = NriFatal ->
  exists before window after,
    runs = before ++ window ++ after /\
    length window = 10%nat /\
    Forall unstable window /\
    Forall (fun run => cancelled run = false) before /\
    plugin_runs (runNRIPlugin runs).2 = (length before + 10)%nat.
Proof.
  intros Hf.
  destruct (runNRIPlugin_from_fatal 0 runs [] [] Hf) as
    (before & window & after & Heq & Hw & Hu & Hb & Hn);
    try constructor; try (unfold maxAttempts; lia).
  exists before, window, after. repeat split; assumption.
Qed.

Lemma runNRIPlugin_fatal_only_after_ten_witness :
  exists before window after,
    mkPluginRun (stabilityThreshold + 1) None false
    :: replicate 10 (mkPluginRun 1 None false) ++ [mkPluginRun 1 None false]
    = before ++ window ++ after /\
    length window = 10%nat /\
    Forall unstable window /\
    Forall (fun run => cancelled run = false) before /\
    plugin_runs (runNRIPlugin
                   (mkPluginRun (stabilityThreshold + 1) None false
                    :: replicate 10 (mkPluginRun 1 None false)
                    ++ [mkPluginRun 1 None false])).2
    = (length before + 10)%nat.
Proof.
  apply runNRIPlugin_fatal_only_after_ten. reflexivity.
Defined.

Lemma runNRIPlugin_from_running (attempt next : Z) (runs rest : list plugin_run) :
  (runNRIPlugin_from attempt runs).1 = NriRunning next ->
  next < maxAttempts /\
  (runNRIPlugin_from attempt (runs ++ rest)).1 = (runNRIPlugin_from next rest).1 /\
  plugin_runs (runNRIPlugin_from attempt (runs ++ rest)).2
  = (length runs + plugin_runs (runNRIPlugin_from next rest).2)%nat /\
  (EvPluginFatal ∈ (runNRIPlugin_from attempt (runs ++ rest)).2 ->
   EvPluginFatal ∈ (runNRIPlugin_from next rest).2).
Proof.
  revert attempt. induction runs as [| run runs IH]; intros attempt Hrun.
  - destruct (decide (attempt < maxAttempts)) as [Hlt | Hge].
    + cbn in Hrun. rewrite bool_decide_eq_true_2 in Hrun by exact Hlt.
      injection Hrun as <-. repeat split; auto.
    + rewrite runNRIPlugin_from_exhausted in Hrun by lia. discriminate Hrun.
  - destruct (decide (attempt < maxAttempts)) as [Hlt | Hge].
    + destruct (cancelled run) eqn:Hc.
      { cbn in Hrun. rewrite bool_decide_eq_true_2 in Hrun by exact Hlt.
        rewrite Hc in Hrun.
        destruct (bool_decide (elapsed run > stabilityThreshold)); discriminate Hrun. }
      destruct (runNRIPlugin_from_turn attempt run runs Hlt Hc) as [Hexit _].
      rewrite Hexit in Hrun. apply IH in Hrun as (Hnext & Hgo & Hcount & Hfatal).
      rewrite <- app_comm_cons.
      destruct (runNRIPlugin_from_turn attempt run (runs ++ rest) Hlt Hc) as [-> ->].
      split; [exact Hnext |]. split; [exact Hgo |]. split; [rewrite Hcount; reflexivity |].
      intros Hin. apply Hfatal.
      cbn [runNRIPlugin_from] in Hin. rewrite bool_decide_eq_true_2 in Hin by exact Hlt.
      rewrite Hc in Hin.
      destruct (bool_decide (elapsed run > stabilityThreshold));
        destruct (run_err run);
        match type of Hin with
        | context [runNRIPlugin_from ?a (runs ++ rest)] =>
            destruct (runNRIPlugin_from a (runs ++ rest)) as [exit events]
        end;
        cbn in Hin;
        repeat (apply elem_of_cons in Hin as [Hin | Hin]; [discriminate Hin |]);
        exact Hin.
    + rewrite runNRIPlugin_from_exhausted in Hrun by lia. discriminate Hrun.
Qed.

(** X23 (a cancellation ends the loop without [Fatalf]).  When the loop is
    still running after some runs and the next run is followed by a
    cancellation, [runNRIPlugin] returns: it does not restart the plugin
    again and does not call [Fatalf], even if that run was the tenth unstable
    one in a row. *)
Theorem runNRIPlugin_cancelled (runs after : list plugin_run) (run : plugin_run)
    (attempt : Z) :
  (runNRIPlugin runs).1 = NriRunning attempt ->
  cancelled run = true ->
  (runNRIPlugin (runs ++ run :: after)).1 = NriReturned /\
  plugin_runs (runNRIPlugin (runs ++ run :: after)).2 = S (length runs) /\
  EvPluginFatal ∉ (runNRIPlugin (runs ++ run :: after)).2.
Proof.
  intros Hrun Hc. unfold runNRIPlugin in *.
  destruct (runNRIPlugin_from_running 0 attempt runs (run :: after) Hrun)
    as (Hlt & -> & -> & Hfatal).
  assert (Hlast : runNRIPlugin_from attempt (run :: after)
                  = (NriReturned,
                     EvPluginRun
                     :: match run_err run with
                        | Some e => [EvPluginFailed e]
                        | None => []
                        end
                     ++ (if bool_decide (elapsed run > stabilityThreshold)
                         then [EvPluginStable] else []))).
  { cbn [runNRIPlugin_from]. rewrite bool_decide_eq_true_2 by exact Hlt. rewrite Hc.
    destruct (bool_decide (elapsed run > stabilityThreshold)); reflexivity. }
  rewrite Hlast in *. cbn [fst snd] in *.
  split; [reflexivity |]. split.
  - unfold plugin_runs.
    destruct (run_err run), (bool_decide (elapsed run > stabilityThreshold)); cbn; lia.
  - intros Hin. apply Hfatal in Hin.
    destruct (run_err run), (bool_decide (elapsed run > stabilityThreshold));
      cbn in Hin;
      repeat (apply elem_of_cons in Hin as [Hin | Hin]; [discriminate Hin |]);
      apply elem_of_nil in Hin; exact Hin.
Qed.

Lemma runNRIPlugin_cancelled_witness :
  (runNRIPlugin (replicate 9 (mkPluginRun 1 None false))).1 = NriRunning 9 /\
  (runNRIPlugin (replicate 9 (mkPluginRun 1 None false)
                 ++ mkPluginRun 1 None true :: [mkPluginRun 1 None false])).1
  = NriReturned.
Proof.
  assert (Hrun : (runNRIPlugin (replicate 9 (mkPluginRun 1 None false))).1 = NriRunning 9)
    by reflexivity.
  split; [exact Hrun |].
  apply (runNRIPlugin_cancelled (replicate 9 (mkPluginRun 1 None false))
           [mkPluginRun 1 None false] (mkPluginRun 1 None true) 9 Hrun eq_refl).
Defined.
